(** * CELF-P3 dashboard: score normalisation and interpretation matching

    A shallow embedding of the JavaScript sources

      - [utils/scoreCalculator.js]   (module [ScoreCalculator])
      - [utils/dataParser.js]        (module [DataParser])
      - [retrievalEngine/retrievalEngine.js] (module [RetrievalEngine])
      - [insightAssembler/insightAssembler.js] (module [InsightAssembler])
      - [components/InsightsPanel.jsx], the body of its [useMemo]
                                     (module [InsightsPanel], and module
                                     [InsightsPanel64] with binary64 scores)
      - [getUniqueStudents] of [utils/dataParser.js] (module [UniqueStudents])
      - [components/StudentSwitcher.jsx], the recent list and the cursor
                                     (module [StudentSwitcher])
      - [getAvatarColor] of [utils/avatarUtils.js] (module [AvatarUtils])
      - [App.jsx], the body of its [useMemo] (module [App])
      - [components/ClinicalInsightAssistant.jsx], its two [useMemo]s
                                     (module [ClinicalInsightAssistant])

    followed by the properties proved about them.

    Conventions of the embedding.

      - A JavaScript number is [Js.num]: [NaN], or a finite value kept as an
        exact rational ([Q]); rounding of binary floating point and the two
        infinities are outside this model.  It carries the properties that
        rounding leaves as they are: orderings, signs, thresholds compared
        with whole-number scores, and the structure of the results.
      - Where the rounded result of an average decides the outcome, a number
        is a binary64 value ([Js64], over the primitive type [float]) and
        the arithmetic is that of IEEE 754.
      - A value that the code tests against [null], [undefined] or [NaN] is a
        [Js.value].  A field that [parseNumber] fills is [option Q]:
        [None] is [null], [Some q] a finite number.
      - A string is a [string]: a sequence of code units below 256.
      - An object used as an ordered map (own string keys in insertion order)
        is an association list; property access is [Js.get], the first
        binding of the key.
      - [Array.prototype.sort] sorts IN PLACE and is stable.  Every function
        that calls it on its argument returns, beside its result, the contents
        of the caller's array after the call.
      - The wall clock ([new Date()]), the local-time calendar conversion
        ([new Date(y, m, d)]) and [parseFloat] are parameters.
      - Template strings that only render numbers are kept as structured
        items holding the values rendered. *)

From Stdlib Require Import QArith Qabs ZArith List String Ascii Bool.
From Stdlib Require Import Lia Lqa Permutation Sorted.
From Stdlib Require PrimFloat.
Import ListNotations.

Local Open Scope Q_scope.

(* ================================================================== *)
(** ** JavaScript values                                               *)
(* ================================================================== *)

Module Js.

Inductive num : Type :=
| NaN
| Fin (q : Q).

Inductive value : Type :=
| Null
| Undefined
| Num (n : num).

(** [null] or a finite number, as stored by the parser. *)
Definition of_option (o : option Q) : value :=
  match o with
  | None => Null
  | Some q => Num (Fin q)
  end.

(** ToNumber. *)
Definition toNumber (v : value) : num :=
  match v with
  | Null => Fin 0
  | Undefined => NaN
  | Num n => n
  end.

(** ToBoolean: [null], [undefined], [NaN] and [0] are falsy. *)
Definition truthy (v : value) : bool :=
  match v with
  | Num (Fin q) => negb (Qeq_bool q 0)
  | _ => false
  end.

(** The global [isNaN]: ToNumber, then the NaN test. *)
Definition isNaN (v : value) : bool :=
  match toNumber v with
  | NaN => true
  | Fin _ => false
  end.

Definition is_null (v : value) : bool :=
  match v with Null => true | _ => false end.

Definition is_undefined (v : value) : bool :=
  match v with Undefined => true | _ => false end.

(** An arithmetic operator: exact on two finite numbers, [NaN] as soon as
    an operand is [NaN]. *)
Definition lift2 (f : Q -> Q -> Q) (a b : num) : num :=
  match a, b with
  | Fin x, Fin y => Fin (f x y)
  | _, _ => NaN
  end.

Definition add : num -> num -> num := lift2 Qplus.
Definition sub : num -> num -> num := lift2 Qminus.
(** Division by a non-zero finite divisor (every divisor in the sources is
    a positive constant or a non-zero length). *)
Definition div : num -> num -> num := lift2 Qdiv.

Definition abs (a : num) : num :=
  match a with
  | NaN => NaN
  | Fin x => Fin (Qabs x)
  end.

Definition mul : num -> num -> num := lift2 Qmult.

(** Relational operators: every comparison with [NaN] is false. *)
Definition le (a b : num) : bool :=
  match a, b with
  | Fin x, Fin y => Qle_bool x y
  | _, _ => false
  end.

Definition lt (a b : num) : bool :=
  match a, b with
  | Fin x, Fin y => negb (Qle_bool y x)
  | _, _ => false
  end.

Definition ge (a b : num) : bool := le b a.
Definition gt (a b : num) : bool := lt b a.

(** [o[k]] on an object with own keys in insertion order. *)
Fixpoint get {A : Type} (k : string) (o : list (string * A)) : option A :=
  match o with
  | [] => None
  | (k', v) :: o' => if String.eqb k' k then Some v else get k o'
  end.

(** [Object.keys]. *)
Definition keys {A : Type} (o : list (string * A)) : list string :=
  map fst o.

(** [s || d] on strings: the empty string is falsy. *)
Definition str_or (s d : string) : string :=
  match s with
  | EmptyString => d
  | _ => s
  end.

(** [Array.prototype.includes] on an array of strings. *)
Definition includes (l : list string) (k : string) : bool :=
  existsb (String.eqb k) l.

(** [Array.prototype.sort(cmp)]: the stable sort by a comparator whose sign
    orders two elements.  A comparator result that is negative or zero
    keeps the first argument in front; [NaN] counts as zero. *)
Definition keeps_order (c : num) : bool :=
  match c with
  | NaN => true
  | Fin q => Qle_bool q 0
  end.

Fixpoint sort_insert {A : Type} (cmp : A -> A -> num) (x : A) (l : list A)
  : list A :=
  match l with
  | [] => [x]
  | y :: l' =>
      if keeps_order (cmp x y) then x :: l else y :: sort_insert cmp x l'
  end.

Definition sort {A : Type} (cmp : A -> A -> num) (l : list A) : list A :=
  fold_right (sort_insert cmp) [] l.

End Js.

(* ================================================================== *)
(** ** JavaScript numbers with their rounding                          *)
(* ================================================================== *)

Module Js64.

Import PrimFloat.

(** A number as the engine holds it: an IEEE 754 binary64 value, the
    primitive type [float].  The operators [+], [-] and [/] round to
    nearest, ties to even; a comparison with NaN is false. *)
Inductive value : Type :=
| Null
| Undefined
| Num (n : float).

(** [null] or a number, as stored by the parser. *)
Definition of_option (o : option float) : value :=
  match o with
  | None => Null
  | Some n => Num n
  end.

(** ToNumber. *)
Definition toNumber (v : value) : float :=
  match v with
  | Null => 0%float
  | Undefined => nan
  | Num n => n
  end.

Definition is_null (v : value) : bool :=
  match v with Null => true | _ => false end.

Definition is_undefined (v : value) : bool :=
  match v with Undefined => true | _ => false end.

Definition add (a b : float) : float := (a + b)%float.
Definition sub (a b : float) : float := (a - b)%float.
Definition div (a b : float) : float := (a / b)%float.
Definition abs (a : float) : float := PrimFloat.abs a.

Definition le (a b : float) : bool := (a <=? b)%float.
Definition lt (a b : float) : bool := (a <? b)%float.
Definition ge (a b : float) : bool := (b <=? a)%float.
Definition gt (a b : float) : bool := (b <? a)%float.

(** An integer as a number; the conversion is exact below 2^53. *)
Fixpoint ofPositive (p : positive) : float :=
  match p with
  | xH => 1%float
  | xO q => (2 * ofPositive q)%float
  | xI q => (2 * ofPositive q + 1)%float
  end.

Definition ofZ (z : Z) : float :=
  match z with
  | Z0 => 0%float
  | Zpos p => ofPositive p
  | Zneg p => (- ofPositive p)%float
  end.

(** [array.length] as a number. *)
Definition ofLength (n : nat) : float := ofZ (Z.of_nat n).

(** [Array.prototype.sort] reads only the sign of what a comparator
    returns: the result of a numeric comparator as [Js.sort] takes it. *)
Definition sign (c : float) : Js.num :=
  if is_nan c then Js.NaN
  else if (c <? 0)%float then Js.Fin (-1)
  else if (0 <? c)%float then Js.Fin 1
  else Js.Fin 0.

End Js64.

(* ================================================================== *)
(** ** utils/scoreCalculator.js                                        *)
(* ================================================================== *)

Module ScoreCalculator.

Inductive instrument : Type := standard | scaled.

Record params : Type := { mean : Q; sd : Q }.

Definition NORMATIVE_PARAMS (t : instrument) : params :=
  match t with
  | standard => {| mean := 100; sd := 15 |}
  | scaled => {| mean := 10; sd := 3 |}
  end.

Definition calculateZScore (score : Js.value) (type : instrument)
  : Js.value :=
  if Js.is_null score || Js.is_undefined score || Js.isNaN score
  then Js.Null
  else
    let p := NORMATIVE_PARAMS type in
    Js.Num (Js.div (Js.sub (Js.toNumber score) (Js.Fin (mean p)))
                   (Js.Fin (sd p))).

Definition getNormativeBand (zScore : Js.value) : string :=
  if Js.is_null zScore || Js.is_undefined zScore || Js.isNaN zScore
  then "No Data"%string
  else
    let z := Js.toNumber zScore in
    if Js.le z (Js.Fin (-2)) then "Significantly Below Average"%string
    else if Js.le z (Js.Fin (-1)) then "Below Average"%string
    else if Js.le z (Js.Fin 1) then "Average"%string
    else if Js.le z (Js.Fin 2) then "Above Average"%string
    else "Significantly Above Average"%string.

(** [getSimplifiedBand]: ['below'], ['average'], ['above'], or [null]. *)
Definition getSimplifiedBand (zScore : Js.value) : option string :=
if Js.is_null zScore || Js.is_undefined zScore || Js.isNaN zScore
then None
else
  let z := Js.toNumber zScore in
  if Js.lt z (Js.Fin (-1)) then Some "below"%string
  else if Js.le z (Js.Fin 1) then Some "average"%string
  else Some "above"%string.

End ScoreCalculator.

(* ================================================================== *)
(** ** utils/dataParser.js                                             *)
(* ================================================================== *)

Module DataParser.

Local Open Scope string_scope.

Definition TEST_NAMES : list (string * string) :=
  [ ("SC", "Sentence Comprehension");
    ("WS", "Word Structure");
    ("EV", "Expressive Vocabulary");
    ("FD", "Formulated Sentences");
    ("RS", "Recalling Sentences");
    ("BC", "Basic Concepts");
    ("WC", "Word Classes");
    ("PA", "Phonological Awareness");
    ("DPP", "Following Directions");
    ("PRS", "Understanding Spoken Paragraphs");
    ("CLS", "Core Language Score");
    ("RLI", "Receptive Language Index");
    ("ELI", "Expressive Language Index");
    ("LCI", "Language Content Index");
    ("LSI", "Language Structure Index");
    ("ALRI", "Academic Language Readiness Index");
    ("ErLi", "Early Literacy Index") ].

(** *** Strings *)

Definition is_digit (c : ascii) : bool :=
  let n := nat_of_ascii c in (48 <=? n)%nat && (n <=? 57)%nat.

(** White space of [String.prototype.trim] among the code units below 256,
    the characters a [string] holds: tab, line feed, vertical tab, form
    feed, carriage return, space and the no-break space U+00A0. *)
Definition is_space (c : ascii) : bool :=
  let n := nat_of_ascii c in
  ((9 <=? n)%nat && (n <=? 13)%nat) || (n =? 32)%nat || (n =? 160)%nat.

Fixpoint trim_start (s : string) : string :=
  match s with
  | String c s' => if is_space c then trim_start s' else s
  | EmptyString => EmptyString
  end.

Fixpoint rev_onto (s acc : string) : string :=
  match s with
  | EmptyString => acc
  | String c s' => rev_onto s' (String c acc)
  end.

Definition rev_string (s : string) : string := rev_onto s EmptyString.

Definition trim (s : string) : string :=
  rev_string (trim_start (rev_string (trim_start s))).

(** ToNumber of a string of decimal digits. *)
Fixpoint digits_value (s : string) (acc : Z) : Z :=
  match s with
  | EmptyString => acc
  | String c s' =>
      digits_value s' (10 * acc + (Z.of_nat (nat_of_ascii c) - 48))%Z
  end.

(** *** The two date patterns

    The patterns carry no anchor, so [String.prototype.match] finds the
    leftmost place where the pattern fits.  As neither separator is a
    digit, the greedy [\d{1,2}] never needs to give a digit back. *)

(** [(\d{1,2})] followed by the separator; the capture and what follows. *)
Definition digits12_sep (sep : ascii) (s : string)
  : option (string * string) :=
  match s with
  | String a (String b r) =>
      if is_digit a then
        if is_digit b then
          match r with
          | String c r' =>
              if Ascii.eqb c sep
              then Some (String a (String b EmptyString), r')
              else None
          | EmptyString => None
          end
        else if Ascii.eqb b sep then Some (String a EmptyString, r)
        else None
      else None
  | _ => None
  end.

(** [(\d{1,2})] closing a pattern. *)
Definition digits12_end (s : string) : option string :=
  match s with
  | String a r =>
      if is_digit a then
        match r with
        | String b _ =>
            if is_digit b then Some (String a (String b EmptyString))
            else Some (String a EmptyString)
        | EmptyString => Some (String a EmptyString)
        end
      else None
  | EmptyString => None
  end.

(** [(\d{4})]; the capture and what follows. *)
Definition digits4 (s : string) : option (string * string) :=
  match s with
  | String a (String b (String c (String d r))) =>
      if is_digit a && is_digit b && is_digit c && is_digit d
      then Some (String a (String b (String c (String d EmptyString))), r)
      else None
  | _ => None
  end.

(** [/(\d{1,2})\/(\d{1,2})\/(\d{4})/] at the head of [s]:
    the captures (month, day, year). *)
Definition format_MDY_here (s : string) : option (string * string * string) :=
  match digits12_sep "/" s with
  | Some (month, s1) =>
      match digits12_sep "/" s1 with
      | Some (day, s2) =>
          match digits4 s2 with
          | Some (year, _) => Some (month, day, year)
          | None => None
          end
      | None => None
      end
  | None => None
  end.

(** [/(\d{4})-(\d{1,2})-(\d{1,2})/] at the head of [s]:
    the captures (year, month, day). *)
Definition format_YMD_here (s : string) : option (string * string * string) :=
  match digits4 s with
  | Some (year, String sep s1) =>
      if Ascii.eqb sep "-" then
        match digits12_sep "-" s1 with
        | Some (month, s2) =>
            match digits12_end s2 with
            | Some day => Some (year, month, day)
            | None => None
            end
        | None => None
        end
      else None
  | _ => None
  end.

(** [str.match(re)] for a pattern without anchors: leftmost fit. *)
Fixpoint regex_match {A : Type} (here : string -> option A) (s : string)
  : option A :=
  match here s with
  | Some m => Some m
  | None =>
      match s with
      | EmptyString => None
      | String _ s' => regex_match here s'
      end
  end.

(** The arguments handed to [new Date(year, monthIndex, day)]. *)
Record DateArgs : Type :=
  { year : Z; monthIndex : Z; day : Z }.

Definition parseDate (dateStr : option string) : option DateArgs :=
  match dateStr with
  | None => None
  | Some str =>
      if String.eqb str "" || String.eqb (trim str) "" then None
      else
        match regex_match format_MDY_here str with
        | Some (month, day, year) =>
            Some {| year := digits_value year 0;
                    monthIndex := digits_value month 0 - 1;
                    day := digits_value day 0 |}
        | None =>
            match regex_match format_YMD_here str with
            | Some (year, month, day) =>
                Some {| year := digits_value year 0;
                        monthIndex := digits_value month 0 - 1;
                        day := digits_value day 0 |}
            | None => None
            end
        end
  end.

(** *** Numbers *)

Section WithParseFloat.

(** The built-in [parseFloat]. *)
Variable parseFloat : string -> Js.num.

Definition parseNumber (value : option string) : option Q :=
  match value with
  | None => None
  | Some v =>
      if String.eqb v "" || String.eqb v "#N/A" || String.eqb v "-1"
      then None
      else
        match parseFloat v with
        | Js.NaN => None
        | Js.Fin num => Some num
        end
  end.

Record TestResult : Type :=
  { standardScore : option Q;
    scaledScore : option Q;
    percentile : option Q;
    rawScore : option Q;
    testName : string }.

Definition row : Type := list (string * string).

Definition extractTestData (r : row) (prefix : string)
  : option TestResult :=
  let standardScore := parseNumber (Js.get (prefix ++ "_StandardScore") r) in
  let scaledScore := parseNumber (Js.get (prefix ++ "_ScaledScore") r) in
  let percentile := parseNumber (Js.get (prefix ++ "_PctRank") r) in
  let rawScore := parseNumber (Js.get (prefix ++ "_RawScore") r) in
  match standardScore, scaledScore with
  | None, None => None
  | _, _ =>
      Some {| standardScore := standardScore;
              scaledScore := scaledScore;
              percentile := percentile;
              rawScore := rawScore;
              testName :=
                match Js.get prefix TEST_NAMES with
                | Some n => Js.str_or n prefix
                | None => prefix
                end |}
  end.

(** An assessment record; [date] is the time value of its [Date]. *)
Record Assessment : Type :=
  { studentId : string;
    studentName : string;
    date : Z;
    age : option Q;
    tests : list (string * TestResult) }.

(** The calendar conversion of [new Date(y, m, d)] and the clock read by
    [new Date()]. *)
Variable makeDate : DateArgs -> Z.
Variable now : Z.

(** The tests of one row: one entry per prefix of [TEST_NAMES] that has
    data, in the order of [TEST_NAMES]. *)
Fixpoint extractTests (r : row) (prefixes : list string)
  : list (string * TestResult) :=
  match prefixes with
  | [] => []
  | prefix :: rest =>
      match extractTestData r prefix with
      | Some testData => (prefix, testData) :: extractTests r rest
      | None => extractTests r rest
      end
  end.

(** The body of the loop of [processCSVData]: the record pushed for a
    row, or [None] when the row is skipped. *)
Definition processRow (r : row) : option Assessment :=
  match Js.get "LT_Id" r with
  | None => None
  | Some LT_Id =>
      if String.eqb LT_Id "" || String.eqb (trim LT_Id) ""
         || String.eqb LT_Id "#N/A"
      then None
      else
        let studentId := trim LT_Id in
        let studentName :=
          match Js.get "Child_Initials" r with
          | Some initials => Js.str_or (trim initials) ("Student " ++ studentId)
          | None => "Student " ++ studentId
          end in
        let date := parseDate (Js.get "AssessmentDate" r) in
        let age := parseNumber (Js.get "Age" r) in
        let tests := extractTests r (Js.keys TEST_NAMES) in
        match tests with
        | [] => None
        | _ =>
            Some {| studentId := studentId;
                    studentName := studentName;
                    date := match date with
                            | Some d => makeDate d
                            | None => now
                            end;
                    age := age;
                    tests := tests |}
        end
  end.

Fixpoint processCSVData (rawData : list row) : list Assessment :=
  match rawData with
  | [] => []
  | r :: rest =>
      match processRow r with
      | Some record => record :: processCSVData rest
      | None => processCSVData rest
      end
  end.

End WithParseFloat.

Record normative : Type := { mean : Q; sd : Q }.

Definition getNormativeParams (testType : string) : normative :=
  if String.eqb testType "scaled"
  then {| mean := 10; sd := 3 |}
  else {| mean := 100; sd := 15 |}.

(** [getScoreInterpretation(score, mean = 100, sd = 15)]. *)
Definition getScoreInterpretation (score : Js.value) (mean sd : Q) : string :=
  if Js.is_null score || Js.is_undefined score then "No Data"
  else
    let z := Js.div (Js.sub (Js.toNumber score) (Js.Fin mean)) (Js.Fin sd) in
    if Js.le z (Js.Fin (-2)) then "Significantly Below Average"
    else if Js.le z (Js.Fin (-1)) then "Below Average"
    else if Js.le z (Js.Fin 1) then "Average"
    else if Js.le z (Js.Fin 2) then "Above Average"
    else "Significantly Above Average".

End DataParser.

(* ================================================================== *)
(** ** retrievalEngine/retrievalEngine.js                              *)
(* ================================================================== *)

Module RetrievalEngine.

Import DataParser.
Local Open Scope string_scope.

(** The [score_range] object of a knowledge-base entry; each bound may be
    missing ([undefined]). *)
Record range : Type :=
  { min_z : option Q;
    max_z : option Q;
    min_z_diff : option Q;
    max_z_diff : option Q }.

(** An entry of [knowledgeBase/celf_interpretations.json]. *)
Record entry : Type :=
  { id : string;
    test_type : string;
    test_abbreviation : string;
    score_range : option range;
    audience : string;
    title : string;
    summary : string;
    details : option string;
    source : string;
    recommendations : option (list string) }.

(** [bound !== undefined && p z bound]. *)
Definition violates (p : Js.num -> Js.num -> bool) (z : Js.num)
           (bound : option Q) : bool :=
  match bound with
  | None => false
  | Some b => p z (Js.Fin b)
  end.

Definition matchesScoreRange (zScore : Js.value) (r : range) : bool :=
  if Js.is_null zScore || Js.is_undefined zScore || Js.isNaN zScore
  then false
  else if violates Js.lt (Js.toNumber zScore) (min_z r) then false
  else if violates Js.gt (Js.toNumber zScore) (max_z r) then false
  else true.

Definition matchesZDiffRange (zDiff : Js.value) (r : range) : bool :=
  if Js.is_null zDiff || Js.is_undefined zDiff || Js.isNaN zDiff
  then false
  else if violates Js.lt (Js.toNumber zDiff) (min_z_diff r) then false
  else if violates Js.gt (Js.toNumber zDiff) (max_z_diff r) then false
  else true.

Section WithKnowledgeBase.

(** The imported table, in the order of the JSON array. *)
Variable interpretations : list entry.

(** The callback handed to [interpretations.filter] by
    [retrieveTestInterpretations]. *)
Definition testEntryMatches (testName testAbbreviation : string)
           (zScore : Js.value) (audience_ : string) (e : entry) : bool :=
  let testMatch :=
    String.eqb (test_type e) testName
    || String.eqb (test_abbreviation e) testAbbreviation
    || String.eqb (test_type e) "Composite Comparison" in
  if negb testMatch then false
  else if negb (String.eqb (audience e) audience_) then false
  else
    match score_range e with
    | Some r =>
        if String.eqb (test_type e) "Composite Comparison" then false
        else matchesScoreRange zScore r
    | None => false
    end.

Definition retrieveTestInterpretations (testName testAbbreviation : string)
           (standardScore : Js.value) (audience_ : string) : list entry :=
  if negb (Js.truthy standardScore) || Js.isNaN standardScore then []
  else
    let zScore :=
      ScoreCalculator.calculateZScore standardScore
                                      ScoreCalculator.standard in
    filter (testEntryMatches testName testAbbreviation zScore audience_)
           interpretations.

(** The callback handed to [interpretations.filter] by
    [retrieveCompositeComparisons]. *)
Definition comparisonEntryMatches (zDiff : Js.value) (audience_ : string)
           (e : entry) : bool :=
  if negb (String.eqb (test_type e) "Composite Comparison") then false
  else if negb (String.eqb (audience e) audience_) then false
  else
    match score_range e with
    | Some r => matchesZDiffRange zDiff r
    | None => false
    end.

Definition retrieveCompositeComparisons
           (receptiveZScore expressiveZScore : Js.value)
           (audience_ : string) : list entry :=
  if Js.is_null receptiveZScore || Js.is_null expressiveZScore then []
  else
    let zDiff :=
      Js.Num (Js.sub (Js.toNumber receptiveZScore)
                     (Js.toNumber expressiveZScore)) in
    filter (comparisonEntryMatches zDiff audience_) interpretations.

(** The comparator of every "most recent first" sort. *)
Definition byDateDescending (a b : Assessment) : Js.num :=
  Js.sub (Js.Fin (inject_Z (date b))) (Js.Fin (inject_Z (date a))).

(** [t?.standardScore]. *)
Definition optStandardScore (t : option TestResult) : Js.value :=
  match t with
  | None => Js.Undefined
  | Some testData => Js.of_option (standardScore testData)
  end.

(** One turn of the loop over [Object.entries(latestAssessment.tests)]:
    the array [allMatches] after the turn. *)
Definition retrieveForTest (audience_ : string) (allMatches : list entry)
           (kv : string * TestResult) : list entry :=
  let (testKey, testData) := kv in
  if negb (Js.truthy (Js.of_option (standardScore testData)))
  then allMatches
  else
    let testName_ := Js.str_or (testName testData) testKey in
    (allMatches
       ++ retrieveTestInterpretations
            testName_ testKey (Js.of_option (standardScore testData))
            audience_)%list.

(** The result, and the caller's [assessments] array after the call. *)
Definition retrieveAllInterpretations (assessments : list Assessment)
           (audience_ : string) : list entry * list Assessment :=
  match assessments with
  | [] => ([], assessments)
  | _ :: _ =>
      let sorted := Js.sort byDateDescending assessments in
      match sorted with
      | [] => ([], sorted)
      | latestAssessment :: _ =>
          let allMatches :=
            fold_left (retrieveForTest audience_)
                      (tests latestAssessment) [] in
          let rliTest := Js.get "RLI" (tests latestAssessment) in
          let eliTest := Js.get "ELI" (tests latestAssessment) in
          if Js.truthy (optStandardScore rliTest)
             && Js.truthy (optStandardScore eliTest)
          then
            let receptiveZ :=
              ScoreCalculator.calculateZScore
                (optStandardScore rliTest) ScoreCalculator.standard in
            let expressiveZ :=
              ScoreCalculator.calculateZScore
                (optStandardScore eliTest) ScoreCalculator.standard in
            let comparisons :=
              retrieveCompositeComparisons receptiveZ expressiveZ
                                           audience_ in
            ((allMatches ++ comparisons)%list, sorted)
          else (allMatches, sorted)
      end
  end.

End WithKnowledgeBase.

End RetrievalEngine.

(* ================================================================== *)
(** ** insightAssembler/insightAssembler.js                            *)
(* ================================================================== *)

Module InsightAssembler.

Import DataParser.
Local Open Scope string_scope.

(** A property of a result object: missing from the object, [null], or
    holding a value. *)
Inductive field (A : Type) : Type :=
| Absent
| IsNull
| Val (a : A).
Arguments Absent {A}.
Arguments IsNull {A}.
Arguments Val {A} a.

Record Student : Type := { id : string; name : string }.

Record Insight : Type :=
  { title : string;
    summary : string;
    details : string;
    source : string;
    recommendations : list string }.

(** The object built from a retrieved entry. *)
Definition toInsight (e : RetrievalEngine.entry) : Insight :=
  {| title := RetrievalEngine.title e;
     summary := RetrievalEngine.summary e;
     details :=
       match RetrievalEngine.details e with
       | Some d => Js.str_or d (RetrievalEngine.summary e)
       | None => RetrievalEngine.summary e
       end;
     source := RetrievalEngine.source e;
     recommendations :=
       match RetrievalEngine.recommendations e with
       | Some r => r
       | None => []
       end |}.

(** [zScore] holds the number that [toFixed(2)] renders. *)
Record TestInsight : Type :=
  { test : string;
    testAbbreviation : string;
    score : Js.value;
    zScore : Js.value;
    normativeBand : string;
    insights : list Insight;
    retrievedCount : nat }.

(** [zDifference] holds the number that [toFixed(2)] renders. *)
Record Comparison : Type :=
  { type : string;
    receptiveScore : Js.value;
    expressiveScore : Js.value;
    zDifference : Js.value;
    comparisonInsights : list Insight;
    comparisonRetrievedCount : nat }.

Record Report : Type :=
  { student : string;
    studentId : field string;
    audience : string;
    assessmentDate : field Z;
    testInsights : list TestInsight;
    comparisons : list Comparison;
    totalRetrieved : nat;
    timestamp : Z }.

Definition assembleComparisonInsights (receptiveScore_ expressiveScore_ : Js.value)
           (retrievedEntries : list RetrievalEngine.entry)
  : option Comparison :=
  match retrievedEntries with
  | [] => None
  | _ :: _ =>
      let receptiveZ :=
        ScoreCalculator.calculateZScore receptiveScore_
                                        ScoreCalculator.standard in
      let expressiveZ :=
        ScoreCalculator.calculateZScore expressiveScore_
                                        ScoreCalculator.standard in
      let zDiff := Js.sub (Js.toNumber receptiveZ) (Js.toNumber expressiveZ) in
      Some {| type := "composite_comparison";
              receptiveScore := receptiveScore_;
              expressiveScore := expressiveScore_;
              zDifference := Js.Num zDiff;
              comparisonInsights := map toInsight retrievedEntries;
              comparisonRetrievedCount := List.length retrievedEntries |}
  end.

(** [existing.insights.push(...); existing.retrievedCount++]. *)
Definition pushInsight (e : RetrievalEngine.entry) (t : TestInsight)
  : TestInsight :=
  {| test := test t;
     testAbbreviation := testAbbreviation t;
     score := score t;
     zScore := zScore t;
     normativeBand := normativeBand t;
     insights := (insights t ++ [toInsight e])%list;
     retrievedCount := S (retrievedCount t) |}.

(** The object that [find] returns is updated where it stands: the first
    element with the abbreviation; when there is none, a fresh object is
    pushed and then updated. *)
Fixpoint updateExisting (testKey : string) (fresh : TestInsight)
         (e : RetrievalEngine.entry) (l : list TestInsight)
  : list TestInsight :=
  match l with
  | [] => [pushInsight e fresh]
  | t :: l' =>
      if String.eqb (testAbbreviation t) testKey
      then pushInsight e t :: l'
      else t :: updateExisting testKey fresh e l'
  end.

(** One turn of the loop over [allRetrievedEntries]: the arrays
    [testInsights] and [comparisonEntries] after the turn. *)
Definition groupEntry (latestAssessment : Assessment)
           (acc : list TestInsight * list RetrievalEngine.entry)
           (e : RetrievalEngine.entry)
  : list TestInsight * list RetrievalEngine.entry :=
  let (testInsights_, comparisonEntries) := acc in
  if String.eqb (RetrievalEngine.test_type e) "Composite Comparison"
  then (testInsights_, (comparisonEntries ++ [e])%list)
  else
    let testKey := RetrievalEngine.test_abbreviation e in
    match Js.get testKey (tests latestAssessment) with
    | Some testData =>
        let s := Js.of_option (standardScore testData) in
        if Js.truthy s then
          let z := ScoreCalculator.calculateZScore
                     s ScoreCalculator.standard in
          let fresh :=
            {| test := RetrievalEngine.test_type e;
               testAbbreviation := testKey;
               score := s;
               zScore := z;
               normativeBand := ScoreCalculator.getNormativeBand z;
               insights := [];
               retrievedCount := 0 |} in
          (updateExisting testKey fresh e testInsights_, comparisonEntries)
        else acc
    | None => acc
    end.

Section WithClock.

(** The clock read by [new Date()]. *)
Variable now : Z.

Definition studentName_ (s : option Student) : string :=
  match s with
  | Some st => Js.str_or (name st) "Unknown"
  | None => "Unknown"
  end.

(** The report, and the caller's [assessments] array after the call. *)
Definition assembleCompleteReport (student_ : option Student)
           (assessments : list Assessment)
           (allRetrievedEntries : list RetrievalEngine.entry)
           (audience_ : string) : Report * list Assessment :=
  match assessments, allRetrievedEntries with
  | [], _ | _, [] =>
      ({| student := studentName_ student_;
          studentId := Absent;
          audience := audience_;
          assessmentDate := Absent;
          testInsights := [];
          comparisons := [];
          totalRetrieved := 0;
          timestamp := now |}, assessments)
  | _ :: _, _ :: _ =>
      let sorted := Js.sort RetrievalEngine.byDateDescending assessments in
      match sorted with
      | [] =>
          (* unreachable: sorting keeps the length *)
          ({| student := studentName_ student_;
              studentId := Absent;
              audience := audience_;
              assessmentDate := Absent;
              testInsights := [];
              comparisons := [];
              totalRetrieved := 0;
              timestamp := now |}, sorted)
      | latestAssessment :: _ =>
          let (testInsights_, comparisonEntries) :=
            fold_left (groupEntry latestAssessment)
                      allRetrievedEntries ([], []) in
          let rliTest := Js.get "RLI" (tests latestAssessment) in
          let eliTest := Js.get "ELI" (tests latestAssessment) in
          let comparisons_ :=
            match comparisonEntries with
            | [] => []
            | _ :: _ =>
                if Js.truthy (RetrievalEngine.optStandardScore rliTest)
                   && Js.truthy (RetrievalEngine.optStandardScore eliTest)
                then
                  match assembleComparisonInsights
                          (RetrievalEngine.optStandardScore rliTest)
                          (RetrievalEngine.optStandardScore eliTest)
                          comparisonEntries with
                  | Some comparison => [comparison]
                  | None => []
                  end
                else []
            end in
          ({| student := studentName_ student_;
              studentId :=
                match student_ with
                | Some st =>
                    match id st with
                    | EmptyString => IsNull
                    | i => Val i
                    end
                | None => IsNull
                end;
              audience := audience_;
              assessmentDate := Val (date latestAssessment);
              testInsights := testInsights_;
              comparisons := comparisons_;
              totalRetrieved := List.length allRetrievedEntries;
              timestamp := now |}, sorted)
      end
  end.

End WithClock.

(** [assembleTestInsights]: [null] when nothing was retrieved. *)
Definition assembleTestInsights (testName_ testAbbreviation_ : string)
           (standardScore_ : Js.value)
           (retrievedEntries : list RetrievalEngine.entry)
  : option TestInsight :=
match retrievedEntries with
| [] => None
| _ :: _ =>
    let z := ScoreCalculator.calculateZScore
               standardScore_ ScoreCalculator.standard in
    Some {| test := testName_;
            testAbbreviation := testAbbreviation_;
            score := standardScore_;
            zScore := z;
            normativeBand := ScoreCalculator.getNormativeBand z;
            insights := map toInsight retrievedEntries;
            retrievedCount := List.length retrievedEntries |}
end.

End InsightAssembler.

(* ================================================================== *)
(** ** components/InsightsPanel.jsx: the derivation inside [useMemo]   *)
(* ================================================================== *)

Module InsightsPanel.

Import DataParser.
Local Open Scope string_scope.

(** The objects mapped from the below- and above-average tests. *)
Record Scored : Type :=
  { test : string;
    score : Js.value;
    interpretation : string }.

(** The objects pushed onto [progressInsights]. *)
Record Progress : Type :=
  { progressTest : string;
    change : Js.num;
    firstScore : Js.value;
    lastScore : Js.value;
    firstDate : Z;
    lastDate : Z }.

(** The strings of [items], each kept as the values its template renders. *)
Inductive item : Type :=
| ScoreLine (test : string) (score : Js.value) (interpretation : string)
| AverageReceptive (avg : Js.num)
| AverageExpressive (avg : Js.num)
| StrongerBy (stronger : string) (difference : Js.num)
| ProgressLine (test direction : string) (changeStr : Js.num)
               (firstScore lastScore : Js.value).

Record Insight : Type :=
  { type : string;
    title : string;
    items : list item }.

Definition receptiveTests : list string :=
  ["RLI"; "SC"; "BC"; "WC"; "DPP"; "PRS"].
Definition expressiveTests : list string :=
  ["ELI"; "WS"; "EV"; "FD"; "RS"].

Definition toScored (kv : string * TestResult) : Scored :=
  let (key, t) := kv in
  {| test := Js.str_or (testName t) key;
     score := Js.of_option (standardScore t);
     interpretation :=
       getScoreInterpretation (Js.of_option (standardScore t)) 100 15 |}.

(** [test.standardScore !== null && p test.standardScore bound]. *)
Definition scoreIs (p : Js.num -> Js.num -> bool) (bound : Q)
           (kv : string * TestResult) : bool :=
  let s := Js.of_option (standardScore (snd kv)) in
  negb (Js.is_null s) && p (Js.toNumber s) (Js.Fin bound).

(** The non-null standard scores of the entries whose key is in [codes]. *)
Definition domainScores (codes : list string)
           (testEntries : list (string * TestResult)) : list Js.value :=
  filter (fun s => negb (Js.is_null s))
    (map (fun kv => Js.of_option (standardScore (snd kv)))
       (filter (fun kv => Js.includes codes (fst kv)) testEntries)).

(** [scores.length > 0 ? scores.reduce((a, b) => a + b, 0) / scores.length
    : null]. *)
Definition average (scores : list Js.value) : Js.value :=
  match scores with
  | [] => Js.Null
  | _ :: _ =>
      Js.Num
        (Js.div
           (fold_left (fun a b => Js.add a (Js.toNumber b)) scores (Js.Fin 0))
           (Js.Fin (inject_Z (Z.of_nat (List.length scores)))))
  end.

(** [new Set(keys)]: the keys in the order of their first occurrence. *)
Definition setOfKeys (keys : list string) : list string :=
  fold_left (fun acc k => if Js.includes acc k then acc else (acc ++ [k])%list)
            keys [].

Definition byDateAscending (a b : Assessment) : Js.num :=
  Js.sub (Js.Fin (inject_Z (date a))) (Js.Fin (inject_Z (date b))).

(** One turn of the loop over [testKeys]: [progressInsights] after it. *)
Definition progressStep (firstAssessment lastAssessment : Assessment)
           (progressInsights : list Progress) (testKey : string)
  : list Progress :=
  let firstScore_ :=
    RetrievalEngine.optStandardScore
      (Js.get testKey (tests firstAssessment)) in
  let lastScore_ :=
    RetrievalEngine.optStandardScore
      (Js.get testKey (tests lastAssessment)) in
  if negb (Js.is_null firstScore_) && negb (Js.is_null lastScore_) then
    let change_ := Js.sub (Js.toNumber lastScore_) (Js.toNumber firstScore_) in
    let testName_ :=
      match Js.get testKey (tests firstAssessment) with
      | Some t => Js.str_or (testName t) testKey
      | None => testKey
      end in
    if Js.ge (Js.abs change_) (Js.Fin 5) then
      (progressInsights
         ++ [ {| progressTest := testName_;
                 change := change_;
                 firstScore := firstScore_;
                 lastScore := lastScore_;
                 firstDate := date firstAssessment;
                 lastDate := date lastAssessment |} ])%list
    else progressInsights
  else progressInsights.

(** The block "Progress over time"; [assessments] is the array as the
    earlier in-place sort left it, and is copied before it is sorted. *)
Definition progressOverTime (assessments : list Assessment)
  : list Progress :=
  if (1 <? List.length assessments)%nat then
    let sortedAssessments := Js.sort byDateAscending assessments in
    match sortedAssessments with
    | [] => []
    | firstAssessment :: _ =>
        let lastAssessment := last sortedAssessments firstAssessment in
        let testKeys :=
          setOfKeys (Js.keys (tests firstAssessment)
                       ++ Js.keys (tests lastAssessment))%list in
        fold_left (progressStep firstAssessment lastAssessment) testKeys []
    end
  else [].

Definition progressItem (p : Progress) : item :=
  let direction :=
    if Js.gt (change p) (Js.Fin 0) then "improved" else "declined" in
  ProgressLine (progressTest p) direction (Js.abs (change p))
               (firstScore p) (lastScore p).

Definition scoreItem (s : Scored) : item :=
  ScoreLine (test s) (score s) (interpretation s).

(** The receptive-versus-expressive block: the insight it pushes, if any. *)
Definition receptiveExpressive (avgReceptive avgExpressive : Js.value)
  : list Insight :=
  if negb (Js.is_null avgReceptive) && negb (Js.is_null avgExpressive) then
    let difference :=
      Js.abs (Js.sub (Js.toNumber avgReceptive) (Js.toNumber avgExpressive)) in
    if Js.ge difference (Js.Fin 10) then
      let stronger :=
        if Js.gt (Js.toNumber avgReceptive) (Js.toNumber avgExpressive)
        then "Receptive" else "Expressive" in
      [ {| type := "receptive-expressive";
           title := "Receptive vs Expressive Comparison";
           items := [ AverageReceptive (Js.toNumber avgReceptive);
                      AverageExpressive (Js.toNumber avgExpressive);
                      StrongerBy stronger difference ] |} ]
    else []
  else [].

(** [list.length > 0] guards the push of a category. *)
Definition category (type_ title_ : string) (items_ : list item)
  : list Insight :=
  match items_ with
  | [] => []
  | _ :: _ => [ {| type := type_; title := title_; items := items_ |} ]
  end.

(** The tests below [mean - sd], lowest score first. *)
Definition belowAverage (mean_ sd_ : Q)
           (testEntries : list (string * TestResult)) : list Scored :=
  Js.sort (fun a b => Js.sub (Js.toNumber (score a)) (Js.toNumber (score b)))
    (map toScored (filter (scoreIs Js.lt (mean_ - sd_)) testEntries)).

(** The tests above [mean + sd], highest score first. *)
Definition aboveAverage (mean_ sd_ : Q)
           (testEntries : list (string * TestResult)) : list Scored :=
  Js.sort (fun a b => Js.sub (Js.toNumber (score b)) (Js.toNumber (score a)))
    (map toScored (filter (scoreIs Js.gt (mean_ + sd_)) testEntries)).

(** [insightsList], built from the most recent assessment and from the
    array as the in-place sort left it. *)
Definition insightsList (latestAssessment : Assessment)
           (sorted : list Assessment) : list Insight :=
  let p := getNormativeParams "standard" in
  let testEntries := tests latestAssessment in
  let avgReceptive := average (domainScores receptiveTests testEntries) in
  let avgExpressive := average (domainScores expressiveTests testEntries) in
  let progressInsights := progressOverTime sorted in
  (category "below-average" "Areas Needing Support"
     (map scoreItem (belowAverage (mean p) (sd p) testEntries))
   ++ category "above-average" "Relative Strengths"
        (map scoreItem (aboveAverage (mean p) (sd p) testEntries))
   ++ receptiveExpressive avgReceptive avgExpressive
   ++ category "progress" "Progress Over Time"
        (map progressItem progressInsights))%list.

(** The insights, and the caller's [assessments] array after the call. *)
Definition insights (assessments : list Assessment)
  : list Insight * list Assessment :=
  match assessments with
  | [] => ([], assessments)
  | _ :: _ =>
      let sorted := Js.sort RetrievalEngine.byDateDescending assessments in
      match sorted with
      | [] => ([], sorted)
      | latestAssessment :: _ => (insightsList latestAssessment sorted, sorted)
      end
  end.

End InsightsPanel.

(* ================================================================== *)
(** ** components/InsightsPanel.jsx with the scores as binary64 numbers *)
(* ================================================================== *)

(** The derivation of [InsightsPanel] once more, every score a binary64
    number and every arithmetic step rounded as the engine rounds it.  The
    averages of the receptive and of the expressive scores are quotients
    that binary64 does not hold exactly, so what the comparison of their
    difference with 10 answers is read off this module. *)
Module InsightsPanel64.

Import PrimFloat.
Local Open Scope string_scope.

Record TestResult : Type :=
  { standardScore : option float;
    scaledScore : option float;
    percentile : option float;
    rawScore : option float;
    testName : string }.

(** An assessment record; [date] is the time value of its [Date]. *)
Record Assessment : Type :=
  { studentId : string;
    studentName : string;
    date : Z;
    age : option float;
    tests : list (string * TestResult) }.

Record normative : Type := { mean : float; sd : float }.

Definition getNormativeParams (testType : string) : normative :=
  if String.eqb testType "scaled"
  then {| mean := 10%float; sd := 3%float |}
  else {| mean := 100%float; sd := 15%float |}.

(** [getScoreInterpretation(score, mean = 100, sd = 15)]. *)
Definition getScoreInterpretation (score : Js64.value)
           (mean sd : float) : string :=
  if Js64.is_null score || Js64.is_undefined score then "No Data"
  else
    let z := Js64.div (Js64.sub (Js64.toNumber score) mean) sd in
    if Js64.le z (-2)%float then "Significantly Below Average"
    else if Js64.le z (-1)%float then "Below Average"
    else if Js64.le z 1%float then "Average"
    else if Js64.le z 2%float then "Above Average"
    else "Significantly Above Average".

(** The objects mapped from the below- and above-average tests. *)
Record Scored : Type :=
  { test : string;
    score : Js64.value;
    interpretation : string }.

(** The objects pushed onto [progressInsights]. *)
Record Progress : Type :=
  { progressTest : string;
    change : float;
    firstScore : Js64.value;
    lastScore : Js64.value;
    firstDate : Z;
    lastDate : Z }.

(** The strings of [items], each kept as the values its template renders. *)
Inductive item : Type :=
| ScoreLine (test : string) (score : Js64.value) (interpretation : string)
| AverageReceptive (avg : float)
| AverageExpressive (avg : float)
| StrongerBy (stronger : string) (difference : float)
| ProgressLine (test direction : string) (changeStr : float)
               (firstScore lastScore : Js64.value).

Record Insight : Type :=
  { type : string;
    title : string;
    items : list item }.

Definition receptiveTests : list string :=
  ["RLI"; "SC"; "BC"; "WC"; "DPP"; "PRS"].
Definition expressiveTests : list string :=
  ["ELI"; "WS"; "EV"; "FD"; "RS"].

(** The comparators on dates.  A time value is an integer of magnitude at
    most 8.64e15, which binary64 holds exactly, and the sign of a
    difference of two of them survives its rounding. *)
Definition byDateDescending (a b : Assessment) : Js.num :=
  Js.sub (Js.Fin (inject_Z (date b))) (Js.Fin (inject_Z (date a))).

Definition byDateAscending (a b : Assessment) : Js.num :=
  Js.sub (Js.Fin (inject_Z (date a))) (Js.Fin (inject_Z (date b))).

(** [t?.standardScore]. *)
Definition optStandardScore (t : option TestResult) : Js64.value :=
  match t with
  | None => Js64.Undefined
  | Some testData => Js64.of_option (standardScore testData)
  end.

Definition toScored (kv : string * TestResult) : Scored :=
  let (key, t) := kv in
  {| test := Js.str_or (testName t) key;
     score := Js64.of_option (standardScore t);
     interpretation :=
       getScoreInterpretation (Js64.of_option (standardScore t))
                              100%float 15%float |}.

(** [test.standardScore !== null && p test.standardScore bound]. *)
Definition scoreIs (p : float -> float -> bool)
           (bound : float) (kv : string * TestResult) : bool :=
  let s := Js64.of_option (standardScore (snd kv)) in
  negb (Js64.is_null s) && p (Js64.toNumber s) bound.

(** The non-null standard scores of the entries whose key is in [codes]. *)
Definition domainScores (codes : list string)
           (testEntries : list (string * TestResult)) : list Js64.value :=
  filter (fun s => negb (Js64.is_null s))
    (map (fun kv => Js64.of_option (standardScore (snd kv)))
       (filter (fun kv => Js.includes codes (fst kv)) testEntries)).

(** [scores.length > 0 ? scores.reduce((a, b) => a + b, 0) / scores.length
    : null]. *)
Definition average (scores : list Js64.value) : Js64.value :=
  match scores with
  | [] => Js64.Null
  | _ :: _ =>
      Js64.Num
        (Js64.div
           (fold_left (fun a b => Js64.add a (Js64.toNumber b)) scores 0%float)
           (Js64.ofLength (List.length scores)))
  end.

(** One turn of the loop over [testKeys]: [progressInsights] after it. *)
Definition progressStep (firstAssessment lastAssessment : Assessment)
           (progressInsights : list Progress) (testKey : string)
  : list Progress :=
  let firstScore_ :=
    optStandardScore (Js.get testKey (tests firstAssessment)) in
  let lastScore_ :=
    optStandardScore (Js.get testKey (tests lastAssessment)) in
  if negb (Js64.is_null firstScore_) && negb (Js64.is_null lastScore_) then
    let change_ :=
      Js64.sub (Js64.toNumber lastScore_) (Js64.toNumber firstScore_) in
    let testName_ :=
      match Js.get testKey (tests firstAssessment) with
      | Some t => Js.str_or (testName t) testKey
      | None => testKey
      end in
    if Js64.ge (Js64.abs change_) 5%float then
      (progressInsights
         ++ [ {| progressTest := testName_;
                 change := change_;
                 firstScore := firstScore_;
                 lastScore := lastScore_;
                 firstDate := date firstAssessment;
                 lastDate := date lastAssessment |} ])%list
    else progressInsights
  else progressInsights.

(** The block "Progress over time"; [assessments] is the array as the
    earlier in-place sort left it, and is copied before it is sorted. *)
Definition progressOverTime (assessments : list Assessment)
  : list Progress :=
  if (1 <? List.length assessments)%nat then
    let sortedAssessments := Js.sort byDateAscending assessments in
    match sortedAssessments with
    | [] => []
    | firstAssessment :: _ =>
        let lastAssessment := last sortedAssessments firstAssessment in
        let testKeys :=
          InsightsPanel.setOfKeys
            (Js.keys (tests firstAssessment)
               ++ Js.keys (tests lastAssessment))%list in
        fold_left (progressStep firstAssessment lastAssessment) testKeys []
    end
  else [].

Definition progressItem (p : Progress) : item :=
  let direction :=
    if Js64.gt (change p) 0%float then "improved" else "declined" in
  ProgressLine (progressTest p) direction (Js64.abs (change p))
               (firstScore p) (lastScore p).

Definition scoreItem (s : Scored) : item :=
  ScoreLine (test s) (score s) (interpretation s).

(** The receptive-versus-expressive block: the insight it pushes, if any. *)
Definition receptiveExpressive (avgReceptive avgExpressive : Js64.value)
  : list Insight :=
  if negb (Js64.is_null avgReceptive) && negb (Js64.is_null avgExpressive)
  then
    let difference :=
      Js64.abs (Js64.sub (Js64.toNumber avgReceptive)
                         (Js64.toNumber avgExpressive)) in
    if Js64.ge difference 10%float then
      let stronger :=
        if Js64.gt (Js64.toNumber avgReceptive) (Js64.toNumber avgExpressive)
        then "Receptive" else "Expressive" in
      [ {| type := "receptive-expressive";
           title := "Receptive vs Expressive Comparison";
           items := [ AverageReceptive (Js64.toNumber avgReceptive);
                      AverageExpressive (Js64.toNumber avgExpressive);
                      StrongerBy stronger difference ] |} ]
    else []
  else [].

(** [list.length > 0] guards the push of a category. *)
Definition category (type_ title_ : string) (items_ : list item)
  : list Insight :=
  match items_ with
  | [] => []
  | _ :: _ => [ {| type := type_; title := title_; items := items_ |} ]
  end.

(** The tests below [mean - sd], lowest score first. *)
Definition belowAverage (mean_ sd_ : float)
           (testEntries : list (string * TestResult)) : list Scored :=
  Js.sort (fun a b =>
             Js64.sign (Js64.sub (Js64.toNumber (score a))
                                 (Js64.toNumber (score b))))
    (map toScored (filter (scoreIs Js64.lt (Js64.sub mean_ sd_)) testEntries)).

(** The tests above [mean + sd], highest score first. *)
Definition aboveAverage (mean_ sd_ : float)
           (testEntries : list (string * TestResult)) : list Scored :=
  Js.sort (fun a b =>
             Js64.sign (Js64.sub (Js64.toNumber (score b))
                                 (Js64.toNumber (score a))))
    (map toScored (filter (scoreIs Js64.gt (Js64.add mean_ sd_)) testEntries)).

(** [insightsList], built from the most recent assessment and from the
    array as the in-place sort left it. *)
Definition insightsList (latestAssessment : Assessment)
           (sorted : list Assessment) : list Insight :=
  let p := getNormativeParams "standard" in
  let testEntries := tests latestAssessment in
  let avgReceptive := average (domainScores receptiveTests testEntries) in
  let avgExpressive := average (domainScores expressiveTests testEntries) in
  let progressInsights := progressOverTime sorted in
  (category "below-average" "Areas Needing Support"
     (map scoreItem (belowAverage (mean p) (sd p) testEntries))
   ++ category "above-average" "Relative Strengths"
        (map scoreItem (aboveAverage (mean p) (sd p) testEntries))
   ++ receptiveExpressive avgReceptive avgExpressive
   ++ category "progress" "Progress Over Time"
        (map progressItem progressInsights))%list.

(** The insights, and the caller's [assessments] array after the call. *)
Definition insights (assessments : list Assessment)
  : list Insight * list Assessment :=
  match assessments with
  | [] => ([], assessments)
  | _ :: _ =>
      let sorted := Js.sort byDateDescending assessments in
      match sorted with
      | [] => ([], sorted)
      | latestAssessment :: _ => (insightsList latestAssessment sorted, sorted)
      end
  end.

End InsightsPanel64.

(* ================================================================== *)
(** ** utils/dataParser.js: [getUniqueStudents]                        *)
(* ================================================================== *)

Module UniqueStudents.

Import DataParser.

(** One turn of the loop over [data]: the [Map] after it.  A [Map] keeps
    its keys in insertion order; a key already present is left alone. *)
Definition addStudent
           (studentMap : list (string * InsightAssembler.Student))
           (record : Assessment)
  : list (string * InsightAssembler.Student) :=
match Js.get (studentId record) studentMap with
| Some _ => studentMap
| None =>
    (studentMap
       ++ [ (studentId record,
             {| InsightAssembler.id := studentId record;
                InsightAssembler.name := studentName record |}) ])%list
end.

Section WithLocaleCompare.

(** The built-in [String.prototype.localeCompare]. *)
Variable localeCompare : string -> string -> Js.num.

Definition getUniqueStudents (data : list Assessment)
  : list InsightAssembler.Student :=
Js.sort (fun a b => localeCompare (InsightAssembler.name a)
                                  (InsightAssembler.name b))
        (map snd (fold_left addStudent data [])).

End WithLocaleCompare.

End UniqueStudents.

(* ================================================================== *)
(** ** components/StudentSwitcher.jsx: recent students and the list cursor *)
(* ================================================================== *)

Module StudentSwitcher.

(** The updater of [handleSelectStudent]: the id moves to the front, its
    earlier occurrences go, and the list is cut to eight. *)
Definition selectRecent (studentId : string) (prev : list string)
  : list string :=
firstn 8 (studentId :: filter (fun id => negb (String.eqb id studentId)) prev).

(** The updater of the effect on [selectedStudent]. *)
Definition ensureRecent (selectedStudent : option InsightAssembler.Student)
           (prev : list string) : list string :=
match selectedStudent with
| None => prev
| Some s =>
    match prev with
    | first :: _ =>
        if String.eqb first (InsightAssembler.id s) then prev
        else selectRecent (InsightAssembler.id s) prev
    | [] => selectRecent (InsightAssembler.id s) prev
    end
end.

(** [new Map(students.map(s => [s.id, s])).get(id)]: of several students
    with one id the last one is the value. *)
Definition byId (students : list InsightAssembler.Student) (id_ : string)
  : option InsightAssembler.Student :=
find (fun s => String.eqb (InsightAssembler.id s) id_) (rev students).

(** The loop over [recentIds], with its [break] at eight results. *)
Fixpoint recentLoop (students : list InsightAssembler.Student)
         (recentIds : list string) (result : list InsightAssembler.Student)
  : list InsightAssembler.Student :=
match recentIds with
| [] => result
| id_ :: rest =>
    let result' :=
      match byId students id_ with
      | Some s => (result ++ [s])%list
      | None => result
      end in
    if (8 <=? List.length result')%nat then result'
    else recentLoop students rest result'
end.

Definition recentStudents (students : list InsightAssembler.Student)
           (recentIds : list string) : list InsightAssembler.Student :=
match students with
| [] => []
| _ :: _ => recentLoop students recentIds []
end.

(** The cursor of the dropdown after [ArrowDown]; [%] is the remainder
    that takes the sign of the dividend. *)
Definition arrowDown (filteredLength prev : Z) : Z :=
if (filteredLength =? 0)%Z then prev
else Z.rem (prev + 1) filteredLength.

(** The cursor of the dropdown after [ArrowUp]. *)
Definition arrowUp (filteredLength prev : Z) : Z :=
if (filteredLength =? 0)%Z then prev
else if (prev <=? 0)%Z then (filteredLength - 1)%Z else (prev - 1)%Z.

(** The effect that brings the cursor back into range. *)
Definition clampHighlight (filteredLength highlightedIndex : Z) : Z :=
if (filteredLength <=? highlightedIndex)%Z
then (if (0 <? filteredLength)%Z then 0 else -1)%Z
else highlightedIndex.

End StudentSwitcher.

(* ================================================================== *)
(** ** utils/avatarUtils.js: [getAvatarColor]                          *)
(* ================================================================== *)

Module AvatarUtils.

Local Open Scope string_scope.

Definition colors : list string :=
[ "#3b82f6"; "#10b981"; "#f59e0b"; "#ef4444"; "#8b5cf6"; "#ec4899";
  "#06b6d4"; "#84cc16"; "#f97316"; "#6366f1"; "#14b8a6"; "#a855f7" ].

(** ToInt32: the integer modulo 2^32, read as a signed 32-bit value. *)
Definition toInt32 (z : Z) : Z :=
((z + 2147483648) mod 4294967296 - 2147483648)%Z.

(** [hash << 5]. *)
Definition shiftLeft5 (hash : Z) : Z := toInt32 (Z.shiftl (toInt32 hash) 5).

(** The loop [hash = str.charCodeAt(i) + ((hash << 5) - hash)]; only the
    shift wraps, the sum is an ordinary number (exact for any identifier
    shorter than a million characters). *)
Fixpoint hashFrom (str : string) (hash : Z) : Z :=
match str with
| EmptyString => hash
| String c rest =>
    hashFrom rest (Z.of_nat (nat_of_ascii c) + (shiftLeft5 hash - hash))%Z
end.

(** [identifier] is a string or missing; a missing or empty identifier is
    replaced by ["default"]. *)
Definition getAvatarColor (identifier : option string) : option string :=
let str :=
  match identifier with
  | Some (String c r) => String c r
  | _ => "default"
  end in
let hash := hashFrom str 0 in
let index := (Z.abs hash mod Z.of_nat (List.length colors))%Z in
nth_error colors (Z.to_nat index).

End AvatarUtils.

(* ================================================================== *)
(** ** App.jsx: the derivation of the selected student's view          *)
(* ================================================================== *)

Module App.

Import DataParser.
Local Open Scope string_scope.

Record Simple : Type :=
{ simpleTest : string;
  simpleScore : Js.value }.

Record Kpi : Type :=
{ coreLanguageScore : Js.value;
  coreLanguageChange : Js.value;
  receptiveLanguageIndex : Js.value;
  receptiveChange : Js.value;
  expressiveLanguageIndex : Js.value;
  expressiveChange : Js.value;
  totalTests : nat;
  belowAverageCount : nat;
  averageCount : nat;
  aboveAverageCount : nat }.

(** The strings of [items]: test and score as the template renders them. *)
Record Insight : Type :=
{ type : string;
  title : string;
  items : list Simple }.

Record View : Type :=
{ studentAssessments : list Assessment;
  tests : list string;
  insights : list Insight;
  kpiMetrics : option Kpi }.

(** [cur && prev ? ((cur - prev) / prev) * 100 : null]. *)
Definition percentChange (cur prev : Js.value) : Js.value :=
if Js.truthy cur && Js.truthy prev then
  Js.Num (Js.mul (Js.div (Js.sub (Js.toNumber cur) (Js.toNumber prev))
                         (Js.toNumber prev))
                 (Js.Fin 100))
else Js.Null.

(** [test.standardScore !== null && p test.standardScore]. *)
Definition scored (p : Js.num -> bool) (kv : string * TestResult) : bool :=
let s := Js.of_option (standardScore (snd kv)) in
negb (Js.is_null s) && p (Js.toNumber s).

Definition isBelow (mean_ sd_ : Q) : string * TestResult -> bool :=
scored (fun s => Js.lt s (Js.Fin (mean_ - sd_))).

Definition isAverage (mean_ sd_ : Q) : string * TestResult -> bool :=
scored (fun s => Js.ge s (Js.Fin (mean_ - sd_))
                 && Js.le s (Js.Fin (mean_ + sd_))).

Definition isAbove (mean_ sd_ : Q) : string * TestResult -> bool :=
scored (fun s => Js.gt s (Js.Fin (mean_ + sd_))).

(** [assessment?.tests.CODE?.standardScore]. *)
Definition scoreOf (a : option Assessment) (code : string) : Js.value :=
match a with
| None => Js.Undefined
| Some a' =>
    RetrievalEngine.optStandardScore (Js.get code (DataParser.tests a'))
end.

Definition kpiOf (latestAssessment : Assessment)
           (previousAssessment : option Assessment) : Kpi :=
let mean_ := 100 in
let sd_ := 15 in
let cls := scoreOf (Some latestAssessment) "CLS" in
let rli := scoreOf (Some latestAssessment) "RLI" in
let eli := scoreOf (Some latestAssessment) "ELI" in
let testEntries := DataParser.tests latestAssessment in
{| coreLanguageScore := cls;
   coreLanguageChange := percentChange cls (scoreOf previousAssessment "CLS");
   receptiveLanguageIndex := rli;
   receptiveChange := percentChange rli (scoreOf previousAssessment "RLI");
   expressiveLanguageIndex := eli;
   expressiveChange := percentChange eli (scoreOf previousAssessment "ELI");
   totalTests := List.length testEntries;
   belowAverageCount := List.length (filter (isBelow mean_ sd_) testEntries);
   averageCount := List.length (filter (isAverage mean_ sd_) testEntries);
   aboveAverageCount := List.length (filter (isAbove mean_ sd_) testEntries) |}.

Definition toSimple (kv : string * TestResult) : Simple :=
{| simpleTest := Js.str_or (testName (snd kv)) (fst kv);
   simpleScore := Js.of_option (standardScore (snd kv)) |}.

Definition category (type_ title_ : string) (items_ : list Simple)
  : list Insight :=
match items_ with
| [] => []
| _ :: _ => [ {| type := type_; title := title_; items := items_ |} ]
end.

Definition insightsOf (latestAssessment : Assessment) : list Insight :=
let testEntries := DataParser.tests latestAssessment in
(category "below-average" "Areas Needing Support"
   (map toSimple (filter (isBelow 100 15) testEntries))
 ++ category "above-average" "Relative Strengths"
      (map toSimple (filter (isAbove 100 15) testEntries)))%list.

(** [[...new Set(assessments.flatMap(a => Object.keys(a.tests)))]]
    without the key ["undefined"]. *)
Definition uniqueTests (assessments : list Assessment) : list string :=
filter (fun t => negb (String.eqb t "undefined"))
  (InsightsPanel.setOfKeys
     (flat_map (fun a => Js.keys (DataParser.tests a)) assessments)).

(** The body of the [useMemo] of [App]. *)
Definition view (selectedStudent : option InsightAssembler.Student)
           (data : list Assessment) : View :=
match selectedStudent, data with
| None, _ | _, [] =>
    {| studentAssessments := []; tests := []; insights := [];
       kpiMetrics := None |}
| Some s, _ :: _ =>
    let assessments :=
      filter (fun record =>
                String.eqb (studentId record) (InsightAssembler.id s))
             data in
    let tests_ := uniqueTests assessments in
    match assessments with
    | [] =>
        {| studentAssessments := assessments; tests := tests_;
           insights := []; kpiMetrics := None |}
    | _ :: _ =>
        let sorted := Js.sort RetrievalEngine.byDateDescending assessments in
        match sorted with
        | [] =>
            {| studentAssessments := sorted; tests := tests_;
               insights := []; kpiMetrics := None |}
        | latestAssessment :: _ =>
            let previousAssessment :=
              if (1 <? List.length sorted)%nat
              then nth_error
                     (Js.sort RetrievalEngine.byDateDescending sorted) 1
              else None in
            {| studentAssessments :=
                 if (1 <? List.length sorted)%nat
                 then Js.sort RetrievalEngine.byDateDescending sorted
                 else sorted;
               tests := tests_;
               insights := insightsOf latestAssessment;
               kpiMetrics := Some (kpiOf latestAssessment previousAssessment) |}
        end
    end
end.

End App.

(* ================================================================== *)
(** ** components/ClinicalInsightAssistant.jsx: the two derivations    *)
(* ================================================================== *)

Module ClinicalInsightAssistant.

Import DataParser.
Local Open Scope string_scope.

(** [s.startsWith(sub)] at the head of [s]. *)
Fixpoint startsWith (sub s : string) : bool :=
match sub, s with
| EmptyString, _ => true
| String a sub', String b s' => Ascii.eqb a b && startsWith sub' s'
| String _ _, EmptyString => false
end.

(** [String.prototype.includes]. *)
Fixpoint includes (s sub : string) : bool :=
startsWith sub s
|| match s with
   | EmptyString => false
   | String _ s' => includes s' sub
   end.

Section WithTableAndClock.

Variable interpretations : list RetrievalEngine.entry.
Variable now : Z.

(** The [useMemo] of [report]: retrieval, then assembly, on one array.
    The result is [null] without a student or without assessments. *)
Definition report (student : option InsightAssembler.Student)
           (assessments : list Assessment) (audience_ : string)
  : option InsightAssembler.Report * list Assessment :=
match student, assessments with
| None, _ | _, [] => (None, assessments)
| Some _, _ :: _ =>
    let (retrievedEntries, afterRetrieval) :=
      RetrievalEngine.retrieveAllInterpretations
        interpretations assessments audience_ in
    let (assembledReport, afterAssembly) :=
      InsightAssembler.assembleCompleteReport
        now student afterRetrieval retrievedEntries audience_ in
    (Some assembledReport, afterAssembly)
end.

End WithTableAndClock.

(** [{...report, testInsights: t, comparisons: c}]. *)
Definition withInsights (r : InsightAssembler.Report)
           (t : list InsightAssembler.TestInsight)
           (c : list InsightAssembler.Comparison) : InsightAssembler.Report :=
{| InsightAssembler.student := InsightAssembler.student r;
   InsightAssembler.studentId := InsightAssembler.studentId r;
   InsightAssembler.audience := InsightAssembler.audience r;
   InsightAssembler.assessmentDate := InsightAssembler.assessmentDate r;
   InsightAssembler.testInsights := t;
   InsightAssembler.comparisons := c;
   InsightAssembler.totalRetrieved := InsightAssembler.totalRetrieved r;
   InsightAssembler.timestamp := InsightAssembler.timestamp r |}.

Definition aboutDomain (abbreviation word : string)
           (t : InsightAssembler.TestInsight) : bool :=
String.eqb (InsightAssembler.testAbbreviation t) abbreviation
|| includes (InsightAssembler.test t) word.

(** The [useMemo] of [displayedInsights]; [selectedQuestion] is [null] or
    the id of a preset question. *)
Definition displayedInsights (report_ : option InsightAssembler.Report)
           (selectedQuestion : option string)
  : option InsightAssembler.Report :=
match report_ with
| None => None
| Some r =>
    match selectedQuestion with
    | None => Some r
    | Some q =>
        if String.eqb q "" then Some r
        else if String.eqb q "receptive" then
          Some (withInsights r
                  (filter (aboutDomain "RLI" "Receptive")
                          (InsightAssembler.testInsights r)) [])
        else if String.eqb q "expressive" then
          Some (withInsights r
                  (filter (aboutDomain "ELI" "Expressive")
                          (InsightAssembler.testInsights r)) [])
        else if String.eqb q "comparison" then
          Some (withInsights r [] (InsightAssembler.comparisons r))
        else Some r
    end
end.

End ClinicalInsightAssistant.

(* ================================================================== *)
(** * Definitions used to state the properties                          *)
(* ================================================================== *)

(** The five labels, in their ordinal order. *)
Definition bandRank (label : string) : option nat :=
  if String.eqb label "Significantly Below Average" then Some 0%nat
  else if String.eqb label "Below Average" then Some 1%nat
  else if String.eqb label "Average" then Some 2%nat
  else if String.eqb label "Above Average" then Some 3%nat
  else if String.eqb label "Significantly Above Average" then Some 4%nat
  else None.

(** The band of a finite score on an instrument. *)
Definition bandOfScore (s : Q) (t : ScoreCalculator.instrument) : string :=
  ScoreCalculator.getNormativeBand
    (ScoreCalculator.calculateZScore (Js.Num (Js.Fin s)) t).

(** The bucket index of a z-score, read off the thresholds. *)
Definition rankOfZ (z : Q) : nat :=
  if Qle_bool z (-2) then 0
  else if Qle_bool z (-1) then 1
  else if Qle_bool z 1 then 2
  else if Qle_bool z 2 then 3
  else 4.

(** Two visits of one student, listed oldest first. *)
Definition resultOf (s : Q) (n : string) : DataParser.TestResult :=
  {| DataParser.standardScore := Some s;
     DataParser.scaledScore := None;
     DataParser.percentile := None;
     DataParser.rawScore := None;
     DataParser.testName := n |}.

Definition firstVisit : DataParser.Assessment :=
  {| DataParser.studentId := "17";
     DataParser.studentName := "A.K.";
     DataParser.date := 1672531200000;
     DataParser.age := None;
     DataParser.tests := [("RLI"%string, resultOf 80 "Receptive Language Index")] |}.

Definition secondVisit : DataParser.Assessment :=
  {| DataParser.studentId := "17";
     DataParser.studentName := "A.K.";
     DataParser.date := 1704067200000;
     DataParser.age := None;
     DataParser.tests := [("RLI"%string, resultOf 90 "Receptive Language Index")] |}.

(** The record with a zero standard score replaced by [null]. *)
Definition zeroAsMissing (t : DataParser.TestResult) : DataParser.TestResult :=
  {| DataParser.standardScore :=
       match DataParser.standardScore t with
       | Some q => if Qeq_bool q 0 then None else Some q
       | None => None
       end;
     DataParser.scaledScore := DataParser.scaledScore t;
     DataParser.percentile := DataParser.percentile t;
     DataParser.rawScore := DataParser.rawScore t;
     DataParser.testName := DataParser.testName t |}.

Definition zeroAsMissingEntry (kv : string * DataParser.TestResult)
  : string * DataParser.TestResult :=
  (fst kv, zeroAsMissing (snd kv)).

Definition zeroScoresAsMissing (a : DataParser.Assessment)
  : DataParser.Assessment :=
  {| DataParser.studentId := DataParser.studentId a;
     DataParser.studentName := DataParser.studentName a;
     DataParser.date := DataParser.date a;
     DataParser.age := DataParser.age a;
     DataParser.tests := map zeroAsMissingEntry (DataParser.tests a) |}.




(** The entry shown in the README of the retrieval engine. *)
Definition receptive_below_avg : RetrievalEngine.entry :=
  {| RetrievalEngine.id := "receptive_below_avg";
     RetrievalEngine.test_type := "Receptive Language Index";
     RetrievalEngine.test_abbreviation := "RLI";
     RetrievalEngine.score_range :=
       Some {| RetrievalEngine.min_z := None;
               RetrievalEngine.max_z := Some (-1);
               RetrievalEngine.min_z_diff := None;
               RetrievalEngine.max_z_diff := None |};
     RetrievalEngine.audience := "clinician";
     RetrievalEngine.title := "Below Average Receptive Language";
     RetrievalEngine.summary := "...";
     RetrievalEngine.details := None;
     RetrievalEngine.source := "CELF-P3 Technical Manual";
     RetrievalEngine.recommendations := None |}.

(** The arithmetic mean of a list of scores. *)
Definition meanOf (l : list Q) : Q :=
  fold_left Qplus l 0 / inject_Z (Z.of_nat (List.length l)).

(** An insight of the given type is in the list. *)
Definition emits (type_ : string) (l : list InsightsPanel.Insight) : Prop :=
  exists i, In i l /\ InsightsPanel.type i = type_.





(** A visit after [firstVisit] whose RLI score is three points higher. *)
Definition smallGainVisit : DataParser.Assessment :=
  {| DataParser.studentId := "17";
     DataParser.studentName := "A.K.";
     DataParser.date := 1704067200000;
     DataParser.age := None;
     DataParser.tests := [("RLI"%string, resultOf 83 "Receptive Language Index")] |}.


Local Open Scope string_scope.

(** One or two decimal digits. *)
Inductive oneOrTwoDigits : string -> Prop :=
| one_digit (a : ascii) :
    DataParser.is_digit a = true -> oneOrTwoDigits (String a "")
| two_digits (a b : ascii) :
    DataParser.is_digit a = true -> DataParser.is_digit b = true ->
    oneOrTwoDigits (String a (String b "")).

(** Exactly four decimal digits. *)
Inductive fourDigits : string -> Prop :=
| four_digits (a b c d : ascii) :
    DataParser.is_digit a = true -> DataParser.is_digit b = true ->
    DataParser.is_digit c = true -> DataParser.is_digit d = true ->
    fourDigits (String a (String b (String c (String d "")))).

(** The whole string is a date in the literal format M/D/YYYY. *)
Definition literalMDY (s : string) : Prop :=
  exists m d y,
    oneOrTwoDigits m /\ oneOrTwoDigits d /\ fourDigits y
    /\ s = m ++ "/" ++ d ++ "/" ++ y.

(** The whole string is a date in the literal format YYYY-M-D. *)
Definition literalYMD (s : string) : Prop :=
  exists y m d,
    fourDigits y /\ oneOrTwoDigits m /\ oneOrTwoDigits d
    /\ s = y ++ "-" ++ m ++ "-" ++ d.

(** Somewhere in the string stands a date of the form M/D/YYYY. *)
Definition containsMDY (s : string) : Prop :=
  exists pre m d y post,
    oneOrTwoDigits m /\ oneOrTwoDigits d /\ fourDigits y
    /\ s = pre ++ m ++ "/" ++ d ++ "/" ++ y ++ post.

(** Somewhere in the string stands a date of the form YYYY-M-D. *)
Definition containsYMD (s : string) : Prop :=
  exists pre y m d post,
    fourDigits y /\ oneOrTwoDigits m /\ oneOrTwoDigits d
    /\ s = pre ++ y ++ "-" ++ m ++ "-" ++ d ++ post.

(** The [Date] arguments read from the three captures. *)
Definition dateArgsOf (y m d : string) : DataParser.DateArgs :=
  {| DataParser.year := DataParser.digits_value y 0;
     DataParser.monthIndex := DataParser.digits_value m 0 - 1;
     DataParser.day := DataParser.digits_value d 0 |}.

Fixpoint nonSpace (s : string) : bool :=
  match s with
  | EmptyString => false
  | String c r => negb (DataParser.is_space c) || nonSpace r
  end.

Fixpoint hasSlash (s : string) : bool :=
  match s with
  | EmptyString => false
  | String c r => Ascii.eqb c "/" || hasSlash r
  end.

(** The student-id field is present and is neither blank nor "#N/A". *)
Definition usableId (r : DataParser.row) : Prop :=
  exists i,
    Js.get "LT_Id" r = Some i
    /\ i <> "" /\ DataParser.trim i <> "" /\ i <> "#N/A".

(** A row whose date is spelled out in words. *)
Definition rowWithWordedDate : DataParser.row :=
  [ ("LT_Id", "17"); ("AssessmentDate", "March 5");
    ("RLI_StandardScore", "90") ].

Local Close Scope string_scope.

(** The three-way band that a rank of the five-way classification falls in. *)
Definition coarseOfRank (r : nat) : string :=
  if (r <=? 1)%nat then "below"%string
  else if (r =? 2)%nat then "average"%string
  else "above"%string.

(** [d] lies within the z-difference bounds of the range. *)
Definition withinDiffRange (d : Q) (r : RetrievalEngine.range) : bool :=
  match RetrievalEngine.min_z_diff r with
  | Some lo => Qle_bool lo d
  | None => true
  end
  && match RetrievalEngine.max_z_diff r with
     | Some hi => Qle_bool d hi
     | None => true
     end.

(** The matching rule of a comparison query. *)
Definition ruleMatchesComparison (aud : string) (d : Q)
           (rule : RetrievalEngine.entry) : bool :=
  String.eqb (RetrievalEngine.test_type rule) "Composite Comparison"
  && String.eqb (RetrievalEngine.audience rule) aud
  && match RetrievalEngine.score_range rule with
     | Some r => withinDiffRange d r
     | None => false
     end.

(** The count of a test insight is the length of its list of insights, and
    the list is not empty. *)
Definition wellCounted (t : InsightAssembler.TestInsight) : Prop :=
  InsightAssembler.retrievedCount t = List.length (InsightAssembler.insights t)
  /\ (1 <= InsightAssembler.retrievedCount t)%nat.

(** A test insight shows the score that the assessment stores under its
    abbreviation, a score that is neither missing nor zero, with the z-score
    and the band of that score. *)
Definition reportsScoreOf (a : DataParser.Assessment)
           (t : InsightAssembler.TestInsight) : Prop :=
  exists td,
    Js.get (InsightAssembler.testAbbreviation t) (DataParser.tests a) = Some td
    /\ InsightAssembler.score t = Js.of_option (DataParser.standardScore td)
    /\ Js.truthy (InsightAssembler.score t) = true
    /\ InsightAssembler.zScore t
       = ScoreCalculator.calculateZScore (InsightAssembler.score t)
                                         ScoreCalculator.standard
    /\ InsightAssembler.normativeBand t
       = ScoreCalculator.getNormativeBand (InsightAssembler.zScore t).

Definition sumRetrieved (l : list InsightAssembler.TestInsight) : nat :=
  fold_right (fun t n => (InsightAssembler.retrievedCount t + n)%nat) 0%nat l.

Definition sumCompared (l : list InsightAssembler.Comparison) : nat :=
  fold_right
    (fun c n => (InsightAssembler.comparisonRetrievedCount c + n)%nat) 0%nat l.

(** A test result holds a standard score or a scaled score. *)
Definition hasAScore (t : DataParser.TestResult) : Prop :=
  DataParser.standardScore t <> None \/ DataParser.scaledScore t <> None.

(** A record as the normaliser lets it through: a student id that is not
    empty, at least one test, and a score in every test. *)
Definition wellFormedRecord (a : DataParser.Assessment) : Prop :=
  DataParser.studentId a <> ""%string
  /\ DataParser.tests a <> []
  /\ Forall (fun kv => hasAScore (snd kv)) (DataParser.tests a).

(** The tests of a record are keyed by distinct codes of [TEST_NAMES], each
    found again under its code and named as the table names the code. *)
Definition wellKeyedRecord (a : DataParser.Assessment) : Prop :=
  NoDup (Js.keys (DataParser.tests a))
  /\ forall k t,
      In (k, t) (DataParser.tests a) ->
      Js.get k (DataParser.tests a) = Some t
      /\ Js.get k DataParser.TEST_NAMES = Some (DataParser.testName t).

(** The number held by the score of a listed test. *)
Definition scoreValue (s : InsightsPanel.Scored) : Q :=
  match InsightsPanel.score s with
  | Js.Num (Js.Fin q) => q
  | _ => 0
  end.

(** The stored standard score of a test entry, zero when it is [null]. *)
Definition entryValue (kv : string * DataParser.TestResult) : Q :=
  match DataParser.standardScore (snd kv) with
  | Some q => q
  | None => 0
  end.

(** The parameters that the panel reads: [getNormativeParams('standard')]. *)
Definition panelMean : Q :=
  DataParser.mean (DataParser.getNormativeParams "standard").
Definition panelSd : Q :=
  DataParser.sd (DataParser.getNormativeParams "standard").

(** An entry of the student map comes from the first record of its id. *)
Definition fromFirstRecord (data : list DataParser.Assessment)
           (k : string) (s : InsightAssembler.Student) : Prop :=
  exists pre r post,
    data = (pre ++ r :: post)%list
    /\ DataParser.studentId r = k
    /\ InsightAssembler.id s = k
    /\ InsightAssembler.name s = DataParser.studentName r
    /\ ~ In k (map DataParser.studentId pre).

(** What the loop of [assembleCompleteReport] keeps true of its two
    arrays after [n] entries. *)
Definition grouped (latest : DataParser.Assessment) (n : nat)
           (acc : list InsightAssembler.TestInsight
                  * list RetrievalEngine.entry) : Prop :=
  NoDup (map InsightAssembler.testAbbreviation (fst acc))
  /\ Forall wellCounted (fst acc)
  /\ Forall (reportsScoreOf latest) (fst acc)
  /\ (sumRetrieved (fst acc) + List.length (snd acc) <= n)%nat.

Section StoredScores.

Import PrimFloat.

(** The non-null standard scores, as stored, of the tests whose code is in
    [codes]. *)
Definition storedScores (codes : list string)
           (tests : list (string * InsightsPanel64.TestResult)) : list float :=
  flat_map
    (fun kv =>
       if Js.includes codes (fst kv) then
         match InsightsPanel64.standardScore (snd kv) with
         | Some x => [x]
         | None => []
         end
       else [])
    tests.

(** The average as binary64 arithmetic yields it: the sum taken from 0,
    left to right, then one division by the count, every step rounded. *)
Definition roundedMean (l : list float) : float :=
  Js64.div (fold_left Js64.add l 0%float) (Js64.ofLength (List.length l)).

(** An insight of the given type is in the list. *)
Definition emits64 (type_ : string) (l : list InsightsPanel64.Insight)
  : Prop :=
  exists i, In i l /\ InsightsPanel64.type i = type_.

(** A visit on the day [d] whose tests store the given whole-number
    standard scores. *)
Definition visitOn (d : Z) (scores : list (string * Z))
  : InsightsPanel64.Assessment :=
  {| InsightsPanel64.studentId := "17";
     InsightsPanel64.studentName := "A.K.";
     InsightsPanel64.date := d;
     InsightsPanel64.age := None;
     InsightsPanel64.tests :=
       map (fun kz =>
              (fst kz,
               {| InsightsPanel64.standardScore := Some (Js64.ofZ (snd kz));
                  InsightsPanel64.scaledScore := None;
                  InsightsPanel64.percentile := None;
                  InsightsPanel64.rawScore := None;
                  InsightsPanel64.testName := fst kz |}))
           scores |}.

(** The whole-number scores of the codes in [codes], as exact rationals. *)
Definition exactScores (codes : list string) (scores : list (string * Z))
  : list Q :=
  map (fun kz => inject_Z (snd kz))
      (filter (fun kz => Js.includes codes (fst kz)) scores).

(** Three receptive and three expressive scores whose averages, 386/3 and
    356/3, are exactly 10 apart. *)
Definition tenApart : list (string * Z) :=
  [ ("RLI"%string, 128%Z); ("SC"%string, 129%Z); ("BC"%string, 129%Z);
    ("ELI"%string, 118%Z); ("WS"%string, 119%Z); ("EV"%string, 119%Z) ].

End StoredScores.

(* ================================================================== *)
(** * Properties                                                       *)
(* ================================================================== *)

(** ** Score statistics *)

Lemma Qle_bool_false (x y : Q) : Qle_bool x y = false <-> y < x.
Proof.
  rewrite <- Bool.not_true_iff_false, Qle_bool_iff. split.
  - apply Qnot_le_lt.
  - apply Qlt_not_le.
Qed.

Ltac qbool :=
  repeat match goal with
    | H : Qle_bool _ _ = true |- _ => apply Qle_bool_iff in H
    | H : Qle_bool _ _ = false |- _ => apply Qle_bool_false in H
    | |- Qle_bool _ _ = true => apply Qle_bool_iff
    | |- Qle_bool _ _ = false => apply Qle_bool_false
    end.

Lemma calculateZScore_finite (s : Q) (t : ScoreCalculator.instrument) :
  ScoreCalculator.calculateZScore (Js.Num (Js.Fin s)) t
  = Js.Num (Js.Fin ((s - ScoreCalculator.mean (ScoreCalculator.NORMATIVE_PARAMS t))
                    / ScoreCalculator.sd (ScoreCalculator.NORMATIVE_PARAMS t))).
Proof. reflexivity. Qed.

Lemma getNormativeBand_finite (z : Q) :
  ScoreCalculator.getNormativeBand (Js.Num (Js.Fin z))
  = if Qle_bool z (-2) then "Significantly Below Average"%string
    else if Qle_bool z (-1) then "Below Average"%string
    else if Qle_bool z 1 then "Average"%string
    else if Qle_bool z 2 then "Above Average"%string
    else "Significantly Above Average"%string.
Proof. reflexivity. Qed.

(** C2: for every numeric z, [getNormativeBand] answers with one of five
    labels by thresholds that are closed on the upper side of each bucket:
    z <= -2 is "Significantly Below Average", -2 < z <= -1 is "Below
    Average", -1 < z <= 1 is "Average", 1 < z <= 2 is "Above Average" and
    2 < z is "Significantly Above Average"; the standard score 85 has
    z-score -1 and the band "Below Average". *)
Theorem getNormativeBand_thresholds :
  forall z : Q,
    let band := ScoreCalculator.getNormativeBand (Js.Num (Js.Fin z)) in
    (z <= -2 -> band = "Significantly Below Average"%string)
    /\ (-2 < z /\ z <= -1 -> band = "Below Average"%string)
    /\ (-1 < z /\ z <= 1 -> band = "Average"%string)
    /\ (1 < z /\ z <= 2 -> band = "Above Average"%string)
    /\ (2 < z -> band = "Significantly Above Average"%string)
    /\ (exists r, bandRank band = Some r)
    /\ (exists z85,
           ScoreCalculator.calculateZScore (Js.Num (Js.Fin 85))
                                           ScoreCalculator.standard
           = Js.Num (Js.Fin z85)
           /\ z85 == -1
           /\ ScoreCalculator.getNormativeBand (Js.Num (Js.Fin z85))
              = "Below Average"%string).
Proof.
  intros z band. subst band. rewrite getNormativeBand_finite.
  destruct (Qle_bool z (-2)) eqn:H2; [|destruct (Qle_bool z (-1)) eqn:H1;
    [|destruct (Qle_bool z 1) eqn:H3; [|destruct (Qle_bool z 2) eqn:H4]]];
    qbool;
    (repeat split;
     try (intros; exfalso; lra);
     try reflexivity;
     try (eexists; reflexivity)).
  all: eexists; split; [reflexivity | split; [reflexivity | reflexivity]].
Qed.

Lemma bandRank_getNormativeBand (z : Q) :
  bandRank (ScoreCalculator.getNormativeBand (Js.Num (Js.Fin z)))
  = Some (rankOfZ z).
Proof.
  rewrite getNormativeBand_finite. unfold rankOfZ.
  repeat (destruct (Qle_bool z _); [reflexivity|]). reflexivity.
Qed.

Lemma bandRank_getScoreInterpretation (s : Q) :
  bandRank (DataParser.getScoreInterpretation (Js.Num (Js.Fin s)) 100 15)
  = Some (rankOfZ ((s - 100) / 15)).
Proof.
  unfold DataParser.getScoreInterpretation, rankOfZ. simpl.
  repeat (destruct (Qle_bool _ _); [reflexivity|]). reflexivity.
Qed.

Lemma rankOfZ_monotone (z1 z2 : Q) :
  z1 <= z2 -> (rankOfZ z1 <= rankOfZ z2)%nat.
Proof.
  intros Hle. unfold rankOfZ.
  destruct (Qle_bool z1 (-2)) eqn:A1; destruct (Qle_bool z2 (-2)) eqn:A2;
    destruct (Qle_bool z1 (-1)) eqn:B1; destruct (Qle_bool z2 (-1)) eqn:B2;
    destruct (Qle_bool z1 1) eqn:C1; destruct (Qle_bool z2 1) eqn:C2;
    destruct (Qle_bool z1 2) eqn:D1; destruct (Qle_bool z2 2) eqn:D2;
    qbool; try lia; exfalso; lra.
Qed.

Lemma zscore_monotone (m sd s1 s2 : Q) :
  0 < sd -> s1 <= s2 -> (s1 - m) / sd <= (s2 - m) / sd.
Proof.
  intros Hsd Hle. unfold Qdiv.
  apply Qmult_le_compat_r.
  - lra.
  - apply Qlt_le_weak, Qinv_lt_0_compat, Hsd.
Qed.

(** C9: on either instrument the band of the z-score never goes down when
    the score goes up, in the order Significantly Below Average < Below
    Average < Average < Above Average < Significantly Above Average, and the
    band of every numeric score is one of these five labels; the same holds
    of [getScoreInterpretation] with its default mean and deviation. *)
Theorem band_monotone_in_score :
  forall (t : ScoreCalculator.instrument) (s1 s2 : Q),
    s1 <= s2 ->
    (exists r1 r2,
        bandRank (bandOfScore s1 t) = Some r1
        /\ bandRank (bandOfScore s2 t) = Some r2
        /\ (r1 <= r2)%nat)
    /\ (exists r1 r2,
           bandRank (DataParser.getScoreInterpretation (Js.Num (Js.Fin s1)) 100 15)
           = Some r1
           /\ bandRank (DataParser.getScoreInterpretation (Js.Num (Js.Fin s2)) 100 15)
              = Some r2
           /\ (r1 <= r2)%nat).
Proof.
  intros t s1 s2 Hle. split.
  - unfold bandOfScore. rewrite !calculateZScore_finite.
    rewrite !bandRank_getNormativeBand.
    do 2 eexists. split; [reflexivity | split; [reflexivity |]].
    apply rankOfZ_monotone, zscore_monotone; [|exact Hle].
    destruct t; reflexivity.
  - rewrite !bandRank_getScoreInterpretation.
    do 2 eexists. split; [reflexivity | split; [reflexivity |]].
    apply rankOfZ_monotone, zscore_monotone; [reflexivity | exact Hle].
Qed.

Lemma band_monotone_in_score_witness :
  (exists r1 r2,
      bandRank (bandOfScore 70 ScoreCalculator.standard) = Some r1
      /\ bandRank (bandOfScore 85 ScoreCalculator.standard) = Some r2
      /\ (r1 <= r2)%nat)
  /\ (exists r1 r2,
         bandRank (DataParser.getScoreInterpretation (Js.Num (Js.Fin 70)) 100 15)
         = Some r1
         /\ bandRank (DataParser.getScoreInterpretation (Js.Num (Js.Fin 85)) 100 15)
            = Some r2
         /\ (r1 <= r2)%nat).
Proof.
  apply (band_monotone_in_score ScoreCalculator.standard 70 85).
  unfold Qle. simpl. lia.
Defined.

(** ** Record normaliser: numbers *)

(** C4: [parseNumber] maps the empty string and the literals "#N/A" and
    "-1" to the absent value, whatever [parseFloat] would make of them; a
    string that [parseFloat] does not read as a number is absent as well, so
    the result is never NaN, and a result that is present is the number that
    [parseFloat] read from a string that is none of the three sentinels. *)
Theorem parseNumber_sentinels_absent :
  forall parseFloat : string -> Js.num,
    DataParser.parseNumber parseFloat (Some ""%string) = None
    /\ DataParser.parseNumber parseFloat (Some "#N/A"%string) = None
    /\ DataParser.parseNumber parseFloat (Some "-1"%string) = None
    /\ (forall s, parseFloat s = Js.NaN ->
                  DataParser.parseNumber parseFloat (Some s) = None)
    /\ (forall v q,
           DataParser.parseNumber parseFloat v = Some q ->
           exists s, v = Some s /\ parseFloat s = Js.Fin q
                     /\ s <> ""%string /\ s <> "#N/A"%string
                     /\ s <> "-1"%string).
Proof.
  intros parseFloat. repeat split; try reflexivity.
  - intros s Hs. unfold DataParser.parseNumber. rewrite Hs.
    destruct (_ || _); reflexivity.
  - intros v q H. unfold DataParser.parseNumber in H.
    destruct v as [s|]; [|discriminate].
    destruct (String.eqb s "") eqn:E1; [discriminate|].
    destruct (String.eqb s "#N/A") eqn:E2; [discriminate|].
    destruct (String.eqb s "-1") eqn:E3; [discriminate|].
    simpl in H. destruct (parseFloat s) eqn:Hp; [discriminate|].
    injection H as ->. exists s.
    apply String.eqb_neq in E1, E2, E3. auto.
Qed.

(** ** The in-place sort *)

Section SortFacts.

Context {A : Type}.
Variable cmp : A -> A -> Js.num.

Lemma sort_insert_perm (x : A) (l : list A) :
  Permutation (Js.sort_insert cmp x l) (x :: l).
Proof.
  induction l as [|y l IH]; simpl.
  - apply Permutation_refl.
  - destruct (Js.keeps_order (cmp x y)).
    + apply Permutation_refl.
    + eapply perm_trans; [apply perm_skip, IH | apply perm_swap].
Qed.

Lemma sort_perm (l : list A) : Permutation (Js.sort cmp l) l.
Proof.
  induction l as [|x l IH]; simpl.
  - apply perm_nil.
  - eapply perm_trans; [apply sort_insert_perm | apply perm_skip, IH].
Qed.

Lemma sort_nonempty (x : A) (l : list A) : Js.sort cmp (x :: l) <> [].
Proof.
  intros H. pose proof (sort_perm (x :: l)) as P. rewrite H in P.
  apply Permutation_nil in P. discriminate.
Qed.

End SortFacts.

Lemma sort_insert_map {A B : Type} (f : A -> B)
      (cmpA : A -> A -> Js.num) (cmpB : B -> B -> Js.num) :
  (forall a b, cmpB (f a) (f b) = cmpA a b) ->
  forall x l,
    Js.sort_insert cmpB (f x) (map f l) = map f (Js.sort_insert cmpA x l).
Proof.
  intros Hc x l. induction l as [|y l IH]; simpl.
  - reflexivity.
  - rewrite Hc. destruct (Js.keeps_order (cmpA x y)); simpl.
    + reflexivity.
    + now rewrite IH.
Qed.

Lemma sort_map {A B : Type} (f : A -> B)
      (cmpA : A -> A -> Js.num) (cmpB : B -> B -> Js.num) :
  (forall a b, cmpB (f a) (f b) = cmpA a b) ->
  forall l, Js.sort cmpB (map f l) = map f (Js.sort cmpA l).
Proof.
  intros Hc l. induction l as [|x l IH]; simpl.
  - reflexivity.
  - change (Js.sort_insert cmpB (f x) (Js.sort cmpB (map f l))
            = map f (Js.sort_insert cmpA x (Js.sort cmpA l))).
    rewrite IH. now apply sort_insert_map.
Qed.

(** What each of the three derivations leaves in the caller's array. *)
Lemma retrieveAllInterpretations_array
      (table : list RetrievalEngine.entry) (assessments : list DataParser.Assessment)
      (aud : string) :
  snd (RetrievalEngine.retrieveAllInterpretations table assessments aud)
  = Js.sort RetrievalEngine.byDateDescending assessments.
Proof.
  unfold RetrievalEngine.retrieveAllInterpretations.
  destruct assessments as [|a l]; [reflexivity|].
  destruct (Js.sort _ (a :: l)) as [|latest rest]; [reflexivity|].
  destruct (_ && _); reflexivity.
Qed.

Lemma insights_array (assessments : list DataParser.Assessment) :
  snd (InsightsPanel.insights assessments)
  = Js.sort RetrievalEngine.byDateDescending assessments.
Proof.
  unfold InsightsPanel.insights.
  destruct assessments as [|a l]; [reflexivity|].
  destruct (Js.sort _ (a :: l)) as [|latest rest]; reflexivity.
Qed.

Lemma assembleCompleteReport_array
      (now : Z) (st : option InsightAssembler.Student)
      (assessments : list DataParser.Assessment)
      (e : RetrievalEngine.entry) (entries : list RetrievalEngine.entry)
      (aud : string) :
  snd (InsightAssembler.assembleCompleteReport now st assessments (e :: entries) aud)
  = Js.sort RetrievalEngine.byDateDescending assessments.
Proof.
  unfold InsightAssembler.assembleCompleteReport.
  destruct assessments as [|a l]; [reflexivity|].
  destruct (Js.sort _ (a :: l)) as [|latest rest]; [reflexivity|].
  destruct (fold_left _ _ _). reflexivity.
Qed.

(** C3 (the code departs from the claim): each of the three derivations
    sorts the caller's array in place, most recent first.  The array keeps
    its records but not their order: handed the two visits oldest first,
    every one of the three leaves them newest first. *)
Theorem in_place_sort_reorders_assessments :
  forall (table : list RetrievalEngine.entry) (now : Z)
         (st : option InsightAssembler.Student)
         (e : RetrievalEngine.entry) (entries : list RetrievalEngine.entry)
         (aud : string),
    (forall assessments,
        Permutation
          (snd (RetrievalEngine.retrieveAllInterpretations table assessments aud))
          assessments
        /\ Permutation
             (snd (InsightAssembler.assembleCompleteReport
                     now st assessments (e :: entries) aud))
             assessments
        /\ Permutation (snd (InsightsPanel.insights assessments)) assessments)
    /\ snd (RetrievalEngine.retrieveAllInterpretations
              table [firstVisit; secondVisit] aud)
       = [secondVisit; firstVisit]
    /\ snd (InsightAssembler.assembleCompleteReport
              now st [firstVisit; secondVisit] (e :: entries) aud)
       = [secondVisit; firstVisit]
    /\ snd (InsightsPanel.insights [firstVisit; secondVisit])
       = [secondVisit; firstVisit]
    /\ [secondVisit; firstVisit] <> [firstVisit; secondVisit].
Proof.
  intros table now st e entries aud.
  split; [intros assessments; split; [|split] | split; [|split; [|split]]].
  - rewrite retrieveAllInterpretations_array. apply sort_perm.
  - rewrite assembleCompleteReport_array. apply sort_perm.
  - rewrite insights_array. apply sort_perm.
  - rewrite retrieveAllInterpretations_array. reflexivity.
  - rewrite assembleCompleteReport_array. reflexivity.
  - rewrite insights_array. reflexivity.
  - intros H. injection H as H _. discriminate H.
Qed.

(** ** Report assembler: empty input *)

(** C5: for every student, audience and list of retrieved entries,
    [assembleCompleteReport] on an empty assessments array returns a report
    with no test insights, no comparisons and [totalRetrieved = 0], and
    leaves the array empty; so does the pipeline that first retrieves from
    the empty array.  The function is total: no input makes it throw. *)
Theorem assembleCompleteReport_empty_assessments :
  forall (now : Z) (st : option InsightAssembler.Student)
         (table entries : list RetrievalEngine.entry) (aud : string),
    let report :=
      fst (InsightAssembler.assembleCompleteReport now st [] entries aud) in
    let retrieved :=
      fst (RetrievalEngine.retrieveAllInterpretations table [] aud) in
    let piped :=
      fst (InsightAssembler.assembleCompleteReport now st [] retrieved aud) in
    InsightAssembler.testInsights report = []
    /\ InsightAssembler.comparisons report = []
    /\ InsightAssembler.totalRetrieved report = 0%nat
    /\ snd (InsightAssembler.assembleCompleteReport now st [] entries aud) = []
    /\ InsightAssembler.testInsights piped = []
    /\ InsightAssembler.comparisons piped = []
    /\ InsightAssembler.totalRetrieved piped = 0%nat.
Proof.
  intros now st table entries aud. simpl.
  destruct entries; simpl; repeat split; reflexivity.
Qed.

(** ** A stored score of zero *)

Lemma truthy_zeroAsMissing (t : DataParser.TestResult) :
  Js.truthy (Js.of_option (DataParser.standardScore (zeroAsMissing t)))
  = Js.truthy (Js.of_option (DataParser.standardScore t)).
Proof.
  unfold zeroAsMissing. simpl.
  destruct (DataParser.standardScore t) as [q|]; simpl; [|reflexivity].
  destruct (Qeq_bool q 0) eqn:E; simpl; [reflexivity | now rewrite E].
Qed.

Lemma score_zeroAsMissing (t : DataParser.TestResult) :
  Js.truthy (Js.of_option (DataParser.standardScore t)) = true ->
  DataParser.standardScore (zeroAsMissing t) = DataParser.standardScore t.
Proof.
  unfold zeroAsMissing. simpl.
  destruct (DataParser.standardScore t) as [q|]; simpl; [|reflexivity].
  destruct (Qeq_bool q 0); simpl; [discriminate | reflexivity].
Qed.

Lemma get_zeroAsMissing (k : string) (o : list (string * DataParser.TestResult)) :
  Js.get k (map zeroAsMissingEntry o) = option_map zeroAsMissing (Js.get k o).
Proof.
  induction o as [|[k' v] o IH]; simpl; [reflexivity|].
  destruct (String.eqb k' k); [reflexivity | exact IH].
Qed.

Lemma optStandardScore_truthy_zeroAsMissing (o : option DataParser.TestResult) :
  Js.truthy (RetrievalEngine.optStandardScore (option_map zeroAsMissing o))
  = Js.truthy (RetrievalEngine.optStandardScore o).
Proof.
  destruct o as [t|]; [apply truthy_zeroAsMissing | reflexivity].
Qed.

Lemma optStandardScore_zeroAsMissing (o : option DataParser.TestResult) :
  Js.truthy (RetrievalEngine.optStandardScore o) = true ->
  RetrievalEngine.optStandardScore (option_map zeroAsMissing o)
  = RetrievalEngine.optStandardScore o.
Proof.
  destruct o as [t|]; [|reflexivity].
  unfold RetrievalEngine.optStandardScore, option_map.
  intros H. now rewrite score_zeroAsMissing.
Qed.

Lemma retrieveForTest_zeroAsMissing
      (table : list RetrievalEngine.entry) (aud : string)
      (acc : list RetrievalEngine.entry) (kv : string * DataParser.TestResult) :
  RetrievalEngine.retrieveForTest table aud acc (zeroAsMissingEntry kv)
  = RetrievalEngine.retrieveForTest table aud acc kv.
Proof.
  destruct kv as [k t]. unfold RetrievalEngine.retrieveForTest, zeroAsMissingEntry.
  cbn [fst snd]. rewrite truthy_zeroAsMissing.
  destruct (Js.truthy (Js.of_option (DataParser.standardScore t))) eqn:E;
    cbn [negb]; [|reflexivity].
  now rewrite (score_zeroAsMissing t E).
Qed.

Lemma fold_retrieveForTest_zeroAsMissing
      (table : list RetrievalEngine.entry) (aud : string)
      (o : list (string * DataParser.TestResult)) :
  forall acc,
    fold_left (RetrievalEngine.retrieveForTest table aud)
              (map zeroAsMissingEntry o) acc
    = fold_left (RetrievalEngine.retrieveForTest table aud) o acc.
Proof.
  induction o as [|kv o IH]; intros acc; cbn [map fold_left]; [reflexivity|].
  now rewrite retrieveForTest_zeroAsMissing, IH.
Qed.

Lemma sort_zeroScoresAsMissing (l : list DataParser.Assessment) :
  Js.sort RetrievalEngine.byDateDescending (map zeroScoresAsMissing l)
  = map zeroScoresAsMissing (Js.sort RetrievalEngine.byDateDescending l).
Proof. now apply sort_map. Qed.

Lemma retrieveAllInterpretations_zeroAsMissing
      (table : list RetrievalEngine.entry)
      (assessments : list DataParser.Assessment) (aud : string) :
  fst (RetrievalEngine.retrieveAllInterpretations
         table (map zeroScoresAsMissing assessments) aud)
  = fst (RetrievalEngine.retrieveAllInterpretations table assessments aud).
Proof.
  unfold RetrievalEngine.retrieveAllInterpretations.
  destruct assessments as [|a l]; [reflexivity|].
  change (map zeroScoresAsMissing (a :: l))
    with (zeroScoresAsMissing a :: map zeroScoresAsMissing l).
  cbv iota beta.
  change (zeroScoresAsMissing a :: map zeroScoresAsMissing l)
    with (map zeroScoresAsMissing (a :: l)).
  rewrite sort_zeroScoresAsMissing.
  destruct (Js.sort _ (a :: l)) as [|latest rest]; [reflexivity|].
  cbn [map]. cbv zeta.
  change (DataParser.tests (zeroScoresAsMissing latest))
    with (map zeroAsMissingEntry (DataParser.tests latest)).
  rewrite fold_retrieveForTest_zeroAsMissing, !get_zeroAsMissing.
  rewrite !optStandardScore_truthy_zeroAsMissing.
  destruct (Js.truthy (RetrievalEngine.optStandardScore
                         (Js.get "RLI" (DataParser.tests latest)))) eqn:ER;
    [|reflexivity].
  destruct (Js.truthy (RetrievalEngine.optStandardScore
                         (Js.get "ELI" (DataParser.tests latest)))) eqn:EE;
    [|reflexivity].
  cbn [andb fst].
  now rewrite (optStandardScore_zeroAsMissing _ ER),
              (optStandardScore_zeroAsMissing _ EE).
Qed.

Lemma groupEntry_zeroAsMissing
      (latest : DataParser.Assessment)
      (acc : list InsightAssembler.TestInsight * list RetrievalEngine.entry)
      (e : RetrievalEngine.entry) :
  InsightAssembler.groupEntry (zeroScoresAsMissing latest) acc e
  = InsightAssembler.groupEntry latest acc e.
Proof.
  unfold InsightAssembler.groupEntry. destruct acc as [ti ce].
  destruct (String.eqb (RetrievalEngine.test_type e) "Composite Comparison");
    [reflexivity|].
  change (DataParser.tests (zeroScoresAsMissing latest))
    with (map zeroAsMissingEntry (DataParser.tests latest)).
  rewrite get_zeroAsMissing.
  destruct (Js.get (RetrievalEngine.test_abbreviation e) (DataParser.tests latest))
    as [t|]; [|reflexivity].
  cbn [option_map]. cbv zeta. rewrite truthy_zeroAsMissing.
  destruct (Js.truthy (Js.of_option (DataParser.standardScore t))) eqn:E;
    [|reflexivity].
  now rewrite (score_zeroAsMissing t E).
Qed.

Lemma fold_groupEntry_zeroAsMissing
      (latest : DataParser.Assessment) (entries : list RetrievalEngine.entry) :
  forall acc,
    fold_left (InsightAssembler.groupEntry (zeroScoresAsMissing latest)) entries acc
    = fold_left (InsightAssembler.groupEntry latest) entries acc.
Proof.
  induction entries as [|e entries IH]; intros acc; cbn [fold_left];
    [reflexivity|].
  now rewrite groupEntry_zeroAsMissing, IH.
Qed.

Lemma assembleCompleteReport_zeroAsMissing
      (now : Z) (st : option InsightAssembler.Student)
      (assessments : list DataParser.Assessment)
      (entries : list RetrievalEngine.entry) (aud : string) :
  fst (InsightAssembler.assembleCompleteReport
         now st (map zeroScoresAsMissing assessments) entries aud)
  = fst (InsightAssembler.assembleCompleteReport now st assessments entries aud).
Proof.
  unfold InsightAssembler.assembleCompleteReport.
  destruct assessments as [|a l]; [reflexivity|].
  destruct entries as [|e entries]; [reflexivity|].
  change (map zeroScoresAsMissing (a :: l))
    with (zeroScoresAsMissing a :: map zeroScoresAsMissing l).
  cbv iota beta.
  change (zeroScoresAsMissing a :: map zeroScoresAsMissing l)
    with (map zeroScoresAsMissing (a :: l)).
  rewrite sort_zeroScoresAsMissing.
  destruct (Js.sort _ (a :: l)) as [|latest rest]; [reflexivity|].
  cbn [map]. rewrite fold_groupEntry_zeroAsMissing.
  destruct (fold_left _ _ _) as [ti ce].
  change (DataParser.tests (zeroScoresAsMissing latest))
    with (map zeroAsMissingEntry (DataParser.tests latest)).
  rewrite !get_zeroAsMissing, !optStandardScore_truthy_zeroAsMissing.
  change (DataParser.date (zeroScoresAsMissing latest))
    with (DataParser.date latest).
  destruct ce as [|c ce]; [reflexivity|].
  destruct (Js.truthy (RetrievalEngine.optStandardScore
                         (Js.get "RLI" (DataParser.tests latest)))) eqn:ER;
    [|reflexivity].
  destruct (Js.truthy (RetrievalEngine.optStandardScore
                         (Js.get "ELI" (DataParser.tests latest)))) eqn:EE;
    [|reflexivity].
  cbn [andb].
  now rewrite (optStandardScore_zeroAsMissing _ ER),
              (optStandardScore_zeroAsMissing _ EE).
Qed.

(** C10: a standard score of exactly 0 is treated like a missing one.
    [retrieveTestInterpretations] returns the empty list for it; the loop of
    [retrieveAllInterpretations] and the loop of [assembleCompleteReport]
    pass over a test whose stored score is 0; and on every input, both
    functions return what they return when each stored 0 is replaced by
    [null], the RLI/ELI comparison included. *)
Theorem zero_score_treated_as_missing :
  forall (table : list RetrievalEngine.entry) (now : Z)
         (st : option InsightAssembler.Student) (aud : string),
    (forall testName testAbbreviation,
        RetrievalEngine.retrieveTestInterpretations
          table testName testAbbreviation (Js.Num (Js.Fin 0)) aud = [])
    /\ (forall acc key t,
           DataParser.standardScore t = Some 0 ->
           RetrievalEngine.retrieveForTest table aud acc (key, t) = acc)
    /\ (forall latest acc e t,
           RetrievalEngine.test_type e <> "Composite Comparison"%string ->
           Js.get (RetrievalEngine.test_abbreviation e) (DataParser.tests latest)
           = Some t ->
           DataParser.standardScore t = Some 0 ->
           InsightAssembler.groupEntry latest acc e = acc)
    /\ (forall assessments,
           fst (RetrievalEngine.retrieveAllInterpretations table assessments aud)
           = fst (RetrievalEngine.retrieveAllInterpretations
                    table (map zeroScoresAsMissing assessments) aud))
    /\ (forall assessments entries,
           fst (InsightAssembler.assembleCompleteReport
                  now st assessments entries aud)
           = fst (InsightAssembler.assembleCompleteReport
                    now st (map zeroScoresAsMissing assessments) entries aud)).
Proof.
  intros table now st aud.
  split; [|split; [|split; [|split]]].
  - reflexivity.
  - intros acc key t H. unfold RetrievalEngine.retrieveForTest.
    rewrite H. reflexivity.
  - intros latest [ti ce] e t Hc Hg Hs. unfold InsightAssembler.groupEntry.
    apply String.eqb_neq in Hc. rewrite Hc, Hg. cbv zeta. rewrite Hs.
    reflexivity.
  - intros. symmetry. apply retrieveAllInterpretations_zeroAsMissing.
  - intros. symmetry. apply assembleCompleteReport_zeroAsMissing.
Qed.

(** ** Interpretation matcher: single-score queries *)






(** ** Insight heuristics: what the panel emits *)

Lemma emits_app (type_ : string) (l1 l2 : list InsightsPanel.Insight) :
  emits type_ (l1 ++ l2) <-> emits type_ l1 \/ emits type_ l2.
Proof.
  unfold emits. split.
  - intros [i [Hin Ht]]. apply in_app_or in Hin as [H|H]; [left|right];
      exists i; auto.
  - intros [[i [Hin Ht]]|[i [Hin Ht]]]; exists i; split; auto;
      apply in_or_app; auto.
Qed.

Lemma emits_category (type_ c title_ : string) (its : list InsightsPanel.item) :
  emits type_ (InsightsPanel.category c title_ its) -> c = type_.
Proof.
  unfold emits, InsightsPanel.category. destruct its as [|x its].
  - intros [i [[] _]].
  - intros [i [[<-|[]] Ht]]. exact Ht.
Qed.

Lemma emits_receptiveExpressive_type (type_ : string) (a b : Js.value) :
  emits type_ (InsightsPanel.receptiveExpressive a b) ->
  type_ = "receptive-expressive"%string.
Proof.
  unfold emits, InsightsPanel.receptiveExpressive.
  destruct (_ && _); [|intros [i [[] _]]].
  destruct (Js.ge _ _); [|intros [i [[] _]]].
  intros [i [[<-|[]] Ht]]. now rewrite <- Ht.
Qed.

Lemma insights_of_sorted (assessments : list DataParser.Assessment)
      (latest : DataParser.Assessment) (rest : list DataParser.Assessment) :
  Js.sort RetrievalEngine.byDateDescending assessments = latest :: rest ->
  fst (InsightsPanel.insights assessments)
  = InsightsPanel.insightsList latest (latest :: rest).
Proof.
  intros H. unfold InsightsPanel.insights.
  destruct assessments as [|a l]; [discriminate H|].
  rewrite H. reflexivity.
Qed.

(** ** What the sort puts first and last *)

Section SortOrder.

Context {A : Type}.
Variable cmp : A -> A -> Js.num.
Variable R : A -> A -> Prop.
Hypothesis keeps : forall x y, Js.keeps_order (cmp x y) = true <-> R x y.
Hypothesis R_total : forall x y, R x y \/ R y x.
Hypothesis R_trans : forall x y z, R x y -> R y z -> R x z.

Lemma sort_insert_sorted (x : A) (l : list A) :
  StronglySorted R l -> StronglySorted R (Js.sort_insert cmp x l).
Proof.
  induction 1 as [|y l Hl IH Hy]; simpl.
  - constructor; constructor.
  - destruct (Js.keeps_order (cmp x y)) eqn:K.
    + apply keeps in K. constructor.
      * constructor; assumption.
      * constructor; [exact K|].
        eapply Forall_impl; [|exact Hy]. intros a. now apply R_trans.
    + assert (Ryx : R y x).
      { destruct (R_total x y) as [H|H]; [|exact H].
        apply keeps in H. congruence. }
      constructor; [exact IH|].
      eapply Permutation_Forall;
        [apply Permutation_sym, sort_insert_perm|].
      constructor; assumption.
Qed.

Lemma sort_sorted (l : list A) : StronglySorted R (Js.sort cmp l).
Proof.
  induction l as [|x l IH]; simpl.
  - constructor.
  - now apply sort_insert_sorted.
Qed.

Lemma sorted_head (h : A) (t : list A) :
  StronglySorted R (h :: t) -> forall a, In a (h :: t) -> R h a.
Proof.
  intros S a [<-|Hin].
  - destruct (R_total h h); assumption.
  - apply StronglySorted_inv in S as [_ F].
    rewrite Forall_forall in F. now apply F.
Qed.

Lemma sorted_last (l : list A) :
  StronglySorted R l -> forall d a, In a l -> R a (last l d).
Proof.
  induction 1 as [|y l Hl IH Hy]; intros d a Hin; [destruct Hin|].
  destruct l as [|z l].
  - destruct Hin as [<-|[]]. destruct (R_total y y); assumption.
  - change (last (y :: z :: l) d) with (last (z :: l) d).
    destruct Hin as [<-|Hin].
    + rewrite Forall_forall in Hy. apply Hy.
      destruct (exists_last (l := z :: l)) as [l' [b E]]; [discriminate|].
      rewrite E, last_last. apply in_or_app. right. now left.
    + now apply IH.
Qed.

Lemma sort_first_last (l : list A) (h : A) (t : list A) :
  Js.sort cmp l = h :: t ->
  In h l /\ In (last (h :: t) h) l
  /\ forall a, In a l -> R h a /\ R a (last (h :: t) h).
Proof.
  intros E. pose proof (sort_perm cmp l) as P. rewrite E in P.
  pose proof (sort_sorted l) as S. rewrite E in S.
  split; [|split].
  - eapply Permutation_in; [exact P | now left].
  - eapply Permutation_in; [exact P|].
    destruct (exists_last (l := h :: t)) as [l' [b Eb]]; [discriminate|].
    rewrite Eb, last_last. apply in_or_app. right. now left.
  - intros a Ha.
    assert (Ha' : In a (h :: t)).
    { eapply Permutation_in; [apply Permutation_sym, P | exact Ha]. }
    split; [now apply (sorted_head h t) | now apply sorted_last].
Qed.

End SortOrder.

Lemma keeps_byDateDescending (x y : DataParser.Assessment) :
  Js.keeps_order (RetrievalEngine.byDateDescending x y) = true
  <-> (DataParser.date y <= DataParser.date x)%Z.
Proof.
  unfold RetrievalEngine.byDateDescending. cbn.
  rewrite Qle_bool_iff, Zle_Qle. split; intros H; lra.
Qed.


(** The head of the "most recent first" sort is a record of the array and
    no record of the array has a later date. *)
Lemma latest_is_most_recent (assessments : list DataParser.Assessment)
      (latest : DataParser.Assessment) (rest : list DataParser.Assessment) :
  Js.sort RetrievalEngine.byDateDescending assessments = latest :: rest ->
  In latest assessments
  /\ forall a, In a assessments ->
               (DataParser.date a <= DataParser.date latest)%Z.
Proof.
  intros E.
  destruct (sort_first_last
              RetrievalEngine.byDateDescending
              (fun x y => (DataParser.date y <= DataParser.date x)%Z)
              keeps_byDateDescending
              ltac:(cbv beta; intros; lia) ltac:(cbv beta; intros; lia)
              assessments latest rest E) as [Hin [_ H]].
  split; [exact Hin|]. intros a Ha. now apply H.
Qed.


(** ** Insight heuristics: receptive versus expressive *)

Section ReceptiveVersusExpressive.

Import PrimFloat.

Lemma domainScores_stored (codes : list string)
      (tests : list (string * InsightsPanel64.TestResult)) :
  InsightsPanel64.domainScores codes tests
  = map Js64.Num (storedScores codes tests).
Proof.
  unfold InsightsPanel64.domainScores, storedScores.
  induction tests as [|[k t] tests IH]; cbn [filter map flat_map fst snd];
    [reflexivity|].
  destruct (Js.includes codes k); cbn [filter map fst snd]; [|exact IH].
  destruct (InsightsPanel64.standardScore t) as [x|];
    cbn [Js64.of_option Js64.is_null negb app map]; now rewrite IH.
Qed.

Lemma sum_stored (l : list float) :
  forall a,
    fold_left (fun x b => Js64.add x (Js64.toNumber b)) (map Js64.Num l) a
    = fold_left Js64.add l a.
Proof.
  induction l as [|x l IH]; intros a; cbn [map fold_left Js64.toNumber];
    [reflexivity|]. apply IH.
Qed.

Lemma average_stored (l : list float) :
  InsightsPanel64.average (map Js64.Num l)
  = match l with
    | [] => Js64.Null
    | _ :: _ => Js64.Num (roundedMean l)
    end.
Proof.
  destruct l as [|x l]; [reflexivity|].
  unfold InsightsPanel64.average, roundedMean.
  change (map Js64.Num (x :: l)) with (Js64.Num x :: map Js64.Num l) at 1.
  cbv iota. now rewrite sum_stored, length_map.
Qed.

Lemma receptiveExpressive_emits64 (R E : list float) :
  emits64 "receptive-expressive"
          (InsightsPanel64.receptiveExpressive
             (InsightsPanel64.average (map Js64.Num R))
             (InsightsPanel64.average (map Js64.Num E)))
  <-> R <> [] /\ E <> []
      /\ Js64.ge (Js64.abs (Js64.sub (roundedMean R) (roundedMean E)))
                 10%float = true.
Proof.
  rewrite !average_stored. unfold emits64, InsightsPanel64.receptiveExpressive.
  destruct R as [|r R].
  { cbn. split; [intros [i [[] _]] | intros [H _]; now contradiction H]. }
  destruct E as [|e E].
  { cbn. split; [intros [i [[] _]] | intros [_ [H _]]; now contradiction H]. }
  cbn [Js64.is_null negb andb Js64.toNumber].
  destruct (Js64.ge _ _) eqn:D.
  - split.
    + intros _. repeat split; discriminate.
    + intros _. eexists. split; [left; reflexivity | reflexivity].
  - split.
    + intros [i [[] _]].
    + intros [_ [_ H]]. discriminate H.
Qed.

Lemma emits64_app (type_ : string) (l1 l2 : list InsightsPanel64.Insight) :
  emits64 type_ (l1 ++ l2) <-> emits64 type_ l1 \/ emits64 type_ l2.
Proof.
  unfold emits64. split.
  - intros [i [Hin Ht]]. apply in_app_or in Hin as [H|H]; [left|right];
      exists i; auto.
  - intros [[i [Hin Ht]]|[i [Hin Ht]]]; exists i; split; auto;
      apply in_or_app; auto.
Qed.

Lemma emits64_category (type_ c title_ : string)
      (its : list InsightsPanel64.item) :
  emits64 type_ (InsightsPanel64.category c title_ its) -> c = type_.
Proof.
  unfold emits64, InsightsPanel64.category. destruct its as [|x its].
  - intros [i [[] _]].
  - intros [i [[<-|[]] Ht]]. exact Ht.
Qed.

Lemma insights64_of_sorted (assessments : list InsightsPanel64.Assessment)
      (latest : InsightsPanel64.Assessment)
      (rest : list InsightsPanel64.Assessment) :
  Js.sort InsightsPanel64.byDateDescending assessments = latest :: rest ->
  fst (InsightsPanel64.insights assessments)
  = InsightsPanel64.insightsList latest (latest :: rest).
Proof.
  intros H. unfold InsightsPanel64.insights.
  destruct assessments as [|a l]; [discriminate H|].
  rewrite H. reflexivity.
Qed.

Lemma keeps_byDateDescending64 (x y : InsightsPanel64.Assessment) :
  Js.keeps_order (InsightsPanel64.byDateDescending x y) = true
  <-> (InsightsPanel64.date y <= InsightsPanel64.date x)%Z.
Proof.
  unfold InsightsPanel64.byDateDescending. cbn.
  rewrite Qle_bool_iff, Zle_Qle. split; intros H; lra.
Qed.

(** The head of the "most recent first" sort is a record of the array and
    no record of the array has a later date. *)
Lemma latest64_is_most_recent (assessments : list InsightsPanel64.Assessment)
      (latest : InsightsPanel64.Assessment)
      (rest : list InsightsPanel64.Assessment) :
  Js.sort InsightsPanel64.byDateDescending assessments = latest :: rest ->
  In latest assessments
  /\ forall a, In a assessments ->
               (InsightsPanel64.date a <= InsightsPanel64.date latest)%Z.
Proof.
  intros E.
  destruct (sort_first_last
              InsightsPanel64.byDateDescending
              (fun x y => (InsightsPanel64.date y <= InsightsPanel64.date x)%Z)
              keeps_byDateDescending64
              ltac:(cbv beta; intros; lia) ltac:(cbv beta; intros; lia)
              assessments latest rest E) as [Hin [_ H]].
  split; [exact Hin|]. intros a Ha. now apply H.
Qed.

Lemma emits64_insightsList (latest : InsightsPanel64.Assessment)
      (sorted : list InsightsPanel64.Assessment) :
  emits64 "receptive-expressive" (InsightsPanel64.insightsList latest sorted)
  <-> (storedScores InsightsPanel64.receptiveTests
                    (InsightsPanel64.tests latest) <> []
       /\ storedScores InsightsPanel64.expressiveTests
                       (InsightsPanel64.tests latest) <> []
       /\ Js64.ge
            (Js64.abs
               (Js64.sub
                  (roundedMean (storedScores InsightsPanel64.receptiveTests
                                             (InsightsPanel64.tests latest)))
                  (roundedMean (storedScores InsightsPanel64.expressiveTests
                                             (InsightsPanel64.tests latest)))))
            10%float = true).
Proof.
  unfold InsightsPanel64.insightsList. cbv zeta.
  rewrite !emits64_app, !domainScores_stored, receptiveExpressive_emits64.
  split.
  - intros [H|[H|[H|H]]]; try exact H;
      apply emits64_category in H; discriminate H.
  - intros H. right. right. left. exact H.
Qed.

(** C6 (as the code computes it): the receptive-versus-expressive heuristic
    works on the most recent assessment (a record of the array with no
    later one); it averages the non-null standard scores of the codes RLI,
    SC, BC, WC, DPP, PRS and of the codes ELI, WS, EV, FD, RS, and the
    insight is emitted if and only if each set has at least one non-null
    score and the difference of the two averages, each average and the
    difference computed in binary64 arithmetic, is 10 or more in absolute
    value.  Averages 110 and 95 emit it, stating that the receptive side is
    stronger by 15; 105 and 98 do not. *)
Theorem receptive_expressive_insight_rounded :
  forall (assessments : list InsightsPanel64.Assessment)
         (latest : InsightsPanel64.Assessment)
         (rest : list InsightsPanel64.Assessment),
    Js.sort InsightsPanel64.byDateDescending assessments = latest :: rest ->
    let R := storedScores InsightsPanel64.receptiveTests
                          (InsightsPanel64.tests latest) in
    let E := storedScores InsightsPanel64.expressiveTests
                          (InsightsPanel64.tests latest) in
    (In latest assessments
     /\ forall a, In a assessments ->
                  (InsightsPanel64.date a <= InsightsPanel64.date latest)%Z)
    /\ (emits64 "receptive-expressive"
                (fst (InsightsPanel64.insights assessments))
        <-> R <> [] /\ E <> []
            /\ Js64.ge (Js64.abs (Js64.sub (roundedMean R) (roundedMean E)))
                       10%float = true)
    /\ InsightsPanel64.receptiveTests
       = ["RLI"; "SC"; "BC"; "WC"; "DPP"; "PRS"]%string
    /\ InsightsPanel64.expressiveTests
       = ["ELI"; "WS"; "EV"; "FD"; "RS"]%string
    /\ emits64 "receptive-expressive"
               (fst (InsightsPanel64.insights
                       [visitOn 1704067200000
                                [("RLI"%string, 110%Z); ("ELI"%string, 95%Z)]]))
    /\ ~ emits64 "receptive-expressive"
           (fst (InsightsPanel64.insights
                   [visitOn 1704067200000
                            [("RLI"%string, 105%Z); ("ELI"%string, 98%Z)]]))
    /\ fst (InsightsPanel64.insights
              [visitOn 1704067200000
                       [("RLI"%string, 110%Z); ("ELI"%string, 95%Z)]])
       = [ {| InsightsPanel64.type := "receptive-expressive";
              InsightsPanel64.title := "Receptive vs Expressive Comparison";
              InsightsPanel64.items :=
                [ InsightsPanel64.AverageReceptive 110%float;
                  InsightsPanel64.AverageExpressive 95%float;
                  InsightsPanel64.StrongerBy "Receptive" 15%float ] |} ].
Proof.
  intros assessments latest rest Hs R E.
  split; [now apply (latest64_is_most_recent assessments latest rest)|].
  split; [rewrite (insights64_of_sorted _ _ _ Hs); apply emits64_insightsList|].
  split; [reflexivity|]. split; [reflexivity|]. split.
  - set (v := visitOn _ _).
    rewrite (insights64_of_sorted [v] v [] eq_refl).
    apply emits64_insightsList.
    split; [discriminate | split; [discriminate|]].
    vm_compute. reflexivity.
  - split; [|vm_compute; reflexivity].
    set (v := visitOn _ _).
    rewrite (insights64_of_sorted [v] v [] eq_refl).
    rewrite emits64_insightsList. intros [_ [_ H]].
    vm_compute in H. discriminate H.
Qed.

Lemma receptive_expressive_insight_rounded_witness :
  Js.sort InsightsPanel64.byDateDescending
    [ visitOn 1672531200000 [("RLI"%string, 80%Z)];
      visitOn 1704067200000 [("RLI"%string, 110%Z); ("ELI"%string, 95%Z)] ]
  = [ visitOn 1704067200000 [("RLI"%string, 110%Z); ("ELI"%string, 95%Z)];
      visitOn 1672531200000 [("RLI"%string, 80%Z)] ]
  /\ (emits64 "receptive-expressive"
              (fst (InsightsPanel64.insights
                      [ visitOn 1672531200000 [("RLI"%string, 80%Z)];
                        visitOn 1704067200000
                                [("RLI"%string, 110%Z); ("ELI"%string, 95%Z)] ]))
      <-> storedScores InsightsPanel64.receptiveTests
            (InsightsPanel64.tests
               (visitOn 1704067200000
                        [("RLI"%string, 110%Z); ("ELI"%string, 95%Z)])) <> []
          /\ storedScores InsightsPanel64.expressiveTests
               (InsightsPanel64.tests
                  (visitOn 1704067200000
                           [("RLI"%string, 110%Z); ("ELI"%string, 95%Z)])) <> []
          /\ Js64.ge
               (Js64.abs
                  (Js64.sub
                     (roundedMean
                        (storedScores InsightsPanel64.receptiveTests
                           (InsightsPanel64.tests
                              (visitOn 1704067200000
                                 [("RLI"%string, 110%Z); ("ELI"%string, 95%Z)]))))
                     (roundedMean
                        (storedScores InsightsPanel64.expressiveTests
                           (InsightsPanel64.tests
                              (visitOn 1704067200000
                                 [("RLI"%string, 110%Z); ("ELI"%string, 95%Z)]))))))
               10%float = true).
Proof.
  split; [reflexivity|].
  exact (proj1 (proj2 (receptive_expressive_insight_rounded
                         [ visitOn 1672531200000 [("RLI"%string, 80%Z)];
                           visitOn 1704067200000
                                   [("RLI"%string, 110%Z); ("ELI"%string, 95%Z)] ]
                         (visitOn 1704067200000
                                  [("RLI"%string, 110%Z); ("ELI"%string, 95%Z)])
                         [visitOn 1672531200000 [("RLI"%string, 80%Z)]]
                         eq_refl))).
Defined.

(** The scores 128, 129, 129 (receptive) and 118, 119, 119 (expressive):
    both sets have scores and their exact averages, 386/3 and 356/3, differ
    by 10, yet the insight is not emitted: in binary64 the two averages are
    128.66666666666666 and 118.66666666666667, and their difference falls
    short of 10. *)
Lemma receptive_expressive_rounding_counterexample :
  exactScores InsightsPanel64.receptiveTests tenApart
  = [inject_Z 128; inject_Z 129; inject_Z 129]
  /\ exactScores InsightsPanel64.expressiveTests tenApart
     = [inject_Z 118; inject_Z 119; inject_Z 119]
  /\ storedScores InsightsPanel64.receptiveTests
       (InsightsPanel64.tests (visitOn 1704067200000 tenApart))
     = [128%float; 129%float; 129%float]
  /\ storedScores InsightsPanel64.expressiveTests
       (InsightsPanel64.tests (visitOn 1704067200000 tenApart))
     = [118%float; 119%float; 119%float]
  /\ 10 <= Qabs (meanOf (exactScores InsightsPanel64.receptiveTests tenApart)
                 - meanOf (exactScores InsightsPanel64.expressiveTests tenApart))
  /\ Js64.lt
       (Js64.abs
          (Js64.sub
             (roundedMean [128%float; 129%float; 129%float])
             (roundedMean [118%float; 119%float; 119%float])))
       10%float = true
  /\ ~ emits64 "receptive-expressive"
         (fst (InsightsPanel64.insights [visitOn 1704067200000 tenApart])).
Proof.
  split; [reflexivity|]. split; [reflexivity|].
  split; [vm_compute; reflexivity|]. split; [vm_compute; reflexivity|].
  split; [apply Qle_bool_iff; reflexivity|].
  split; [vm_compute; reflexivity|].
  set (v := visitOn _ _).
  rewrite (insights64_of_sorted [v] v [] eq_refl).
  rewrite emits64_insightsList. intros [_ [_ H]].
  vm_compute in H. discriminate H.
Qed.

End ReceptiveVersusExpressive.

(** ** Insight heuristics: progress over time *)



Lemma includes_In (l : list string) (k : string) :
  Js.includes l k = true <-> In k l.
Proof.
  unfold Js.includes. rewrite existsb_exists. split.
  - intros [x [Hin E]]. apply String.eqb_eq in E. now subst.
  - intros H. exists k. split; [exact H | apply String.eqb_refl].
Qed.

Lemma setOfKeys_fold (keys : list string) :
  forall acc k,
    In k (fold_left
            (fun acc k => if Js.includes acc k then acc else acc ++ [k])
            keys acc)
    <-> In k acc \/ In k keys.
Proof.
  induction keys as [|x keys IH]; intros acc k; cbn [fold_left].
  - split; [now left | intros [H|[]]; exact H].
  - rewrite IH. destruct (Js.includes acc x) eqn:E.
    + apply includes_In in E. split.
      * intros [H|H]; [now left | right; now right].
      * intros [H|[<-|H]]; [now left | now left | now right].
    + rewrite in_app_iff. cbn [In]. tauto.
Qed.

Lemma setOfKeys_In (keys : list string) (k : string) :
  In k (InsightsPanel.setOfKeys keys) <-> In k keys.
Proof.
  unfold InsightsPanel.setOfKeys. rewrite setOfKeys_fold. cbn [In]. tauto.
Qed.

Lemma setOfKeys_fold_NoDup (keys : list string) :
  forall acc,
    NoDup acc ->
    NoDup (fold_left
             (fun acc k => if Js.includes acc k then acc else acc ++ [k])
             keys acc).
Proof.
  induction keys as [|x keys IH]; intros acc Hnd; cbn [fold_left];
    [exact Hnd|].
  apply IH. destruct (Js.includes acc x) eqn:E; [exact Hnd|].
  apply NoDup_app; [exact Hnd | constructor; [intros [] | constructor] |].
  intros a Ha [<-|[]].
  apply includes_In in Ha. congruence.
Qed.

Lemma setOfKeys_NoDup (keys : list string) :
  NoDup (InsightsPanel.setOfKeys keys).
Proof. apply setOfKeys_fold_NoDup. constructor. Qed.


Lemma In_category (c t : string) (its : list InsightsPanel.item)
      (i : InsightsPanel.Insight) :
  In i (InsightsPanel.category c t its) ->
  InsightsPanel.type i = c /\ InsightsPanel.items i = its.
Proof.
  unfold InsightsPanel.category. destruct its as [|x its]; [intros []|].
  intros [<-|[]]. split; reflexivity.
Qed.

Lemma In_receptiveExpressive (a b : Js.value) (i : InsightsPanel.Insight) :
  In i (InsightsPanel.receptiveExpressive a b) ->
  InsightsPanel.type i = "receptive-expressive"%string.
Proof.
  intros H. apply (emits_receptiveExpressive_type _ a b).
  exists i. split; [exact H | reflexivity].
Qed.

(** The items of the "progress" insight are the rendered change entries,
    computed on the array as the in-place sort left it. *)
Lemma progress_insight_items (assessments : list DataParser.Assessment)
      (i : InsightsPanel.Insight) :
  In i (fst (InsightsPanel.insights assessments)) ->
  InsightsPanel.type i = "progress"%string ->
  InsightsPanel.items i
  = map InsightsPanel.progressItem
      (InsightsPanel.progressOverTime (snd (InsightsPanel.insights assessments))).
Proof.
  rewrite insights_array.
  destruct (Js.sort RetrievalEngine.byDateDescending assessments)
    as [|latest rest] eqn:Hs.
  - destruct assessments as [|a l]; [intros []|].
    now apply sort_nonempty in Hs.
  - rewrite (insights_of_sorted _ _ _ Hs). unfold InsightsPanel.insightsList.
    cbv zeta. rewrite !in_app_iff. intros [H|[H|[H|H]]] Ht.
    + apply In_category in H as [H _]. rewrite Ht in H. discriminate H.
    + apply In_category in H as [H _]. rewrite Ht in H. discriminate H.
    + apply In_receptiveExpressive in H. rewrite Ht in H. discriminate H.
    + apply In_category in H as [_ H]. exact H.
Qed.






(** ** Record normaliser: dates *)

Local Open Scope string_scope.

Lemma string_length_append (s1 s2 : string) :
  String.length (s1 ++ s2) = (String.length s1 + String.length s2)%nat.
Proof. induction s1 as [|c s1 IH]; simpl; [reflexivity | now rewrite IH]. Qed.

Lemma string_append_assoc (s1 s2 s3 : string) :
  (s1 ++ s2) ++ s3 = s1 ++ (s2 ++ s3).
Proof. induction s1 as [|c s1 IH]; simpl; [reflexivity | now rewrite IH]. Qed.

Lemma oneOrTwoDigits_length (s : string) :
  oneOrTwoDigits s -> (String.length s <= 2)%nat.
Proof. destruct 1; simpl; lia. Qed.

Lemma fourDigits_length (s : string) : fourDigits s -> String.length s = 4%nat.
Proof. destruct 1; reflexivity. Qed.

Lemma literalMDY_length (s : string) :
  literalMDY s -> (String.length s <= 10)%nat.
Proof.
  intros (m & d & y & Hm & Hd & Hy & ->).
  rewrite !string_length_append.
  apply oneOrTwoDigits_length in Hm, Hd. apply fourDigits_length in Hy.
  simpl. lia.
Qed.

Lemma literalYMD_length (s : string) :
  literalYMD s -> (String.length s <= 10)%nat.
Proof.
  intros (y & m & d & Hy & Hm & Hd & ->).
  rewrite !string_length_append.
  apply oneOrTwoDigits_length in Hm, Hd. apply fourDigits_length in Hy.
  simpl. lia.
Qed.

(** C8, as the claim words it, fails on a date followed by a time of day:
    the string is in neither literal format, yet it parses. *)
Lemma parseDate_accepts_more_counterexample :
  DataParser.parseDate (Some "3/15/2024 10:30")
  = Some {| DataParser.year := 2024;
            DataParser.monthIndex := 2;
            DataParser.day := 15 |}
  /\ ~ literalMDY "3/15/2024 10:30"
  /\ ~ literalYMD "3/15/2024 10:30".
Proof.
  split; [reflexivity|]. split; intros H.
  - apply literalMDY_length in H. simpl in H. lia.
  - apply literalYMD_length in H. simpl in H. lia.
Qed.

Lemma digit_is_no_separator (a : ascii) :
  DataParser.is_digit a = true ->
  Ascii.eqb a "/" = false /\ Ascii.eqb a "-" = false
  /\ DataParser.is_space a = false.
Proof.
  destruct a as [[] [] [] [] [] [] [] []]; vm_compute; intros H;
    try discriminate H; repeat split.
Qed.

Lemma digits12_sep_complete (sep : ascii) (m r : string) :
  oneOrTwoDigits m -> DataParser.is_digit sep = false ->
  DataParser.digits12_sep sep (m ++ String sep r) = Some (m, r).
Proof.
  intros Hm Hsep. destruct Hm as [a Ha|a b Ha Hb]; cbn.
  - now rewrite Ha, Hsep, Ascii.eqb_refl.
  - now rewrite Ha, Hb, Ascii.eqb_refl.
Qed.

Lemma digits12_sep_sound (sep : ascii) (s m r : string) :
  DataParser.digits12_sep sep s = Some (m, r) ->
  oneOrTwoDigits m /\ s = m ++ String sep r.
Proof.
  unfold DataParser.digits12_sep.
  destruct s as [|a [|b r0]]; try discriminate.
  destruct (DataParser.is_digit a) eqn:Ha; [|discriminate].
  destruct (DataParser.is_digit b) eqn:Hb.
  - destruct r0 as [|c r']; [discriminate|].
    destruct (Ascii.eqb c sep) eqn:Hc; [|discriminate].
    apply Ascii.eqb_eq in Hc. subst c. intros [= <- <-].
    split; [now constructor | reflexivity].
  - destruct (Ascii.eqb b sep) eqn:Hc; [|discriminate].
    apply Ascii.eqb_eq in Hc. subst b. intros [= <- <-].
    split; [now constructor | reflexivity].
Qed.

Lemma digits4_complete (y r : string) :
  fourDigits y -> DataParser.digits4 (y ++ r) = Some (y, r).
Proof.
  intros [a b c d Ha Hb Hc Hd]. cbn. now rewrite Ha, Hb, Hc, Hd.
Qed.

Lemma digits4_sound (s y r : string) :
  DataParser.digits4 s = Some (y, r) -> fourDigits y /\ s = y ++ r.
Proof.
  unfold DataParser.digits4.
  destruct s as [|a [|b [|c [|d r0]]]]; try discriminate.
  destruct (DataParser.is_digit a) eqn:Ha; [|discriminate].
  destruct (DataParser.is_digit b) eqn:Hb; [|discriminate].
  destruct (DataParser.is_digit c) eqn:Hc; [|discriminate].
  destruct (DataParser.is_digit d) eqn:Hd; [|discriminate].
  cbn. intros [= <- <-]. split; [now constructor | reflexivity].
Qed.

Lemma digits12_end_complete (d r : string) :
  oneOrTwoDigits d -> exists d', DataParser.digits12_end (d ++ r) = Some d'.
Proof.
  intros [a Ha|a b Ha Hb]; cbn; rewrite Ha.
  - destruct r as [|c r]; [eexists; reflexivity|].
    destruct (DataParser.is_digit c); eexists; reflexivity.
  - rewrite Hb. eexists; reflexivity.
Qed.

Lemma digits12_end_literal (d : string) :
  oneOrTwoDigits d -> DataParser.digits12_end d = Some d.
Proof.
  intros [a Ha|a b Ha Hb]; cbn; rewrite Ha; [reflexivity|].
  now rewrite Hb.
Qed.

Lemma digits12_end_sound (s d : string) :
  DataParser.digits12_end s = Some d ->
  oneOrTwoDigits d /\ exists r, s = d ++ r.
Proof.
  unfold DataParser.digits12_end. destruct s as [|a r]; [discriminate|].
  destruct (DataParser.is_digit a) eqn:Ha; [|discriminate].
  destruct r as [|b r'].
  - intros [= <-]. split; [now constructor | now exists ""].
  - destruct (DataParser.is_digit b) eqn:Hb; intros [= <-].
    + split; [now constructor | now exists r'].
    + split; [now constructor | now exists (String b r')].
Qed.

Lemma slash_no_digit : DataParser.is_digit "/" = false.
Proof. reflexivity. Qed.

Lemma dash_no_digit : DataParser.is_digit "-" = false.
Proof. reflexivity. Qed.

Lemma format_MDY_here_complete (m d y post : string) :
  oneOrTwoDigits m -> oneOrTwoDigits d -> fourDigits y ->
  DataParser.format_MDY_here (m ++ "/" ++ d ++ "/" ++ y ++ post)
  = Some (m, d, y).
Proof.
  intros Hm Hd Hy. unfold DataParser.format_MDY_here.
  change ("/" ++ d ++ "/" ++ y ++ post)
    with (String "/" (d ++ String "/" (y ++ post))).
  rewrite (digits12_sep_complete _ _ _ Hm slash_no_digit).
  rewrite (digits12_sep_complete _ _ _ Hd slash_no_digit).
  now rewrite (digits4_complete _ _ Hy).
Qed.

Lemma format_MDY_here_sound (s m d y : string) :
  DataParser.format_MDY_here s = Some (m, d, y) ->
  oneOrTwoDigits m /\ oneOrTwoDigits d /\ fourDigits y
  /\ exists post, s = m ++ "/" ++ d ++ "/" ++ y ++ post.
Proof.
  unfold DataParser.format_MDY_here.
  destruct (DataParser.digits12_sep "/" s) as [[m' s1]|] eqn:E1;
    [|discriminate].
  destruct (DataParser.digits12_sep "/" s1) as [[d' s2]|] eqn:E2;
    [|discriminate].
  destruct (DataParser.digits4 s2) as [[y' post]|] eqn:E3; [|discriminate].
  intros [= <- <- <-].
  apply digits12_sep_sound in E1 as [Hm ->].
  apply digits12_sep_sound in E2 as [Hd ->].
  apply digits4_sound in E3 as [Hy ->].
  repeat split; try assumption. now exists post.
Qed.

Lemma format_YMD_here_complete (y m d post : string) :
  fourDigits y -> oneOrTwoDigits m -> oneOrTwoDigits d ->
  exists d',
    DataParser.format_YMD_here (y ++ "-" ++ m ++ "-" ++ d ++ post)
    = Some (y, m, d').
Proof.
  intros Hy Hm Hd. unfold DataParser.format_YMD_here.
  rewrite (digits4_complete _ _ Hy).
  change ("-" ++ m ++ "-" ++ d ++ post)
    with (String "-" (m ++ String "-" (d ++ post))).
  cbv iota beta. rewrite Ascii.eqb_refl.
  rewrite (digits12_sep_complete _ _ _ Hm dash_no_digit).
  destruct (digits12_end_complete d post Hd) as [d' ->]. now exists d'.
Qed.

Lemma format_YMD_here_literal (y m d : string) :
  fourDigits y -> oneOrTwoDigits m -> oneOrTwoDigits d ->
  DataParser.format_YMD_here (y ++ "-" ++ m ++ "-" ++ d) = Some (y, m, d).
Proof.
  intros Hy Hm Hd. unfold DataParser.format_YMD_here.
  rewrite (digits4_complete _ _ Hy).
  change ("-" ++ m ++ "-" ++ d) with (String "-" (m ++ String "-" d)).
  cbv iota beta. rewrite Ascii.eqb_refl.
  rewrite (digits12_sep_complete _ _ _ Hm dash_no_digit).
  now rewrite (digits12_end_literal _ Hd).
Qed.

Lemma format_YMD_here_sound (s y m d : string) :
  DataParser.format_YMD_here s = Some (y, m, d) ->
  fourDigits y /\ oneOrTwoDigits m /\ oneOrTwoDigits d
  /\ exists post, s = y ++ "-" ++ m ++ "-" ++ d ++ post.
Proof.
  unfold DataParser.format_YMD_here.
  destruct (DataParser.digits4 s) as [[y' [|sep s1]]|] eqn:E1;
    try discriminate.
  destruct (Ascii.eqb sep "-") eqn:Hsep; [|discriminate].
  apply Ascii.eqb_eq in Hsep. subst sep.
  destruct (DataParser.digits12_sep "-" s1) as [[m' s2]|] eqn:E2;
    [|discriminate].
  destruct (DataParser.digits12_end s2) as [d'|] eqn:E3; [|discriminate].
  intros [= <- <- <-].
  apply digits4_sound in E1 as [Hy ->].
  apply digits12_sep_sound in E2 as [Hm ->].
  apply digits12_end_sound in E3 as [Hd [post ->]].
  repeat split; try assumption. now exists post.
Qed.

(** *** The unanchored search *)

Lemma regex_match_Some {A : Type} (here : string -> option A)
      (s : string) (r : A) :
  DataParser.regex_match here s = Some r ->
  exists pre suf, s = pre ++ suf /\ here suf = Some r.
Proof.
  induction s as [|c s IH]; cbn.
  - destruct (here "") eqn:E; [|discriminate].
    intros [= <-]. now exists "", "".
  - destruct (here (String c s)) eqn:E.
    + intros [= <-]. now exists "", (String c s).
    + intros H. destruct (IH H) as (pre & suf & -> & Hs).
      now exists (String c pre), suf.
Qed.

Lemma regex_match_None {A : Type} (here : string -> option A) (s : string) :
  DataParser.regex_match here s = None ->
  forall pre suf, s = pre ++ suf -> here suf = None.
Proof.
  induction s as [|c s IH]; cbn.
  - destruct (here "") eqn:E; [discriminate|].
    intros _ [|c pre] suf H; [|discriminate H].
    cbn in H. now subst suf.
  - destruct (here (String c s)) eqn:E; [discriminate|].
    intros H [|c' pre] suf Hs.
    + cbn in Hs. now subst suf.
    + injection Hs as -> ->. now apply (IH H pre).
Qed.

Lemma containsMDY_regex (s : string) :
  containsMDY s <-> DataParser.regex_match DataParser.format_MDY_here s <> None.
Proof.
  split.
  - intros (pre & m & d & y & post & Hm & Hd & Hy & ->) H.
    pose proof (regex_match_None _ _ H pre _ eq_refl) as N.
    now rewrite (format_MDY_here_complete m d y post Hm Hd Hy) in N.
  - destruct (DataParser.regex_match DataParser.format_MDY_here s)
      as [[[m d] y]|] eqn:E; [intros _ | intros H; now contradiction H].
    apply regex_match_Some in E as (pre & suf & -> & E).
    apply format_MDY_here_sound in E as (Hm & Hd & Hy & post & ->).
    now exists pre, m, d, y, post.
Qed.

Lemma containsYMD_regex (s : string) :
  containsYMD s <-> DataParser.regex_match DataParser.format_YMD_here s <> None.
Proof.
  split.
  - intros (pre & y & m & d & post & Hy & Hm & Hd & ->) H.
    pose proof (regex_match_None _ _ H pre _ eq_refl) as N.
    destruct (format_YMD_here_complete y m d post Hy Hm Hd) as [d' E].
    now rewrite E in N.
  - destruct (DataParser.regex_match DataParser.format_YMD_here s)
      as [[[y m] d]|] eqn:E; [intros _ | intros H; now contradiction H].
    apply regex_match_Some in E as (pre & suf & -> & E).
    apply format_YMD_here_sound in E as (Hy & Hm & Hd & post & ->).
    now exists pre, y, m, d, post.
Qed.

(** *** The guard on blank strings *)

Lemma nonSpace_trim_start (s : string) :
  nonSpace (DataParser.trim_start s) = nonSpace s.
Proof.
  induction s as [|c s IH]; cbn; [reflexivity|].
  destruct (DataParser.is_space c) eqn:E; cbn; [exact IH | now rewrite E].
Qed.

Lemma nonSpace_rev_onto (s acc : string) :
  nonSpace (DataParser.rev_onto s acc) = nonSpace s || nonSpace acc.
Proof.
  revert acc. induction s as [|c s IH]; intros acc; cbn; [reflexivity|].
  rewrite IH. cbn.
  destruct (DataParser.is_space c), (nonSpace s), (nonSpace acc); reflexivity.
Qed.

Lemma nonSpace_trim (s : string) : nonSpace (DataParser.trim s) = nonSpace s.
Proof.
  unfold DataParser.trim, DataParser.rev_string.
  rewrite nonSpace_rev_onto, nonSpace_trim_start, nonSpace_rev_onto,
    nonSpace_trim_start.
  cbn. now rewrite !orb_false_r.
Qed.

Lemma nonSpace_guard (s : string) :
  nonSpace s = true ->
  String.eqb s "" || String.eqb (DataParser.trim s) "" = false.
Proof.
  intros H. apply orb_false_iff. split; apply String.eqb_neq; intros E.
  - now rewrite E in H.
  - rewrite <- nonSpace_trim, E in H. discriminate H.
Qed.

Lemma nonSpace_app_digit (pre : string) (a : ascii) (r : string) :
  DataParser.is_digit a = true -> nonSpace (pre ++ String a r) = true.
Proof.
  intros Ha. induction pre as [|c pre IH]; cbn.
  - destruct (digit_is_no_separator a Ha) as (_ & _ & ->). reflexivity.
  - rewrite IH. apply orb_true_r.
Qed.

Lemma containsMDY_nonSpace (s : string) : containsMDY s -> nonSpace s = true.
Proof.
  intros (pre & m & d & y & post & Hm & _ & _ & ->).
  destruct Hm as [a Ha|a b Ha _]; cbn; now apply nonSpace_app_digit.
Qed.

Lemma containsYMD_nonSpace (s : string) : containsYMD s -> nonSpace s = true.
Proof.
  intros (pre & y & m & d & post & Hy & _ & _ & ->).
  destruct Hy as [a b c e Ha _ _ _]; cbn; now apply nonSpace_app_digit.
Qed.

(** [parseDate] on a string that is not blank. *)
Lemma parseDate_nonSpace (s : string) :
  nonSpace s = true ->
  DataParser.parseDate (Some s)
  = match DataParser.regex_match DataParser.format_MDY_here s with
    | Some (m, d, y) => Some (dateArgsOf y m d)
    | None =>
        match DataParser.regex_match DataParser.format_YMD_here s with
        | Some (y, m, d) => Some (dateArgsOf y m d)
        | None => None
        end
    end.
Proof.
  intros H. unfold DataParser.parseDate. rewrite (nonSpace_guard s H).
  destruct (DataParser.regex_match DataParser.format_MDY_here s)
    as [[[m d] y]|]; [reflexivity|].
  destruct (DataParser.regex_match DataParser.format_YMD_here s)
    as [[[y m] d]|]; reflexivity.
Qed.

Lemma parseDate_None (s : string) :
  DataParser.parseDate (Some s) = None
  <-> ~ containsMDY s /\ ~ containsYMD s.
Proof.
  rewrite containsMDY_regex, containsYMD_regex. split.
  - intros H. destruct (nonSpace s) eqn:N.
    + rewrite (parseDate_nonSpace s N) in H.
      destruct (DataParser.regex_match DataParser.format_MDY_here s)
        as [[[m d] y]|]; [discriminate H|].
      destruct (DataParser.regex_match DataParser.format_YMD_here s)
        as [[[y m] d]|]; [discriminate H|].
      split; intros C; now apply C.
    + split; intros C.
      * apply containsMDY_regex, containsMDY_nonSpace in C. congruence.
      * apply containsYMD_regex, containsYMD_nonSpace in C. congruence.
  - intros [H1 H2]. unfold DataParser.parseDate.
    destruct (_ || _); [reflexivity|].
    destruct (DataParser.regex_match DataParser.format_MDY_here s)
      as [[[m d] y]|]; [exfalso; apply H1; discriminate|].
    destruct (DataParser.regex_match DataParser.format_YMD_here s)
      as [[[y m] d]|]; [exfalso; apply H2; discriminate|].
    reflexivity.
Qed.

(** *** Which pattern is read *)

Lemma string_append_nil_r (s : string) : s ++ "" = s.
Proof. induction s as [|c s IH]; cbn; [reflexivity | now rewrite IH]. Qed.

Lemma regex_match_here {A : Type} (here : string -> option A)
      (s : string) (r : A) :
  here s = Some r -> DataParser.regex_match here s = Some r.
Proof. intros H. destruct s; cbn; now rewrite H. Qed.

Lemma parseDate_reads_MDY (s : string) :
  containsMDY s ->
  exists pre m d y post,
    oneOrTwoDigits m /\ oneOrTwoDigits d /\ fourDigits y
    /\ s = pre ++ m ++ "/" ++ d ++ "/" ++ y ++ post
    /\ DataParser.parseDate (Some s) = Some (dateArgsOf y m d).
Proof.
  intros C. rewrite (parseDate_nonSpace s (containsMDY_nonSpace s C)).
  apply containsMDY_regex in C.
  destruct (DataParser.regex_match DataParser.format_MDY_here s)
    as [[[m d] y]|] eqn:E; [|now contradiction C].
  apply regex_match_Some in E as (pre & suf & -> & E).
  apply format_MDY_here_sound in E as (Hm & Hd & Hy & post & ->).
  exists pre, m, d, y, post. auto.
Qed.

Lemma parseDate_reads_YMD (s : string) :
  ~ containsMDY s -> containsYMD s ->
  exists pre y m d post,
    fourDigits y /\ oneOrTwoDigits m /\ oneOrTwoDigits d
    /\ s = pre ++ y ++ "-" ++ m ++ "-" ++ d ++ post
    /\ DataParser.parseDate (Some s) = Some (dateArgsOf y m d).
Proof.
  intros N C. rewrite (parseDate_nonSpace s (containsYMD_nonSpace s C)).
  rewrite containsMDY_regex in N. apply containsYMD_regex in C.
  destruct (DataParser.regex_match DataParser.format_MDY_here s)
    as [[[m0 d0] y0]|]; [exfalso; apply N; discriminate|].
  destruct (DataParser.regex_match DataParser.format_YMD_here s)
    as [[[y m] d]|] eqn:E; [|now contradiction C].
  apply regex_match_Some in E as (pre & suf & -> & E).
  apply format_YMD_here_sound in E as (Hy & Hm & Hd & post & ->).
  exists pre, y, m, d, post. auto.
Qed.

Lemma parseDate_literal_MDY (m d y : string) :
  oneOrTwoDigits m -> oneOrTwoDigits d -> fourDigits y ->
  DataParser.parseDate (Some (m ++ "/" ++ d ++ "/" ++ y))
  = Some (dateArgsOf y m d).
Proof.
  intros Hm Hd Hy.
  assert (C : containsMDY (m ++ "/" ++ d ++ "/" ++ y)).
  { exists "", m, d, y, "". rewrite string_append_nil_r. auto. }
  rewrite (parseDate_nonSpace _ (containsMDY_nonSpace _ C)).
  rewrite (regex_match_here _ _ (m, d, y)); [reflexivity|].
  rewrite <- (string_append_nil_r y) at 1.
  now apply format_MDY_here_complete.
Qed.

Lemma hasSlash_app (s1 s2 : string) :
  hasSlash (s1 ++ s2) = hasSlash s1 || hasSlash s2.
Proof.
  induction s1 as [|c s1 IH]; cbn; [reflexivity|].
  now rewrite IH, orb_assoc.
Qed.

Lemma containsMDY_hasSlash (s : string) : containsMDY s -> hasSlash s = true.
Proof.
  intros (pre & m & d & y & post & _ & _ & _ & ->).
  rewrite !hasSlash_app. cbn. rewrite !orb_true_r. reflexivity.
Qed.

Lemma oneOrTwoDigits_no_slash (s : string) :
  oneOrTwoDigits s -> hasSlash s = false.
Proof.
  intros [a Ha|a b Ha Hb]; cbn;
    repeat match goal with
      | H : DataParser.is_digit ?x = true |- _ =>
          destruct (digit_is_no_separator x H) as (-> & _ & _); clear H
      end; reflexivity.
Qed.

Lemma fourDigits_no_slash (s : string) : fourDigits s -> hasSlash s = false.
Proof.
  intros [a b c d Ha Hb Hc Hd]; cbn;
    repeat match goal with
      | H : DataParser.is_digit ?x = true |- _ =>
          destruct (digit_is_no_separator x H) as (-> & _ & _); clear H
      end; reflexivity.
Qed.

Lemma parseDate_literal_YMD (y m d : string) :
  fourDigits y -> oneOrTwoDigits m -> oneOrTwoDigits d ->
  DataParser.parseDate (Some (y ++ "-" ++ m ++ "-" ++ d))
  = Some (dateArgsOf y m d).
Proof.
  intros Hy Hm Hd.
  assert (C : containsYMD (y ++ "-" ++ m ++ "-" ++ d)).
  { exists "", y, m, d, "". rewrite string_append_nil_r. auto. }
  assert (N : ~ containsMDY (y ++ "-" ++ m ++ "-" ++ d)).
  { intros H. apply containsMDY_hasSlash in H.
    rewrite !hasSlash_app in H.
    rewrite (fourDigits_no_slash y Hy), (oneOrTwoDigits_no_slash m Hm),
      (oneOrTwoDigits_no_slash d Hd) in H.
    discriminate H. }
  rewrite (parseDate_nonSpace _ (containsYMD_nonSpace _ C)).
  rewrite containsMDY_regex in N.
  destruct (DataParser.regex_match DataParser.format_MDY_here
              (y ++ "-" ++ m ++ "-" ++ d)) as [[[m0 d0] y0]|];
    [exfalso; apply N; discriminate|].
  rewrite (regex_match_here _ _ (y, m, d)); [reflexivity|].
  now apply format_YMD_here_literal.
Qed.

(** *** The row *)

Section Rows.

Variable parseFloat : string -> Js.num.
Variable makeDate : DataParser.DateArgs -> Z.
Variable now : Z.

Lemma processRow_kept (r : DataParser.row) :
  DataParser.processRow parseFloat makeDate now r <> None
  <-> usableId r
      /\ DataParser.extractTests parseFloat r (Js.keys DataParser.TEST_NAMES)
         <> [].
Proof.
  unfold DataParser.processRow, usableId.
  destruct (Js.get "LT_Id" r) as [i|].
  - destruct (String.eqb i "") eqn:E1;
      [apply String.eqb_eq in E1|apply String.eqb_neq in E1].
    { split; [intros H; now contradiction H|].
      intros [(i' & [= <-] & H & _) _]. contradiction. }
    destruct (String.eqb (DataParser.trim i) "") eqn:E2;
      [apply String.eqb_eq in E2|apply String.eqb_neq in E2].
    { split; [intros H; now contradiction H|].
      intros [(i' & [= <-] & _ & H & _) _]. contradiction. }
    destruct (String.eqb i "#N/A") eqn:E3;
      [apply String.eqb_eq in E3|apply String.eqb_neq in E3].
    { split; [intros H; now contradiction H|].
      intros [(i' & [= <-] & _ & _ & H) _]. contradiction. }
    cbn [orb]. cbv zeta.
    destruct (DataParser.extractTests parseFloat r
                (Js.keys DataParser.TEST_NAMES)) as [|t ts].
    + split; [intros H; now contradiction H | intros [_ H]; now contradiction H].
    + split; [|discriminate]. intros _. split; [|discriminate].
      exists i. auto.
  - split; [intros H; now contradiction H|].
    intros [(i & H & _) _]. discriminate H.
Qed.

Lemma processRow_date (r : DataParser.row) (record : DataParser.Assessment) :
  DataParser.processRow parseFloat makeDate now r = Some record ->
  DataParser.date record
  = match DataParser.parseDate (Js.get "AssessmentDate" r) with
    | Some d => makeDate d
    | None => now
    end.
Proof.
  unfold DataParser.processRow.
  destruct (Js.get "LT_Id" r) as [i|]; [|discriminate].
  destruct (_ || _); [discriminate|]. cbv zeta.
  destruct (DataParser.extractTests parseFloat r
              (Js.keys DataParser.TEST_NAMES)); [discriminate|].
  intros [= <-]. reflexivity.
Qed.

End Rows.

Lemma processCSVData_keeps
      (parseFloat : string -> Js.num) (makeDate : DataParser.DateArgs -> Z)
      (now : Z) (rows : list DataParser.row)
      (r : DataParser.row) (record : DataParser.Assessment) :
  In r rows ->
  DataParser.processRow parseFloat makeDate now r = Some record ->
  In record (DataParser.processCSVData parseFloat makeDate now rows).
Proof.
  intros Hin Hr. induction rows as [|r0 rows IH]; [destruct Hin|].
  cbn [DataParser.processCSVData]. destruct Hin as [->|Hin].
  - rewrite Hr. now left.
  - destruct (DataParser.processRow parseFloat makeDate now r0);
      [right|]; now apply IH.
Qed.

(** C8 (amended): [parseDate] tries the pattern M/D/YYYY and then the
    pattern YYYY-M-D, each searched anywhere inside the string, so a string
    is unparseable exactly when it contains neither form; a string that
    contains the first form is read from such an occurrence, a string that
    contains only the second form from one of those, and a string that is
    literally M/D/YYYY or YYYY-M-D is read field by field.  The date never
    decides whether a row is kept: a row is kept exactly when its student id
    is usable and it has a test, it then appears in the output, and its date
    is the parsed date or, when the string is unparseable or missing, the
    load time. *)
Theorem parseDate_two_patterns_anywhere :
  forall (parseFloat : string -> Js.num)
         (makeDate : DataParser.DateArgs -> Z) (now : Z),
    (forall s,
        DataParser.parseDate (Some s) = None
        <-> ~ containsMDY s /\ ~ containsYMD s)
    /\ (forall s,
           containsMDY s ->
           exists pre m d y post,
             oneOrTwoDigits m /\ oneOrTwoDigits d /\ fourDigits y
             /\ s = pre ++ m ++ "/" ++ d ++ "/" ++ y ++ post
             /\ DataParser.parseDate (Some s) = Some (dateArgsOf y m d))
    /\ (forall s,
           ~ containsMDY s -> containsYMD s ->
           exists pre y m d post,
             fourDigits y /\ oneOrTwoDigits m /\ oneOrTwoDigits d
             /\ s = pre ++ y ++ "-" ++ m ++ "-" ++ d ++ post
             /\ DataParser.parseDate (Some s) = Some (dateArgsOf y m d))
    /\ (forall m d y,
           oneOrTwoDigits m -> oneOrTwoDigits d -> fourDigits y ->
           DataParser.parseDate (Some (m ++ "/" ++ d ++ "/" ++ y))
           = Some (dateArgsOf y m d))
    /\ (forall y m d,
           fourDigits y -> oneOrTwoDigits m -> oneOrTwoDigits d ->
           DataParser.parseDate (Some (y ++ "-" ++ m ++ "-" ++ d))
           = Some (dateArgsOf y m d))
    /\ DataParser.parseDate None = None
    /\ (forall r,
           DataParser.processRow parseFloat makeDate now r <> None
           <-> usableId r
               /\ DataParser.extractTests
                    parseFloat r (Js.keys DataParser.TEST_NAMES) <> [])
    /\ (forall rows r record,
           In r rows ->
           DataParser.processRow parseFloat makeDate now r = Some record ->
           In record (DataParser.processCSVData parseFloat makeDate now rows)
           /\ DataParser.date record
              = match DataParser.parseDate (Js.get "AssessmentDate" r) with
                | Some d => makeDate d
                | None => now
                end)
    /\ map DataParser.date
           (DataParser.processCSVData
              (fun _ => Js.Fin 90) makeDate now [rowWithWordedDate])
       = [now].
Proof.
  intros parseFloat makeDate now.
  split; [exact parseDate_None|].
  split; [exact parseDate_reads_MDY|].
  split; [exact parseDate_reads_YMD|].
  split; [exact parseDate_literal_MDY|].
  split; [exact parseDate_literal_YMD|].
  split; [reflexivity|].
  split; [apply processRow_kept|].
  split; [|reflexivity].
  intros rows r record Hin Hr. split.
  - now apply (processCSVData_keeps _ _ _ rows r).
  - now apply processRow_date with (parseFloat := parseFloat).
Qed.

(** ** Worked inputs *)

Example parseDate_slashes :
  DataParser.parseDate (Some "12/25/2023")
  = Some {| DataParser.year := 2023;
            DataParser.monthIndex := 11;
            DataParser.day := 25 |}.
Proof. reflexivity. Qed.

Example parseDate_dashes :
  DataParser.parseDate (Some "2024-03-15")
  = Some {| DataParser.year := 2024;
            DataParser.monthIndex := 2;
            DataParser.day := 15 |}.
Proof. reflexivity. Qed.

Example parseDate_first_pattern_wins :
  DataParser.parseDate (Some "2021-3-4 or 1/2/2020")
  = Some {| DataParser.year := 2020;
            DataParser.monthIndex := 0;
            DataParser.day := 2 |}.
Proof. reflexivity. Qed.

Example parseDate_blank : DataParser.parseDate (Some "   ") = None.
Proof. reflexivity. Qed.

Example parseDate_words : DataParser.parseDate (Some "March 5") = None.
Proof. reflexivity. Qed.

Example retrieveAll_two_visits :
  RetrievalEngine.retrieveAllInterpretations
    [receptive_below_avg] [firstVisit; smallGainVisit] "clinician"
  = ([receptive_below_avg], [smallGainVisit; firstVisit]).
Proof. reflexivity. Qed.

Example assemble_two_visits :
  InsightAssembler.testInsights
    (fst (InsightAssembler.assembleCompleteReport
            0 None [firstVisit; smallGainVisit] [receptive_below_avg]
            "clinician"))
  = [ {| InsightAssembler.test := "Receptive Language Index";
         InsightAssembler.testAbbreviation := "RLI";
         InsightAssembler.score := Js.Num (Js.Fin 83);
         InsightAssembler.zScore := Js.Num (Js.Fin ((83 - 100) / 15));
         InsightAssembler.normativeBand := "Below Average";
         InsightAssembler.insights :=
           [InsightAssembler.toInsight receptive_below_avg];
         InsightAssembler.retrievedCount := 1 |} ].
Proof. reflexivity. Qed.

(* ================================================================== *)
(** * Further properties of the code                                   *)
(* ================================================================== *)

(** ** Score statistics *)

(** X1: [calculateZScore] answers [null] exactly on [null], [undefined] and
    NaN; on a finite score it answers a finite z that is negative, zero or
    positive as the score lies below, at or above the mean of the
    instrument, and a higher score never gets a lower z. *)
Theorem calculateZScore_null_or_ordered :
  forall (t : ScoreCalculator.instrument),
    (forall v,
        ScoreCalculator.calculateZScore v t = Js.Null
        <-> v = Js.Null \/ v = Js.Undefined \/ v = Js.Num Js.NaN)
    /\ (forall s : Q,
           exists z,
             ScoreCalculator.calculateZScore (Js.Num (Js.Fin s)) t
             = Js.Num (Js.Fin z)
             /\ (z < 0
                 <-> s < ScoreCalculator.mean (ScoreCalculator.NORMATIVE_PARAMS t))
             /\ (z == 0
                 <-> s == ScoreCalculator.mean (ScoreCalculator.NORMATIVE_PARAMS t))
             /\ (0 < z
                 <-> ScoreCalculator.mean (ScoreCalculator.NORMATIVE_PARAMS t) < s))
    /\ (forall s1 s2 z1 z2 : Q,
           s1 <= s2 ->
           ScoreCalculator.calculateZScore (Js.Num (Js.Fin s1)) t
           = Js.Num (Js.Fin z1) ->
           ScoreCalculator.calculateZScore (Js.Num (Js.Fin s2)) t
           = Js.Num (Js.Fin z2) ->
           z1 <= z2).
Proof.
  intros t. split; [|split].
  - intros v. destruct v as [| |[|q]]; cbn; split; intros H;
      try discriminate H; try reflexivity; auto.
    destruct H as [H|[H|H]]; discriminate H.
  - intros s. eexists. split; [apply calculateZScore_finite|].
    destruct t; cbn [ScoreCalculator.NORMATIVE_PARAMS ScoreCalculator.mean
                       ScoreCalculator.sd].
    + assert (E : (s - 100) / 15 == (s - 100) * (1 # 15)) by field.
      rewrite E. repeat split; intros H; lra.
    + assert (E : (s - 10) / 3 == (s - 10) * (1 # 3)) by field.
      rewrite E. repeat split; intros H; lra.
  - intros s1 s2 z1 z2 Hs. rewrite !calculateZScore_finite.
    intros H1 H2. injection H1 as <-. injection H2 as <-.
    destruct t; cbn [ScoreCalculator.NORMATIVE_PARAMS ScoreCalculator.mean
                       ScoreCalculator.sd].
    + assert (E1 : (s1 - 100) / 15 == (s1 - 100) * (1 # 15)) by field.
      assert (E2 : (s2 - 100) / 15 == (s2 - 100) * (1 # 15)) by field.
      rewrite E1, E2. lra.
    + assert (E1 : (s1 - 10) / 3 == (s1 - 10) * (1 # 3)) by field.
      assert (E2 : (s2 - 10) / 3 == (s2 - 10) * (1 # 3)) by field.
      rewrite E1, E2. lra.
Qed.

(** X2: on every value but NaN, [getScoreInterpretation] with its default
    mean and deviation gives the label that [getNormativeBand] gives to the
    z-score of [calculateZScore]: the two classifiers of the code agree. *)
Theorem getScoreInterpretation_agrees_with_band :
  forall v : Js.value,
    v <> Js.Num Js.NaN ->
    DataParser.getScoreInterpretation v 100 15
    = ScoreCalculator.getNormativeBand
        (ScoreCalculator.calculateZScore v ScoreCalculator.standard).
Proof.
  intros v Hv. destruct v as [| |[|q]]; try reflexivity.
  now contradiction Hv.
Qed.

Lemma getScoreInterpretation_agrees_with_band_witness :
  DataParser.getScoreInterpretation (Js.Num (Js.Fin 85)) 100 15
  = ScoreCalculator.getNormativeBand
      (ScoreCalculator.calculateZScore (Js.Num (Js.Fin 85))
                                       ScoreCalculator.standard).
Proof.
  apply (getScoreInterpretation_agrees_with_band (Js.Num (Js.Fin 85))).
  discriminate.
Defined.

(** X3: [getSimplifiedBand] is "below" exactly for z < -1, "average" for
    -1 <= z <= 1 and "above" for 1 < z.  Away from z = -1 it is the
    coarsening of the five bands (the two lower bands are "below", the two
    upper ones "above"); at z = -1 the five-way band is "Below Average"
    while the simplified band is "average". *)
Theorem getSimplifiedBand_coarsens_bands :
  forall z : Q,
    (ScoreCalculator.getSimplifiedBand (Js.Num (Js.Fin z))
     = Some "below"%string <-> z < -1)
    /\ (ScoreCalculator.getSimplifiedBand (Js.Num (Js.Fin z))
        = Some "average"%string <-> -1 <= z /\ z <= 1)
    /\ (ScoreCalculator.getSimplifiedBand (Js.Num (Js.Fin z))
        = Some "above"%string <-> 1 < z)
    /\ (~ z == -1 ->
        ScoreCalculator.getSimplifiedBand (Js.Num (Js.Fin z))
        = Some (coarseOfRank (rankOfZ z)))
    /\ (z == -1 ->
        ScoreCalculator.getNormativeBand (Js.Num (Js.Fin z))
        = "Below Average"%string
        /\ ScoreCalculator.getSimplifiedBand (Js.Num (Js.Fin z))
           = Some "average"%string).
Proof.
  intros z. unfold ScoreCalculator.getSimplifiedBand, rankOfZ.
  rewrite getNormativeBand_finite.
  cbn [Js.is_null Js.is_undefined Js.isNaN Js.toNumber orb Js.lt Js.le].
  destruct (Qle_bool (-1) z) eqn:A; destruct (Qle_bool z 1) eqn:B;
    destruct (Qle_bool z (-2)) eqn:C; destruct (Qle_bool z (-1)) eqn:D;
    destruct (Qle_bool z 2) eqn:E; qbool; cbn [negb];
    try (exfalso; lra);
    (split; [split; [try discriminate; intros; lra
                    | try reflexivity; intros; exfalso; lra]|]);
    (split; [split; [try discriminate; intros; lra
                    | try reflexivity; intros; exfalso; lra]|]);
    (split; [split; [try discriminate; intros; lra
                    | try reflexivity; intros; exfalso; lra]|]);
    (split; [intros N; try reflexivity; exfalso; apply N; lra
            | intros N; try (exfalso; lra); split; reflexivity]).
Qed.

(** ** Interpretation matcher *)

Lemma matchesZDiffRange_finite (d : Q) (r : RetrievalEngine.range) :
  RetrievalEngine.matchesZDiffRange (Js.Num (Js.Fin d)) r = withinDiffRange d r.
Proof.
  unfold RetrievalEngine.matchesZDiffRange, withinDiffRange,
    RetrievalEngine.violates.
  cbn [Js.is_null Js.is_undefined Js.isNaN Js.toNumber orb].
  destruct (RetrievalEngine.min_z_diff r) as [lo|],
           (RetrievalEngine.max_z_diff r) as [hi|];
    cbn [Js.lt Js.gt];
    repeat match goal with
      | |- context [Qle_bool ?a ?b] => destruct (Qle_bool a b)
      end;
    reflexivity.
Qed.

Lemma withinDiffRange_zero (z : Q) (r : RetrievalEngine.range) :
  withinDiffRange (z - z) r = withinDiffRange 0 r.
Proof.
  unfold withinDiffRange.
  destruct (RetrievalEngine.min_z_diff r) as [lo|],
           (RetrievalEngine.max_z_diff r) as [hi|];
    repeat match goal with
      | |- context [Qle_bool ?a ?b] =>
          let E := fresh "E" in destruct (Qle_bool a b) eqn:E
      end;
    qbool; try reflexivity; exfalso; lra.
Qed.

Lemma comparisonEntryMatches_finite (d : Q) (aud : string)
      (x : RetrievalEngine.entry) :
  RetrievalEngine.comparisonEntryMatches (Js.Num (Js.Fin d)) aud x
  = ruleMatchesComparison aud d x.
Proof.
  unfold RetrievalEngine.comparisonEntryMatches, ruleMatchesComparison.
  destruct (RetrievalEngine.score_range x) as [rg|];
    [rewrite matchesZDiffRange_finite|];
    destruct (String.eqb (RetrievalEngine.test_type x) "Composite Comparison"),
             (String.eqb (RetrievalEngine.audience x) aud);
    reflexivity.
Qed.

Lemma retrieveTestInterpretations_sound
      (table : list RetrievalEngine.entry) (n a : string) (v : Js.value)
      (aud : string) (e : RetrievalEngine.entry) :
  In e (RetrievalEngine.retrieveTestInterpretations table n a v aud) ->
  In e table /\ RetrievalEngine.audience e = aud
  /\ RetrievalEngine.test_type e <> "Composite Comparison"%string.
Proof.
  unfold RetrievalEngine.retrieveTestInterpretations.
  destruct (_ || _); [intros []|].
  intros H. apply filter_In in H as [Hin Hm]. split; [exact Hin|].
  unfold RetrievalEngine.testEntryMatches in Hm.
  destruct (negb _); [discriminate Hm|].
  destruct (String.eqb (RetrievalEngine.audience e) aud) eqn:A;
    [|discriminate Hm].
  apply String.eqb_eq in A. split; [exact A|].
  destruct (RetrievalEngine.score_range e); [|discriminate Hm].
  destruct (String.eqb (RetrievalEngine.test_type e) "Composite Comparison")
    eqn:C; [discriminate Hm|].
  now apply String.eqb_neq in C.
Qed.

Lemma retrieveCompositeComparisons_sound
      (table : list RetrievalEngine.entry) (r x : Js.value)
      (aud : string) (e : RetrievalEngine.entry) :
  In e (RetrievalEngine.retrieveCompositeComparisons table r x aud) ->
  In e table /\ RetrievalEngine.audience e = aud
  /\ RetrievalEngine.test_type e = "Composite Comparison"%string.
Proof.
  unfold RetrievalEngine.retrieveCompositeComparisons.
  destruct (_ || _); [intros []|].
  intros H. apply filter_In in H as [Hin Hm]. split; [exact Hin|].
  unfold RetrievalEngine.comparisonEntryMatches in Hm.
  destruct (String.eqb (RetrievalEngine.test_type e) "Composite Comparison")
    eqn:C; [|discriminate Hm].
  destruct (String.eqb (RetrievalEngine.audience e) aud) eqn:A;
    [|discriminate Hm].
  apply String.eqb_eq in A, C. auto.
Qed.

(** X4: [retrieveCompositeComparisons] returns rules of the table in table
    order, and only rules whose test type is "Composite Comparison", whose
    audience is the query's and that carry a score range; no single-score
    query for the audience returns any of them.  When either z-score is
    [null] it returns nothing; for two equal finite z-scores it returns
    exactly the comparison rules for the audience whose z-difference bounds
    contain 0. *)
Theorem retrieveCompositeComparisons_selects_comparison_rules :
  forall (table : list RetrievalEngine.entry) (aud : string),
    (forall rz ez : Js.value,
        (exists keep,
            RetrievalEngine.retrieveCompositeComparisons table rz ez aud
            = filter keep table)
        /\ forall e,
            In e (RetrievalEngine.retrieveCompositeComparisons table rz ez aud) ->
            In e table
            /\ RetrievalEngine.test_type e = "Composite Comparison"%string
            /\ RetrievalEngine.audience e = aud
            /\ RetrievalEngine.score_range e <> None
            /\ rz <> Js.Null /\ ez <> Js.Null
            /\ forall n a s,
                ~ In e (RetrievalEngine.retrieveTestInterpretations
                          table n a s aud))
    /\ (forall v,
           RetrievalEngine.retrieveCompositeComparisons table Js.Null v aud = []
           /\ RetrievalEngine.retrieveCompositeComparisons table v Js.Null aud
              = [])
    /\ (forall z : Q,
           RetrievalEngine.retrieveCompositeComparisons
             table (Js.Num (Js.Fin z)) (Js.Num (Js.Fin z)) aud
           = filter (ruleMatchesComparison aud 0) table).
Proof.
  intros table aud. split; [|split].
  - intros rz ez. split.
    + unfold RetrievalEngine.retrieveCompositeComparisons.
      destruct (_ || _).
      * exists (fun _ => false). induction table as [|x l IH];
          [reflexivity | exact IH].
      * eexists. reflexivity.
    + intros e He.
      destruct (retrieveCompositeComparisons_sound _ _ _ _ _ He)
        as [Hin [Ha Ht]].
      split; [exact Hin|]. split; [exact Ht|]. split; [exact Ha|].
      unfold RetrievalEngine.retrieveCompositeComparisons in He.
      destruct rz as [| |rn]; [destruct He| |];
        (destruct ez as [| |en]; [destruct He| |]);
        cbn [Js.is_null orb] in He;
        apply filter_In in He as [_ Hm];
        unfold RetrievalEngine.comparisonEntryMatches in Hm;
        destruct (negb _); try discriminate Hm;
        destruct (negb _); try discriminate Hm;
        (split; [intros N; rewrite N in Hm; discriminate Hm|]);
        (split; [discriminate|]); (split; [discriminate|]);
        intros n a s Hs; apply retrieveTestInterpretations_sound in Hs;
        destruct Hs as [_ [_ Hs]]; now apply Hs.
  - intros v. split; [reflexivity|].
    unfold RetrievalEngine.retrieveCompositeComparisons.
    now rewrite orb_true_r.
  - intros z. unfold RetrievalEngine.retrieveCompositeComparisons.
    cbn [Js.is_null orb Js.toNumber Js.sub Js.lift2].
    apply filter_ext. intros x. rewrite comparisonEntryMatches_finite.
    unfold ruleMatchesComparison.
    destruct (RetrievalEngine.score_range x) as [rg|]; [|reflexivity].
    now rewrite withinDiffRange_zero.
Qed.

Lemma fold_retrieveForTest_In
      (table : list RetrievalEngine.entry) (aud : string)
      (o : list (string * DataParser.TestResult)) :
  forall acc e,
    In e (fold_left (RetrievalEngine.retrieveForTest table aud) o acc) ->
    In e acc
    \/ exists k t,
        In (k, t) o
        /\ Js.truthy (Js.of_option (DataParser.standardScore t)) = true
        /\ In e (RetrievalEngine.retrieveTestInterpretations
                   table (Js.str_or (DataParser.testName t) k) k
                   (Js.of_option (DataParser.standardScore t)) aud).
Proof.
  induction o as [|[k t] o IH]; intros acc e; cbn [fold_left]; [now left|].
  intros H. apply IH in H as [H|(k' & t' & Hin & Ht & He)].
  - unfold RetrievalEngine.retrieveForTest in H.
    destruct (Js.truthy (Js.of_option (DataParser.standardScore t))) eqn:T;
      cbn [negb] in H; [|now left].
    apply in_app_or in H as [H|H]; [now left|].
    right. exists k, t. split; [now left | auto].
  - right. exists k', t'. split; [now right | auto].
Qed.

(** X5: every entry that [retrieveAllInterpretations] returns is an entry
    of the table written for the audience of the query: no rule of the
    other audience and no made-up rule is ever returned. *)
Theorem retrieveAllInterpretations_audience :
  forall (table : list RetrievalEngine.entry)
         (assessments : list DataParser.Assessment) (aud : string),
    Forall (fun e => In e table /\ RetrievalEngine.audience e = aud)
           (fst (RetrievalEngine.retrieveAllInterpretations
                   table assessments aud)).
Proof.
  intros table assessments aud. apply Forall_forall. intros e.
  unfold RetrievalEngine.retrieveAllInterpretations.
  destruct assessments as [|a l]; [intros []|].
  destruct (Js.sort _ (a :: l)) as [|latest rest]; [intros []|].
  cbv zeta.
  assert (F : In e (fold_left (RetrievalEngine.retrieveForTest table aud)
                              (DataParser.tests latest) []) ->
              In e table /\ RetrievalEngine.audience e = aud).
  { intros H. apply fold_retrieveForTest_In in H as [[]|(k & t & _ & _ & H)].
    apply retrieveTestInterpretations_sound in H. tauto. }
  destruct (_ && _); cbn [fst]; [|exact F].
  intros H. apply in_app_or in H as [H|H]; [now apply F|].
  apply retrieveCompositeComparisons_sound in H. tauto.
Qed.

(** X6: what [retrieveAllInterpretations] returns is decided by the most
    recent assessment alone: the older records of the array change
    nothing. *)
Theorem retrieveAllInterpretations_latest_only :
  forall (table : list RetrievalEngine.entry)
         (assessments : list DataParser.Assessment) (aud : string)
         (latest : DataParser.Assessment) (rest : list DataParser.Assessment),
    Js.sort RetrievalEngine.byDateDescending assessments = latest :: rest ->
    fst (RetrievalEngine.retrieveAllInterpretations table assessments aud)
    = fst (RetrievalEngine.retrieveAllInterpretations table [latest] aud).
Proof.
  intros table assessments aud latest rest Hs.
  unfold RetrievalEngine.retrieveAllInterpretations.
  destruct assessments as [|a l]; [discriminate Hs|].
  rewrite Hs. cbn [Js.sort fold_right Js.sort_insert]. cbv zeta.
  destruct (_ && _); reflexivity.
Qed.

Lemma retrieveAllInterpretations_latest_only_witness :
  Js.sort RetrievalEngine.byDateDescending [firstVisit; smallGainVisit]
  = [smallGainVisit; firstVisit]
  /\ fst (RetrievalEngine.retrieveAllInterpretations
            [receptive_below_avg] [firstVisit; smallGainVisit] "clinician")
     = fst (RetrievalEngine.retrieveAllInterpretations
              [receptive_below_avg] [smallGainVisit] "clinician").
Proof.
  split; [reflexivity|].
  apply (retrieveAllInterpretations_latest_only
           [receptive_below_avg] [firstVisit; smallGainVisit] "clinician"
           smallGainVisit [firstVisit]).
  reflexivity.
Defined.

(** ** Sorting an array that is sorted already *)

Section SortAgain.

Context {A : Type}.
Variable cmp : A -> A -> Js.num.
Variable R : A -> A -> Prop.
Hypothesis keeps : forall x y, Js.keeps_order (cmp x y) = true <-> R x y.

Lemma sort_of_sorted (l : list A) :
  StronglySorted R l -> Js.sort cmp l = l.
Proof.
  induction 1 as [|x l Hl IH Hx]; [reflexivity|].
  change (Js.sort cmp (x :: l)) with (Js.sort_insert cmp x (Js.sort cmp l)).
  rewrite IH. destruct l as [|y l]; [reflexivity|].
  cbn [Js.sort_insert].
  assert (K : Js.keeps_order (cmp x y) = true).
  { apply keeps. now inversion Hx. }
  now rewrite K.
Qed.

End SortAgain.

Lemma sort_byDate_sorted (l : list DataParser.Assessment) :
  StronglySorted (fun x y => (DataParser.date y <= DataParser.date x)%Z)
                 (Js.sort RetrievalEngine.byDateDescending l).
Proof.
  apply sort_sorted.
  - exact keeps_byDateDescending.
  - cbv beta; intros; lia.
  - cbv beta; intros; lia.
Qed.

Lemma sort_byDate_idempotent (l : list DataParser.Assessment) :
  Js.sort RetrievalEngine.byDateDescending
          (Js.sort RetrievalEngine.byDateDescending l)
  = Js.sort RetrievalEngine.byDateDescending l.
Proof.
  apply (sort_of_sorted _ _ keeps_byDateDescending), sort_byDate_sorted.
Qed.

(** ** Report assembler *)

Section Grouping.

Variable latest : DataParser.Assessment.

Lemma pushInsight_wellCounted (e : RetrievalEngine.entry)
      (t : InsightAssembler.TestInsight) :
  InsightAssembler.retrievedCount t
  = List.length (InsightAssembler.insights t) ->
  wellCounted (InsightAssembler.pushInsight e t).
Proof.
  intros H. unfold wellCounted. cbn. rewrite length_app, H. cbn. lia.
Qed.

Lemma pushInsight_reportsScoreOf (e : RetrievalEngine.entry)
      (t : InsightAssembler.TestInsight) :
  reportsScoreOf latest t ->
  reportsScoreOf latest (InsightAssembler.pushInsight e t).
Proof. intros H. exact H. Qed.

Lemma updateExisting_facts (key : string)
      (fresh : InsightAssembler.TestInsight) (e : RetrievalEngine.entry)
      (l : list InsightAssembler.TestInsight) :
  InsightAssembler.testAbbreviation fresh = key ->
  InsightAssembler.retrievedCount fresh = 0%nat ->
  InsightAssembler.insights fresh = [] ->
  reportsScoreOf latest fresh ->
  NoDup (map InsightAssembler.testAbbreviation l) ->
  Forall wellCounted l ->
  Forall (reportsScoreOf latest) l ->
  let l' := InsightAssembler.updateExisting key fresh e l in
  (forall a, In a (map InsightAssembler.testAbbreviation l')
             <-> In a (map InsightAssembler.testAbbreviation l) \/ a = key)
  /\ NoDup (map InsightAssembler.testAbbreviation l')
  /\ Forall wellCounted l'
  /\ Forall (reportsScoreOf latest) l'
  /\ sumRetrieved l' = S (sumRetrieved l).
Proof.
  intros Hk Hc Hi Hs. induction l as [|t l IH]; intros Hnd Hw Hr.
  - cbn. repeat split.
    + intros [H|[]]. right. now rewrite <- H.
    + intros [[]|H]. left. now rewrite H.
    + constructor; [intros [] | constructor].
    + constructor; [|constructor]. apply pushInsight_wellCounted.
      now rewrite Hc, Hi.
    + constructor; [exact Hs | constructor].
    + now rewrite Hc.
  - cbn [InsightAssembler.updateExisting].
    cbn [map] in Hnd. apply NoDup_cons_iff in Hnd as [Hnot Hnd'].
    apply Forall_cons_iff in Hw as [Hwt Hw'].
    apply Forall_cons_iff in Hr as [Hrt Hr'].
    destruct (String.eqb (InsightAssembler.testAbbreviation t) key) eqn:E.
    + apply String.eqb_eq in E. cbn. repeat split.
      * intros [H|H]; [left; now left | left; now right].
      * intros [[H|H]|H]; [now left | now right | left; now rewrite E].
      * constructor; assumption.
      * constructor; [|exact Hw'].
        apply pushInsight_wellCounted. apply Hwt.
      * constructor; assumption.
    + apply String.eqb_neq in E.
      destruct (IH Hnd' Hw' Hr') as (Hin & Hnd2 & Hw2 & Hr2 & Hsum).
      cbn. repeat split.
      * intros [H|H]; [left; now left|].
        apply Hin in H as [H|H]; [left; now right | now right].
      * intros [[H|H]|H]; [now left | right; apply Hin; now left
                          | right; apply Hin; now right].
      * constructor; [|exact Hnd2].
        intros H. apply Hin in H as [H|H]; [now apply Hnot | now apply E].
      * constructor; assumption.
      * constructor; assumption.
      * unfold sumRetrieved in Hsum |- *. cbn in Hsum |- *. lia.
Qed.

Lemma groupEntry_grouped (n : nat)
      (acc : list InsightAssembler.TestInsight * list RetrievalEngine.entry)
      (e : RetrievalEngine.entry) :
  grouped latest n acc -> grouped latest (S n) (InsightAssembler.groupEntry latest acc e).
Proof.
  destruct acc as [ti ce]. intros (Hnd & Hw & Hr & Hsum). cbn [fst snd] in *.
  unfold InsightAssembler.groupEntry.
  destruct (String.eqb (RetrievalEngine.test_type e) "Composite Comparison").
  { repeat split; cbn [fst snd]; try assumption.
    rewrite length_app. cbn. lia. }
  destruct (Js.get (RetrievalEngine.test_abbreviation e)
                   (DataParser.tests latest)) as [td|] eqn:G.
  2:{ repeat split; cbn [fst snd]; try assumption. lia. }
  cbv zeta.
  destruct (Js.truthy (Js.of_option (DataParser.standardScore td))) eqn:T.
  2:{ repeat split; cbn [fst snd]; try assumption. lia. }
  match goal with
  | |- grouped latest _ (InsightAssembler.updateExisting ?k ?f e ti, ce) =>
      destruct (updateExisting_facts k f e ti) as (_ & A & B & C & D);
        try assumption; try reflexivity
  end.
  { exists td. cbn. auto. }
  repeat split; cbn [fst snd]; try assumption. rewrite D. lia.
Qed.

Lemma fold_groupEntry_grouped (entries : list RetrievalEngine.entry) :
  forall n acc,
    grouped latest n acc ->
    grouped latest (n + List.length entries)
            (fold_left (InsightAssembler.groupEntry latest) entries acc).
Proof.
  induction entries as [|e entries IH]; intros n acc H; cbn [fold_left].
  - cbn. now rewrite Nat.add_0_r.
  - cbn [List.length]. rewrite Nat.add_succ_r. apply (IH (S n)).
    now apply groupEntry_grouped.
Qed.

End Grouping.

Lemma assembleCompleteReport_of_sorted
      (now : Z) (st : option InsightAssembler.Student)
      (assessments : list DataParser.Assessment)
      (e : RetrievalEngine.entry) (entries : list RetrievalEngine.entry)
      (aud : string)
      (latest : DataParser.Assessment) (rest : list DataParser.Assessment) :
  Js.sort RetrievalEngine.byDateDescending assessments = latest :: rest ->
  exists ti c,
    grouped latest (List.length (e :: entries)) (ti, c)
    /\ InsightAssembler.testInsights
         (fst (InsightAssembler.assembleCompleteReport
                 now st assessments (e :: entries) aud)) = ti
    /\ (InsightAssembler.comparisons
          (fst (InsightAssembler.assembleCompleteReport
                  now st assessments (e :: entries) aud)) = []
        \/ exists cmp,
            InsightAssembler.comparisons
              (fst (InsightAssembler.assembleCompleteReport
                      now st assessments (e :: entries) aud)) = [cmp]
            /\ InsightAssembler.comparisonRetrievedCount cmp = List.length c)
    /\ InsightAssembler.totalRetrieved
         (fst (InsightAssembler.assembleCompleteReport
                 now st assessments (e :: entries) aud))
       = List.length (e :: entries)
    /\ InsightAssembler.assessmentDate
         (fst (InsightAssembler.assembleCompleteReport
                 now st assessments (e :: entries) aud))
       = InsightAssembler.Val (DataParser.date latest).
Proof.
  intros Hs. unfold InsightAssembler.assembleCompleteReport.
  destruct assessments as [|a l]; [discriminate Hs|]. rewrite Hs.
  pose proof (fold_groupEntry_grouped latest (e :: entries) 0 ([], []))
    as G.
  destruct (fold_left (InsightAssembler.groupEntry latest) (e :: entries)
                      ([], [])) as [ti c].
  exists ti, c. split.
  { apply G. repeat split; cbn; try constructor. }
  split; [reflexivity|]. split; [|split; reflexivity].
  cbn [fst InsightAssembler.comparisons].
  destruct c as [|c0 c]; [now left|].
  destruct (_ && _); [|now left].
  right. eexists. split; reflexivity.
Qed.

(** X7: in every report of [assembleCompleteReport] each test code has at
    most one entry of [testInsights], the count of an entry is the length of
    its non-empty list of insights, there is at most one comparison, and the
    counts of the entries and of the comparison together never exceed
    [totalRetrieved]. *)
Theorem assembleCompleteReport_counts :
  forall (now : Z) (st : option InsightAssembler.Student)
         (assessments : list DataParser.Assessment)
         (entries : list RetrievalEngine.entry) (aud : string),
    let r := fst (InsightAssembler.assembleCompleteReport
                    now st assessments entries aud) in
    NoDup (map InsightAssembler.testAbbreviation (InsightAssembler.testInsights r))
    /\ Forall wellCounted (InsightAssembler.testInsights r)
    /\ (List.length (InsightAssembler.comparisons r) <= 1)%nat
    /\ (sumRetrieved (InsightAssembler.testInsights r)
        + sumCompared (InsightAssembler.comparisons r)
        <= InsightAssembler.totalRetrieved r)%nat.
Proof.
  intros now st assessments entries aud r. subst r.
  destruct entries as [|e entries].
  { destruct assessments; cbn; repeat split; try lia; constructor. }
  destruct (Js.sort RetrievalEngine.byDateDescending assessments)
    as [|latest rest] eqn:Hs.
  { destruct assessments as [|a l].
    - cbn. repeat split; try lia; constructor.
    - now apply sort_nonempty in Hs. }
  destruct (assembleCompleteReport_of_sorted
              now st assessments e entries aud latest rest Hs)
    as (ti & c & (Hnd & Hw & _ & Hsum) & -> & Hc & -> & _).
  cbn [fst snd] in *. split; [exact Hnd|]. split; [exact Hw|].
  destruct Hc as [->|(cmp & -> & Hcount)]; unfold sumCompared;
    cbn [fold_right List.length] in *.
  - split; lia.
  - split; [lia|]. rewrite Hcount. lia.
Qed.

Lemma testInsights_show_latest
      (now : Z) (st : option InsightAssembler.Student)
      (assessments : list DataParser.Assessment)
      (entries : list RetrievalEngine.entry) (aud : string)
      (latest : DataParser.Assessment) (rest : list DataParser.Assessment) :
  Js.sort RetrievalEngine.byDateDescending assessments = latest :: rest ->
  Forall (reportsScoreOf latest)
         (InsightAssembler.testInsights
            (fst (InsightAssembler.assembleCompleteReport
                    now st assessments entries aud))).
Proof.
  intros Hs. destruct entries as [|e entries].
  { destruct assessments; constructor. }
  destruct (assembleCompleteReport_of_sorted
              now st assessments e entries aud latest rest Hs)
    as (ti & c & (_ & _ & Hr & _) & -> & _).
  exact Hr.
Qed.

(** X8: every entry of [testInsights] shows the score that the most recent
    assessment stores under the entry's abbreviation (a score that is
    neither missing nor zero), together with the z-score of that score and
    the band of that z-score. *)
Theorem assembleCompleteReport_scores_of_latest :
  forall (now : Z) (st : option InsightAssembler.Student)
         (assessments : list DataParser.Assessment)
         (entries : list RetrievalEngine.entry) (aud : string)
         (latest : DataParser.Assessment) (rest : list DataParser.Assessment),
    Js.sort RetrievalEngine.byDateDescending assessments = latest :: rest ->
    Forall (reportsScoreOf latest)
           (InsightAssembler.testInsights
              (fst (InsightAssembler.assembleCompleteReport
                      now st assessments entries aud))).
Proof.
  intros now st assessments entries aud latest rest Hs.
  now apply (testInsights_show_latest now st assessments entries aud latest rest).
Qed.

Lemma assembleCompleteReport_scores_of_latest_witness :
  Js.sort RetrievalEngine.byDateDescending [firstVisit; smallGainVisit]
  = [smallGainVisit; firstVisit]
  /\ Forall (reportsScoreOf smallGainVisit)
            (InsightAssembler.testInsights
               (fst (InsightAssembler.assembleCompleteReport
                       0 None [firstVisit; smallGainVisit]
                       [receptive_below_avg] "clinician"))).
Proof.
  split; [reflexivity|].
  apply (assembleCompleteReport_scores_of_latest
           0 None [firstVisit; smallGainVisit] [receptive_below_avg]
           "clinician" smallGainVisit [firstVisit]).
  reflexivity.
Defined.

(** ** Record normaliser: the records *)

Lemma get_None_iff {A : Type} (k : string) (o : list (string * A)) :
  Js.get k o = None <-> ~ In k (Js.keys o).
Proof.
  induction o as [|[k' v] o IH]; cbn.
  - tauto.
  - destruct (String.eqb k' k) eqn:E.
    + apply String.eqb_eq in E. split; [discriminate | intros H].
      exfalso. apply H. now left.
    + apply String.eqb_neq in E. rewrite IH. tauto.
Qed.

Lemma get_of_NoDup {A : Type} (k : string) (v : A) (o : list (string * A)) :
  NoDup (Js.keys o) -> In (k, v) o -> Js.get k o = Some v.
Proof.
  induction o as [|[k' v'] o IH]; cbn; [intros _ []|].
  intros Hnd Hin. apply NoDup_cons_iff in Hnd as [Hnot Hnd].
  destruct Hin as [[= -> ->]|Hin].
  - now rewrite String.eqb_refl.
  - destruct (String.eqb k' k) eqn:E; [|now apply IH].
    apply String.eqb_eq in E. subst k'. exfalso. apply Hnot.
    apply in_map_iff. now exists (k, v).
Qed.

Lemma TEST_NAMES_named (k : string) :
  In k (Js.keys DataParser.TEST_NAMES) ->
  exists n, Js.get k DataParser.TEST_NAMES = Some n /\ Js.str_or n k = n.
Proof.
  cbn. intros H.
  repeat (destruct H as [<-|H]; [eexists; split; reflexivity|]).
  destruct H.
Qed.

Section Records.

Variable parseFloat : string -> Js.num.
Variable makeDate : DataParser.DateArgs -> Z.
Variable now : Z.

Lemma extractTestData_Some (r : DataParser.row) (prefix : string)
      (t : DataParser.TestResult) :
  DataParser.extractTestData parseFloat r prefix = Some t ->
  hasAScore t
  /\ DataParser.testName t
     = match Js.get prefix DataParser.TEST_NAMES with
       | Some n => Js.str_or n prefix
       | None => prefix
       end.
Proof.
  unfold DataParser.extractTestData, hasAScore.
  destruct (DataParser.parseNumber parseFloat
              (Js.get (prefix ++ "_StandardScore") r)) as [s|];
    destruct (DataParser.parseNumber parseFloat
                (Js.get (prefix ++ "_ScaledScore") r)) as [c|];
    intros [= <-]; cbn; split; try reflexivity;
    try (left; discriminate); right; discriminate.
Qed.

Lemma extractTests_In (r : DataParser.row) (prefixes : list string)
      (k : string) (t : DataParser.TestResult) :
  In (k, t) (DataParser.extractTests parseFloat r prefixes) ->
  In k prefixes /\ DataParser.extractTestData parseFloat r k = Some t.
Proof.
  induction prefixes as [|p prefixes IH]; cbn; [intros []|].
  destruct (DataParser.extractTestData parseFloat r p) as [t'|] eqn:E.
  - intros [[= -> ->]|H]; [split; [now left | exact E]|].
    destruct (IH H) as [H1 H2]. split; [now right | exact H2].
  - intros H. destruct (IH H) as [H1 H2]. split; [now right | exact H2].
Qed.

Lemma extractTests_NoDup (r : DataParser.row) (prefixes : list string) :
  NoDup prefixes ->
  NoDup (Js.keys (DataParser.extractTests parseFloat r prefixes)).
Proof.
  induction prefixes as [|p prefixes IH]; cbn; [constructor|].
  intros Hnd. apply NoDup_cons_iff in Hnd as [Hnot Hnd].
  destruct (DataParser.extractTestData parseFloat r p) as [t'|];
    [|now apply IH].
  cbn. constructor; [|now apply IH].
  intros H. apply in_map_iff in H as [[k t] [Hk Hin]]. cbn in Hk. subst k.
  apply extractTests_In in Hin as [Hin _]. contradiction.
Qed.

Lemma processRow_wellFormed (r : DataParser.row)
      (record : DataParser.Assessment) :
  DataParser.processRow parseFloat makeDate now r = Some record ->
  wellFormedRecord record /\ wellKeyedRecord record.
Proof.
  unfold DataParser.processRow.
  destruct (Js.get "LT_Id" r) as [i|]; [|discriminate].
  destruct (String.eqb i "") eqn:E1; [discriminate|].
  destruct (String.eqb (DataParser.trim i) "") eqn:E2; [discriminate|].
  destruct (String.eqb i "#N/A") eqn:E3; [discriminate|].
  cbn [orb]. cbv zeta.
  destruct (DataParser.extractTests parseFloat r
              (Js.keys DataParser.TEST_NAMES)) as [|kv ts] eqn:T;
    [discriminate|].
  intros [= <-]. unfold wellFormedRecord, wellKeyedRecord.
  cbn [DataParser.studentId DataParser.tests].
  assert (Hnd : NoDup (Js.keys DataParser.TEST_NAMES)).
  { cbn. repeat (apply NoDup_cons; [cbn; intuition discriminate|]).
    apply NoDup_nil. }
  split; [split; [|split]|split].
  - now apply String.eqb_neq in E2.
  - discriminate.
  - rewrite <- T. apply Forall_forall. intros [k t] Hin.
    apply extractTests_In in Hin as [_ Hin].
    now apply extractTestData_Some in Hin.
  - rewrite <- T. now apply extractTests_NoDup.
  - intros k t Hin. split.
    + apply get_of_NoDup; [|exact Hin].
      rewrite <- T. now apply extractTests_NoDup.
    + rewrite <- T in Hin. apply extractTests_In in Hin as [Hk Hin].
      apply extractTestData_Some in Hin as [_ ->].
      destruct (TEST_NAMES_named k Hk) as (n & -> & ->). reflexivity.
Qed.

Lemma processCSVData_In (rows : list DataParser.row)
      (record : DataParser.Assessment) :
  In record (DataParser.processCSVData parseFloat makeDate now rows) ->
  exists r, In r rows
            /\ DataParser.processRow parseFloat makeDate now r = Some record.
Proof.
  induction rows as [|r rows IH]; cbn; [intros []|].
  destruct (DataParser.processRow parseFloat makeDate now r) as [rec|] eqn:E.
  - intros [<-|H]; [exists r; split; [now left | exact E]|].
    destruct (IH H) as (r' & H1 & H2). exists r'. split; [now right | exact H2].
  - intros H. destruct (IH H) as (r' & H1 & H2).
    exists r'. split; [now right | exact H2].
Qed.

End Records.

(** X9: every record that [processCSVData] puts out has a student id that
    is not empty and at least one test, and each of its tests holds a
    standard score or a scaled score. *)
Theorem processCSVData_records_have_scores :
  forall (parseFloat : string -> Js.num)
         (makeDate : DataParser.DateArgs -> Z) (now : Z)
         (rows : list DataParser.row),
    Forall wellFormedRecord
           (DataParser.processCSVData parseFloat makeDate now rows).
Proof.
  intros parseFloat makeDate now rows. apply Forall_forall. intros rec H.
  apply processCSVData_In in H as (r & _ & H).
  now apply processRow_wellFormed in H.
Qed.

(** X10: in every record that [processCSVData] puts out, the tests are keyed
    by distinct codes; looking a code up gives back its test, and the name
    of the test is the name that [TEST_NAMES] gives to the code. *)
Theorem processCSVData_tests_keyed_by_code :
  forall (parseFloat : string -> Js.num)
         (makeDate : DataParser.DateArgs -> Z) (now : Z)
         (rows : list DataParser.row),
    Forall wellKeyedRecord
           (DataParser.processCSVData parseFloat makeDate now rows).
Proof.
  intros parseFloat makeDate now rows. apply Forall_forall. intros rec H.
  apply processCSVData_In in H as (r & _ & H).
  now apply processRow_wellFormed in H.
Qed.

(** X11: [processCSVData] treats each row on its own and keeps the order of
    the rows: the output for two batches put one after the other is the
    output of the first followed by the output of the second, and there are
    never more records than rows. *)
Theorem processCSVData_row_by_row :
  forall (parseFloat : string -> Js.num)
         (makeDate : DataParser.DateArgs -> Z) (now : Z)
         (rows more : list DataParser.row),
    DataParser.processCSVData parseFloat makeDate now (rows ++ more)
    = (DataParser.processCSVData parseFloat makeDate now rows
       ++ DataParser.processCSVData parseFloat makeDate now more)%list
    /\ (List.length (DataParser.processCSVData parseFloat makeDate now rows)
        <= List.length rows)%nat.
Proof.
  intros parseFloat makeDate now rows more. split.
  - induction rows as [|r rows IH]; cbn; [reflexivity|].
    destruct (DataParser.processRow parseFloat makeDate now r);
      cbn; now rewrite IH.
  - induction rows as [|r rows IH]; cbn; [lia|].
    destruct (DataParser.processRow parseFloat makeDate now r); cbn; lia.
Qed.

(** ** Unique students *)

Lemma addStudent_fold (data : list DataParser.Assessment) :
  forall acc,
    NoDup (Js.keys acc) ->
    let M := fold_left UniqueStudents.addStudent data acc in
    NoDup (Js.keys M)
    /\ (forall k s,
           In (k, s) M ->
           In (k, s) acc
           \/ (~ In k (Js.keys acc) /\ fromFirstRecord data k s))
    /\ (forall k,
           In k (Js.keys acc) \/ In k (map DataParser.studentId data) ->
           In k (Js.keys M)).
Proof.
  induction data as [|r data IH]; intros acc Hnd; cbn [fold_left].
  - cbn. split; [exact Hnd|]. split; [now left | intros k [H|[]]; exact H].
  - assert (Hstep :
        NoDup (Js.keys (UniqueStudents.addStudent acc r))
        /\ In (DataParser.studentId r)
              (Js.keys (UniqueStudents.addStudent acc r))
        /\ (forall k, In k (Js.keys acc) ->
                      In k (Js.keys (UniqueStudents.addStudent acc r)))
        /\ (forall k s,
               In (k, s) (UniqueStudents.addStudent acc r) ->
               In (k, s) acc
               \/ (~ In k (Js.keys acc) /\ k = DataParser.studentId r
                   /\ InsightAssembler.id s = k
                   /\ InsightAssembler.name s = DataParser.studentName r))).
    { unfold UniqueStudents.addStudent.
      destruct (Js.get (DataParser.studentId r) acc) as [v|] eqn:G.
      - split; [exact Hnd|]. split; [|split; [auto | now left]].
        destruct (in_dec string_dec (DataParser.studentId r) (Js.keys acc))
          as [H|H]; [exact H|].
        apply get_None_iff in H. congruence.
      - apply get_None_iff in G. unfold Js.keys. rewrite map_app. cbn.
        split; [|split; [|split]].
        + apply NoDup_app; [exact Hnd | constructor; [intros []|constructor]|].
          intros a Ha [<-|[]]. contradiction.
        + apply in_or_app. right. now left.
        + intros k H. apply in_or_app. now left.
        + intros k s H. apply in_app_or in H as [H|[[= <- <-]|[]]];
            [now left|]. right. cbn. auto. }
    destruct Hstep as (Hnd' & Hr & Hkeep & Hnew).
    destruct (IH _ Hnd') as (A & B & C). cbv zeta. split; [exact A|]. split.
    + intros k s H. apply B in H as [H|[Hk (pre & r' & post & -> & F)]].
      * apply Hnew in H as [H|(Hk & -> & Hi & Hn)]; [now left|].
        right. split; [exact Hk|]. exists [], r, data. cbn.
        repeat split; auto.
      * right. split; [intros H; apply Hk; now apply Hkeep|].
        destruct F as (F1 & F2 & F3 & F4).
        exists (r :: pre), r', post. cbn. repeat split; try assumption.
        intros [H|H]; [|contradiction]. apply Hk. now rewrite <- H.
    + intros k [H|[<-|H]]; apply C;
        [left; now apply Hkeep | now left | now right].
Qed.

(** X12: [getUniqueStudents] lists each student id of the data exactly
    once, whatever order [localeCompare] imposes: the ids of the result are
    pairwise distinct, they are exactly the ids of the records, and the name
    beside an id is the name on the first record of that id. *)
Theorem getUniqueStudents_one_per_id :
  forall (localeCompare : string -> string -> Js.num)
         (data : list DataParser.Assessment),
    let students := UniqueStudents.getUniqueStudents localeCompare data in
    NoDup (map InsightAssembler.id students)
    /\ (forall i, In i (map InsightAssembler.id students)
                  <-> In i (map DataParser.studentId data))
    /\ Forall (fun s => fromFirstRecord data (InsightAssembler.id s) s)
              students.
Proof.
  intros localeCompare data students. subst students.
  unfold UniqueStudents.getUniqueStudents.
  destruct (addStudent_fold data [] (NoDup_nil _)) as (A & B & C).
  set (M := fold_left UniqueStudents.addStudent data []) in *.
  assert (Hid : forall k s, In (k, s) M ->
                            InsightAssembler.id s = k /\ fromFirstRecord data k s).
  { intros k s H. apply B in H as [[]|[_ F]]. split; [|exact F].
    destruct F as (pre & r & post & _ & _ & F & _). exact F. }
  assert (Hkeys : map InsightAssembler.id (map snd M) = Js.keys M).
  { unfold Js.keys. rewrite map_map. apply map_ext_in. intros [k s] H.
    cbn. now apply Hid. }
  match goal with
  | |- context [Js.sort ?c (map snd M)] =>
      pose proof (sort_perm c (map snd M)) as P
  end.
  split; [|split].
  - eapply Permutation_NoDup;
      [apply Permutation_sym, Permutation_map, P|].
    now rewrite Hkeys.
  - intros i. split.
    + intros H.
      eapply Permutation_in in H; [|apply Permutation_map, P].
      rewrite Hkeys in H. apply in_map_iff in H as [[k s] [Hk H]].
      cbn in Hk. subst k.
      destruct (Hid _ _ H) as [_ (pre & r & post & -> & F & _)].
      rewrite map_app. apply in_or_app. right. now left.
    + intros H.
      eapply Permutation_in; [apply Permutation_sym, Permutation_map, P|].
      rewrite Hkeys. apply C. now right.
  - apply Forall_forall. intros s H.
    eapply Permutation_in in H; [|exact P].
    apply in_map_iff in H as [[k s'] [Hs H]]. cbn in Hs. subst s'.
    destruct (Hid _ _ H) as [-> F]. exact F.
Qed.

(** ** Insight heuristics: the two score lists and the categories *)

Lemma StronglySorted_map {A B : Type} (f : A -> B) (R : B -> B -> Prop)
      (l : list A) :
  StronglySorted (fun a b => R (f a) (f b)) l -> StronglySorted R (map f l).
Proof.
  induction 1 as [|x l Hl IH Hx]; cbn; constructor; [exact IH|].
  apply Forall_map. exact Hx.
Qed.

Lemma StronglySorted_weaken {A : Type} (R R' : A -> A -> Prop) (l : list A) :
  (forall a b, R a b -> R' a b) -> StronglySorted R l -> StronglySorted R' l.
Proof.
  intros HR. induction 1 as [|x l Hl IH Hx]; constructor; [exact IH|].
  eapply Forall_impl; [|exact Hx]. intros a. apply HR.
Qed.

Lemma belowAverage_as_map (m sd : Q)
      (entries : list (string * DataParser.TestResult)) :
  InsightsPanel.belowAverage m sd entries
  = map InsightsPanel.toScored
      (Js.sort (fun a b => Js.Fin (entryValue a - entryValue b))
               (filter (InsightsPanel.scoreIs Js.lt (m - sd)) entries)).
Proof.
  unfold InsightsPanel.belowAverage. apply sort_map.
  intros [ka ta] [kb tb]. unfold entryValue. cbn.
  destruct (DataParser.standardScore ta), (DataParser.standardScore tb);
    reflexivity.
Qed.

Lemma aboveAverage_as_map (m sd : Q)
      (entries : list (string * DataParser.TestResult)) :
  InsightsPanel.aboveAverage m sd entries
  = map InsightsPanel.toScored
      (Js.sort (fun a b => Js.Fin (entryValue b - entryValue a))
               (filter (InsightsPanel.scoreIs Js.gt (m + sd)) entries)).
Proof.
  unfold InsightsPanel.aboveAverage. apply sort_map.
  intros [ka ta] [kb tb]. unfold entryValue. cbn.
  destruct (DataParser.standardScore ta), (DataParser.standardScore tb);
    reflexivity.
Qed.

Lemma scoreValue_toScored (kv : string * DataParser.TestResult) :
  scoreValue (InsightsPanel.toScored kv) = entryValue kv.
Proof.
  destruct kv as [k t]. unfold scoreValue, entryValue. cbn.
  destruct (DataParser.standardScore t); reflexivity.
Qed.

(** X13: the tests that the panel lists as below average come lowest score
    first and those listed as above average highest score first, and each
    list holds exactly the tests that pass its filter, none lost and none
    repeated. *)
Theorem score_lists_sorted :
  forall (entries : list (string * DataParser.TestResult)),
    StronglySorted (fun a b => scoreValue a <= scoreValue b)
                   (InsightsPanel.belowAverage panelMean panelSd entries)
    /\ Permutation
         (InsightsPanel.belowAverage panelMean panelSd entries)
         (map InsightsPanel.toScored
              (filter (InsightsPanel.scoreIs Js.lt (panelMean - panelSd))
                      entries))
    /\ StronglySorted (fun a b => scoreValue b <= scoreValue a)
                      (InsightsPanel.aboveAverage panelMean panelSd entries)
    /\ Permutation
         (InsightsPanel.aboveAverage panelMean panelSd entries)
         (map InsightsPanel.toScored
              (filter (InsightsPanel.scoreIs Js.gt (panelMean + panelSd))
                      entries)).
Proof.
  intros entries. split; [|split; [|split]].
  - rewrite belowAverage_as_map. apply StronglySorted_map.
    eapply StronglySorted_weaken;
      [|apply (sort_sorted _ (fun a b => entryValue a <= entryValue b))].
    + intros a b H. now rewrite !scoreValue_toScored.
    + intros x y. cbn. rewrite Qle_bool_iff. split; intros H; lra.
    + intros x y. cbv beta.
      destruct (Qlt_le_dec (entryValue y) (entryValue x)); [right|left]; lra.
    + intros x y z. cbv beta. lra.
  - apply sort_perm.
  - rewrite aboveAverage_as_map. apply StronglySorted_map.
    eapply StronglySorted_weaken;
      [|apply (sort_sorted _ (fun a b => entryValue b <= entryValue a))].
    + intros a b H. now rewrite !scoreValue_toScored.
    + intros x y. cbn. rewrite Qle_bool_iff. split; intros H; lra.
    + intros x y. cbv beta.
      destruct (Qlt_le_dec (entryValue y) (entryValue x)); [left|right]; lra.
    + intros x y z. cbv beta. lra.
  - apply sort_perm.
Qed.

(** X14: every test listed as below average has a score under 85 and is
    labelled "Below Average" or "Significantly Below Average"; every test
    listed as above average has a score over 115 and is labelled "Above
    Average" or "Significantly Above Average". *)
Theorem score_lists_labels :
  forall (entries : list (string * DataParser.TestResult)),
    Forall (fun s =>
              exists q,
                InsightsPanel.score s = Js.Num (Js.Fin q) /\ q < 85
                /\ (InsightsPanel.interpretation s
                    = "Significantly Below Average"
                    \/ InsightsPanel.interpretation s = "Below Average"))
           (InsightsPanel.belowAverage panelMean panelSd entries)
    /\ Forall (fun s =>
                 exists q,
                   InsightsPanel.score s = Js.Num (Js.Fin q) /\ 115 < q
                   /\ (InsightsPanel.interpretation s
                       = "Significantly Above Average"
                       \/ InsightsPanel.interpretation s = "Above Average"))
              (InsightsPanel.aboveAverage panelMean panelSd entries).
Proof.
  intros entries. split; apply Forall_forall; intros s H.
  - eapply Permutation_in in H; [|apply sort_perm].
    apply in_map_iff in H as [[k t] [<- H]].
    apply filter_In in H as [_ H].
    unfold InsightsPanel.scoreIs in H. cbn [snd] in H.
    destruct (DataParser.standardScore t) as [q|] eqn:S; [|discriminate H].
    cbn in H. apply negb_true_iff in H. qbool.
    exists q. unfold InsightsPanel.toScored. cbn. rewrite S. cbn.
    split; [reflexivity|]. split; [lra|].
    assert (E : (q - 100) / 15 == (q - 100) * (1 # 15)) by field.
    destruct (Qle_bool ((q - 100) / 15) (-2)); [now left|].
    destruct (Qle_bool ((q - 100) / 15) (-1)) eqn:B; [now right|].
    qbool. rewrite E in B. exfalso. lra.
  - eapply Permutation_in in H; [|apply sort_perm].
    apply in_map_iff in H as [[k t] [<- H]].
    apply filter_In in H as [_ H].
    unfold InsightsPanel.scoreIs in H. cbn [snd] in H.
    destruct (DataParser.standardScore t) as [q|] eqn:S; [|discriminate H].
    cbn in H. apply negb_true_iff in H. qbool.
    exists q. unfold InsightsPanel.toScored. cbn. rewrite S. cbn.
    split; [reflexivity|]. split; [lra|].
    assert (E : (q - 100) / 15 == (q - 100) * (1 # 15)) by field.
    destruct (Qle_bool ((q - 100) / 15) (-2)) eqn:A;
      [qbool; rewrite E in A; exfalso; lra|].
    destruct (Qle_bool ((q - 100) / 15) (-1)) eqn:B;
      [qbool; rewrite E in B; exfalso; lra|].
    destruct (Qle_bool ((q - 100) / 15) 1) eqn:C;
      [qbool; rewrite E in C; exfalso; lra|].
    destruct (Qle_bool ((q - 100) / 15) 2); [now right | now left].
Qed.

Lemma category_cases (c t : string) (its : list InsightsPanel.item) :
  InsightsPanel.category c t its = []
  \/ exists x, InsightsPanel.category c t its = [x]
               /\ InsightsPanel.type x = c /\ InsightsPanel.items x <> [].
Proof.
  destruct its as [|i its]; [now left|]. right. eexists.
  split; [reflexivity|]. split; [reflexivity | discriminate].
Qed.

Lemma receptiveExpressive_cases (a b : Js.value) :
  InsightsPanel.receptiveExpressive a b = []
  \/ exists x, InsightsPanel.receptiveExpressive a b = [x]
               /\ InsightsPanel.type x = "receptive-expressive"
               /\ InsightsPanel.items x <> [].
Proof.
  unfold InsightsPanel.receptiveExpressive.
  destruct (_ && _); [|now left]. destruct (Js.ge _ _); [|now left].
  right. eexists. split; [reflexivity|]. split; [reflexivity | discriminate].
Qed.

(** X15: the panel never emits an empty category and never emits a category
    twice: every insight it returns has at least one item, the types of the
    insights are pairwise distinct, and there are at most four of them. *)
Theorem insights_categories :
  forall (assessments : list DataParser.Assessment),
    Forall (fun i => InsightsPanel.items i <> [])
           (fst (InsightsPanel.insights assessments))
    /\ NoDup (map InsightsPanel.type (fst (InsightsPanel.insights assessments)))
    /\ (List.length (fst (InsightsPanel.insights assessments)) <= 4)%nat.
Proof.
  intros assessments.
  destruct (Js.sort RetrievalEngine.byDateDescending assessments)
    as [|latest rest] eqn:Hs.
  { destruct assessments as [|a l];
      [cbn; repeat split; try lia; constructor|].
    now apply sort_nonempty in Hs. }
  rewrite (insights_of_sorted _ _ _ Hs). unfold InsightsPanel.insightsList.
  cbv zeta.
  match goal with
  | |- context [(InsightsPanel.category ?c1 ?t1 ?l1
                 ++ InsightsPanel.category ?c2 ?t2 ?l2
                 ++ InsightsPanel.receptiveExpressive ?a ?b
                 ++ InsightsPanel.category ?c4 ?t4 ?l4)%list] =>
      destruct (category_cases c1 t1 l1) as [->|(x1 & -> & T1 & I1)];
      destruct (category_cases c2 t2 l2) as [->|(x2 & -> & T2 & I2)];
      destruct (receptiveExpressive_cases a b) as [->|(x3 & -> & T3 & I3)];
      destruct (category_cases c4 t4 l4) as [->|(x4 & -> & T4 & I4)]
  end;
    cbn [app map List.length];
    rewrite ?T1, ?T2, ?T3, ?T4;
    (split; [repeat constructor; assumption|]);
    (split; [|lia]);
    repeat (apply NoDup_cons; [cbn; intuition discriminate|]);
    apply NoDup_nil.
Qed.

(** ** Recent students and the list cursor *)

Lemma firstn_In_list {A : Type} (n : nat) (l : list A) (x : A) :
  In x (firstn n l) -> In x l.
Proof.
  intros H. rewrite <- (firstn_skipn n l). apply in_or_app. now left.
Qed.

Lemma firstn_NoDup {A : Type} (n : nat) (l : list A) :
  NoDup l -> NoDup (firstn n l).
Proof.
  intros H. rewrite <- (firstn_skipn n l) in H.
  now apply NoDup_app_remove_r in H.
Qed.

Lemma filter_all {A : Type} (f : A -> bool) (l : list A) :
  (forall x, In x l -> f x = true) -> filter f l = l.
Proof.
  induction l as [|a l IH]; cbn; [reflexivity|]. intros H.
  rewrite (H a (or_introl eq_refl)). f_equal. apply IH. auto.
Qed.

Lemma selectRecent_unfold (i : string) (prev : list string) :
  StudentSwitcher.selectRecent i prev
  = i :: firstn 7 (filter (fun x => negb (String.eqb x i)) prev).
Proof. reflexivity. Qed.

Lemma others_not_selected (i x : string) (prev : list string) (n : nat) :
  In x (firstn n (filter (fun y => negb (String.eqb y i)) prev)) ->
  In x prev /\ x <> i.
Proof.
  intros H. apply firstn_In_list, filter_In in H as [H1 H2].
  split; [exact H1|]. apply negb_true_iff, String.eqb_neq in H2. exact H2.
Qed.

(** X16: selecting a student puts the id at the head of the recent list and
    nowhere else, keeps the list to at most eight ids, brings in no id that
    was not there, keeps a duplicate-free list duplicate-free, and selecting
    the same student again changes nothing. *)
Theorem selectRecent_most_recent_first :
  forall (i : string) (prev : list string),
    (exists others,
        StudentSwitcher.selectRecent i prev = i :: others
        /\ ~ In i others
        /\ forall x, In x others -> In x prev)
    /\ (List.length (StudentSwitcher.selectRecent i prev) <= 8)%nat
    /\ (NoDup prev -> NoDup (StudentSwitcher.selectRecent i prev))
    /\ StudentSwitcher.selectRecent i (StudentSwitcher.selectRecent i prev)
       = StudentSwitcher.selectRecent i prev.
Proof.
  intros i prev. split; [|split; [|split]].
  - eexists. split; [apply selectRecent_unfold|]. split.
    + intros H. apply others_not_selected in H as [_ H]. now apply H.
    + intros x H. now apply others_not_selected in H.
  - unfold StudentSwitcher.selectRecent. apply firstn_le_length.
  - intros H. rewrite selectRecent_unfold. constructor.
    + intros C. apply others_not_selected in C as [_ C]. now apply C.
    + now apply firstn_NoDup, NoDup_filter.
  - rewrite !selectRecent_unfold. f_equal. cbn [filter].
    rewrite String.eqb_refl. cbn [negb].
    rewrite filter_all.
    + rewrite firstn_firstn. reflexivity.
    + intros x H. apply others_not_selected in H as [_ H].
      apply negb_true_iff, String.eqb_neq. exact H.
Qed.

(** X17: once the effect on the selected student has run, that student's id
    heads the recent list; a list that it heads already is left as it is, so
    running the effect again changes nothing; without a selected student the
    list is left alone. *)
Theorem ensureRecent_selected_first :
  forall (s : InsightAssembler.Student) (prev : list string),
    (exists others,
        StudentSwitcher.ensureRecent (Some s) prev
        = InsightAssembler.id s :: others)
    /\ (forall others,
           StudentSwitcher.ensureRecent
             (Some s) (InsightAssembler.id s :: others)
           = InsightAssembler.id s :: others)
    /\ StudentSwitcher.ensureRecent
         (Some s) (StudentSwitcher.ensureRecent (Some s) prev)
       = StudentSwitcher.ensureRecent (Some s) prev
    /\ StudentSwitcher.ensureRecent None prev = prev.
Proof.
  intros s prev.
  assert (Hhead : forall others,
             StudentSwitcher.ensureRecent
               (Some s) (InsightAssembler.id s :: others)
             = InsightAssembler.id s :: others).
  { intros others. cbn. now rewrite String.eqb_refl. }
  assert (Hex : exists others,
             StudentSwitcher.ensureRecent (Some s) prev
             = InsightAssembler.id s :: others).
  { unfold StudentSwitcher.ensureRecent. destruct prev as [|h prev].
    - eexists. apply selectRecent_unfold.
    - destruct (String.eqb h (InsightAssembler.id s)) eqn:E.
      + apply String.eqb_eq in E. subst h. now eexists.
      + eexists. apply selectRecent_unfold. }
  split; [exact Hex|]. split; [exact Hhead|]. split; [|reflexivity].
  destruct Hex as [others ->]. apply Hhead.
Qed.

Lemma byId_Some (students : list InsightAssembler.Student) (i : string)
      (s : InsightAssembler.Student) :
  StudentSwitcher.byId students i = Some s ->
  In s students /\ InsightAssembler.id s = i.
Proof.
  unfold StudentSwitcher.byId. intros H. apply find_some in H as [H1 H2].
  split; [now apply in_rev | now apply String.eqb_eq].
Qed.

Lemma recentLoop_facts (students : list InsightAssembler.Student)
      (recentIds : list string) :
  forall result (P : InsightAssembler.Student -> Prop),
    (List.length result < 8)%nat ->
    Forall P result ->
    (forall i s, In i recentIds ->
                 StudentSwitcher.byId students i = Some s -> P s) ->
    (List.length (StudentSwitcher.recentLoop students recentIds result)
     <= 8)%nat
    /\ Forall P (StudentSwitcher.recentLoop students recentIds result).
Proof.
  induction recentIds as [|i ids IH]; intros result P Hlen HP Hnew;
    cbn [StudentSwitcher.recentLoop]; cbv zeta.
  - split; [lia | exact HP].
  - assert (H' : (List.length
                    match StudentSwitcher.byId students i with
                    | Some s => (result ++ [s])%list
                    | None => result
                    end <= 8)%nat
                 /\ Forall P match StudentSwitcher.byId students i with
                             | Some s => (result ++ [s])%list
                             | None => result
                             end).
    { destruct (StudentSwitcher.byId students i) as [s|] eqn:B.
      - rewrite length_app. cbn. split; [lia|].
        apply Forall_app. split; [exact HP|]. constructor; [|constructor].
        apply (Hnew i s); [now left | exact B].
      - split; [lia | exact HP]. }
    destruct H' as [L F].
    match goal with
    | |- context [(8 <=? ?n)%nat] => destruct (8 <=? n)%nat eqn:E
    end.
    + split; assumption.
    + apply Nat.leb_gt in E. apply IH; try assumption.
      intros j s Hj. apply Hnew. now right.
Qed.

(** X18: the recent students shown are at most eight, and each of them is a
    student of the current list whose id is among the recent ids: an id that
    no student carries is passed over. *)
Theorem recentStudents_known_and_capped :
  forall (students : list InsightAssembler.Student) (recentIds : list string),
    (List.length (StudentSwitcher.recentStudents students recentIds) <= 8)%nat
    /\ Forall (fun s => In s students /\ In (InsightAssembler.id s) recentIds)
              (StudentSwitcher.recentStudents students recentIds).
Proof.
  intros students recentIds. unfold StudentSwitcher.recentStudents.
  destruct students as [|s0 students]; [split; [cbn; lia | constructor]|].
  apply recentLoop_facts; [cbn; lia | constructor|].
  intros i s Hi H. apply byId_Some in H as [H1 H2]. split; [exact H1|].
  now rewrite H2.
Qed.

(** X19: with a non-empty list of matches and the cursor on a match or at
    -1, ArrowDown and ArrowUp leave the cursor on a match; with the cursor
    on a match, each key undoes the other, wrapping around at both ends. *)
Theorem cursor_stays_on_the_list :
  forall len i : Z,
    (0 < len)%Z -> (-1 <= i < len)%Z ->
    (0 <= StudentSwitcher.arrowDown len i < len)%Z
    /\ (0 <= StudentSwitcher.arrowUp len i < len)%Z
    /\ ((0 <= i)%Z ->
        StudentSwitcher.arrowUp len (StudentSwitcher.arrowDown len i) = i
        /\ StudentSwitcher.arrowDown len (StudentSwitcher.arrowUp len i) = i).
Proof.
  intros len i Hlen Hi.
  unfold StudentSwitcher.arrowDown, StudentSwitcher.arrowUp.
  assert (E0 : (len =? 0)%Z = false) by (apply Z.eqb_neq; lia).
  rewrite E0.
  assert (D : Z.rem (i + 1) len
              = if (i + 1 =? len)%Z then 0%Z else (i + 1)%Z).
  { destruct (i + 1 =? len)%Z eqn:E.
    - apply Z.eqb_eq in E. rewrite E. apply Z.rem_same. lia.
    - apply Z.eqb_neq in E. apply Z.rem_small. lia. }
  rewrite D. split; [|split].
  - destruct (i + 1 =? len)%Z eqn:E; [lia|]. apply Z.eqb_neq in E. lia.
  - destruct (i <=? 0)%Z eqn:E; [lia|]. apply Z.leb_gt in E. lia.
  - intros Hi0. split.
    + destruct (i + 1 =? len)%Z eqn:E.
      * apply Z.eqb_eq in E. cbn. lia.
      * destruct (i + 1 <=? 0)%Z eqn:F; [apply Z.leb_le in F; lia|]. lia.
    + destruct (i <=? 0)%Z eqn:E.
      * apply Z.leb_le in E. assert (i = 0%Z) by lia. subst i.
        replace (len - 1 + 1)%Z with len by lia.
        apply Z.rem_same. lia.
      * apply Z.leb_gt in E. replace (i - 1 + 1)%Z with i by lia.
        apply Z.rem_small. lia.
Qed.

Lemma cursor_stays_on_the_list_witness :
  (0 < 3)%Z /\ (-1 <= 2 < 3)%Z
  /\ (0 <= StudentSwitcher.arrowDown 3 2 < 3)%Z
  /\ (0 <= StudentSwitcher.arrowUp 3 2 < 3)%Z
  /\ ((0 <= 2)%Z ->
      StudentSwitcher.arrowUp 3 (StudentSwitcher.arrowDown 3 2) = 2%Z
      /\ StudentSwitcher.arrowDown 3 (StudentSwitcher.arrowUp 3 2) = 2%Z).
Proof.
  split; [lia|]. split; [lia|].
  apply (cursor_stays_on_the_list 3 2); lia.
Defined.

(** ** The selected student's view *)

Lemma view_studentAssessments (s : InsightAssembler.Student)
      (data : list DataParser.Assessment) :
  App.studentAssessments (App.view (Some s) data)
  = Js.sort RetrievalEngine.byDateDescending
      (filter (fun record =>
                 String.eqb (DataParser.studentId record) (InsightAssembler.id s))
              data).
Proof.
  unfold App.view. destruct data as [|d data]; [reflexivity|].
  destruct (filter _ (d :: data)) as [|a l] eqn:F; [reflexivity|].
  destruct (Js.sort RetrievalEngine.byDateDescending (a :: l))
    as [|latest rest] eqn:Hs; [reflexivity|].
  cbn [App.studentAssessments].
  destruct (1 <? List.length (latest :: rest))%nat; [|reflexivity].
  rewrite <- Hs. apply sort_byDate_idempotent.
Qed.

(** X20: the list of assessments that [App] hands to its panels holds the
    records of the selected student, all of them and no others, ordered from
    the most recent to the oldest. *)
Theorem view_assessments_of_student :
  forall (s : InsightAssembler.Student) (data : list DataParser.Assessment),
    let shown := App.studentAssessments (App.view (Some s) data) in
    Permutation
      shown
      (filter (fun record =>
                 String.eqb (DataParser.studentId record) (InsightAssembler.id s))
              data)
    /\ Forall (fun a => DataParser.studentId a = InsightAssembler.id s) shown
    /\ StronglySorted
         (fun x y => (DataParser.date y <= DataParser.date x)%Z) shown.
Proof.
  intros s data shown. subst shown. rewrite view_studentAssessments.
  split; [apply sort_perm|]. split; [|apply sort_byDate_sorted].
  apply Forall_forall. intros a H.
  eapply Permutation_in in H; [|apply sort_perm].
  apply filter_In in H as [_ H]. now apply String.eqb_eq.
Qed.

Lemma band_counts (l : list (string * DataParser.TestResult)) :
  (List.length (filter (App.isBelow 100 15) l)
   + List.length (filter (App.isAverage 100 15) l)
   + List.length (filter (App.isAbove 100 15) l)
   = List.length
       (filter (fun kv => match DataParser.standardScore (snd kv) with
                          | Some _ => true
                          | None => false
                          end) l))%nat.
Proof.
  induction l as [|[k t] l IH]; [reflexivity|]. cbn [filter snd].
  remember (App.isBelow 100 15 (k, t)) as b1 eqn:E1.
  remember (App.isAverage 100 15 (k, t)) as b2 eqn:E2.
  remember (App.isAbove 100 15 (k, t)) as b3 eqn:E3.
  unfold App.isBelow, App.isAverage, App.isAbove, App.scored in E1, E2, E3.
  cbn [snd] in E1, E2, E3.
  destruct (DataParser.standardScore t) as [q|].
  - cbn in E1, E2, E3.
    destruct (Qle_bool (100 - 15) q) eqn:A;
      destruct (Qle_bool q (100 + 15)) eqn:B;
      cbn in E1, E2, E3; subst b1 b2 b3; cbn [List.length]; try lia.
    qbool. exfalso. lra.
  - cbn in E1, E2, E3. subst b1 b2 b3. exact IH.
Qed.

(** X21: the three counts of the KPI cards split the tests that have a
    standard score: below average, average and above average add up to the
    number of tests of the latest assessment whose standard score is not
    [null], which is at most [totalTests]. *)
Theorem kpi_counts_partition :
  forall (latest : DataParser.Assessment)
         (previous : option DataParser.Assessment),
    let k := App.kpiOf latest previous in
    (App.belowAverageCount k + App.averageCount k + App.aboveAverageCount k
     = List.length
         (filter (fun kv => match DataParser.standardScore (snd kv) with
                            | Some _ => true
                            | None => false
                            end)
                 (DataParser.tests latest)))%nat
    /\ (App.belowAverageCount k + App.averageCount k + App.aboveAverageCount k
        <= App.totalTests k)%nat.
Proof.
  intros latest previous k. subst k. cbn. rewrite band_counts.
  split; [reflexivity | apply filter_length_le].
Qed.

(** X22: the change shown on a KPI card is [null] exactly when the current
    or the previous score is missing or zero, so no division by zero takes
    place; for a current score other than zero and a positive previous
    score it is a number that is positive, zero or negative as the score
    rose, stayed or fell. *)
Theorem percentChange_sign :
  forall c p : Q,
    ~ c == 0 -> 0 < p ->
    (forall cur prev,
        App.percentChange cur prev = Js.Null
        <-> Js.truthy cur = false \/ Js.truthy prev = false)
    /\ exists v,
        App.percentChange (Js.Num (Js.Fin c)) (Js.Num (Js.Fin p))
        = Js.Num (Js.Fin v)
        /\ (0 < v <-> p < c)
        /\ (v == 0 <-> c == p)
        /\ (v < 0 <-> c < p).
Proof.
  intros c p Hc Hp. split.
  - intros cur prev. unfold App.percentChange.
    destruct (Js.truthy cur), (Js.truthy prev); cbn; split; intros H;
      try discriminate H; try reflexivity; auto.
    destruct H as [H|H]; discriminate H.
  - assert (Tc : Js.truthy (Js.Num (Js.Fin c)) = true).
    { cbn. destruct (Qeq_bool c 0) eqn:E; [|reflexivity].
      apply Qeq_bool_iff in E. contradiction. }
    assert (Tp : Js.truthy (Js.Num (Js.Fin p)) = true).
    { cbn. destruct (Qeq_bool p 0) eqn:E; [|reflexivity].
      apply Qeq_bool_iff in E. lra. }
    unfold App.percentChange. rewrite Tc, Tp. cbn [andb].
    eexists. split; [reflexivity|].
    cbn [Js.toNumber Js.sub Js.div Js.mul Js.lift2].
    set (d := (c - p) / p).
    assert (S : (p < c -> 0 < d) /\ (c == p -> d == 0) /\ (c < p -> d < 0)).
    { split; [|split]; intros H.
      - apply Qlt_shift_div_l; [exact Hp | lra].
      - unfold d. assert (E : c - p == 0) by lra. rewrite E. field. lra.
      - apply Qlt_shift_div_r; [exact Hp | lra]. }
    destruct S as [S1 [S2 S3]].
    destruct (Q_dec c p) as [[H|H]|H].
    + specialize (S3 H). repeat split; intros; lra.
    + specialize (S1 H). repeat split; intros; lra.
    + specialize (S2 H). repeat split; intros; lra.
Qed.

Lemma percentChange_sign_witness :
  (~ 90 == 0) /\ 0 < 80
  /\ exists v,
      App.percentChange (Js.Num (Js.Fin 90)) (Js.Num (Js.Fin 80))
      = Js.Num (Js.Fin v)
      /\ (0 < v <-> 80 < 90)
      /\ (v == 0 <-> 90 == 80)
      /\ (v < 0 <-> 90 < 80).
Proof.
  assert (A : ~ 90 == 0) by (intros H; discriminate H).
  assert (B : 0 < 80) by reflexivity.
  split; [exact A|]. split; [exact B|].
  exact (proj2 (percentChange_sign 90 80 A B)).
Defined.

(** X23: the insights that [App] builds for the export name the same tests
    with the same scores as the lists of the panel, below and above average
    alike; the panel orders them by score, the export keeps the order of the
    tests. *)
Theorem export_lists_the_panel_tests :
  forall (entries : list (string * DataParser.TestResult)),
    Permutation
      (map (fun s => (InsightsPanel.test s, InsightsPanel.score s))
           (InsightsPanel.belowAverage panelMean panelSd entries))
      (map (fun s => (App.simpleTest s, App.simpleScore s))
           (map App.toSimple (filter (App.isBelow 100 15) entries)))
    /\ Permutation
         (map (fun s => (InsightsPanel.test s, InsightsPanel.score s))
              (InsightsPanel.aboveAverage panelMean panelSd entries))
         (map (fun s => (App.simpleTest s, App.simpleScore s))
              (map App.toSimple (filter (App.isAbove 100 15) entries))).
Proof.
  intros entries.
  assert (M : forall l : list (string * DataParser.TestResult),
             map (fun s => (InsightsPanel.test s, InsightsPanel.score s))
                 (map InsightsPanel.toScored l)
             = map (fun s => (App.simpleTest s, App.simpleScore s))
                   (map App.toSimple l)).
  { intros l. rewrite !map_map. apply map_ext. now intros [k t]. }
  split.
  - eapply perm_trans; [apply Permutation_map, sort_perm|].
    rewrite M. apply Permutation_refl.
  - eapply perm_trans; [apply Permutation_map, sort_perm|].
    rewrite M. apply Permutation_refl.
Qed.

(** ** Avatar colours *)

(** X24: [getAvatarColor] always answers with a colour of the palette,
    never with [undefined]: the index computed from the hash lies within the
    twelve colours for every identifier, and a missing or empty identifier
    gets the colour of "default". *)
Theorem getAvatarColor_in_palette :
  forall identifier : option string,
    (exists c, AvatarUtils.getAvatarColor identifier = Some c
               /\ In c AvatarUtils.colors)
    /\ AvatarUtils.getAvatarColor None
       = AvatarUtils.getAvatarColor (Some "default")
    /\ AvatarUtils.getAvatarColor (Some "")
       = AvatarUtils.getAvatarColor (Some "default").
Proof.
  intros identifier. split; [|split; reflexivity].
  unfold AvatarUtils.getAvatarColor. cbv zeta.
  match goal with
  | |- exists c, nth_error _ (Z.to_nat ?i) = _ /\ _ =>
      assert (B : (Z.to_nat i < List.length AvatarUtils.colors)%nat)
  end.
  { change (Z.of_nat (List.length AvatarUtils.colors)) with 12%Z.
    change (List.length AvatarUtils.colors) with 12%nat.
    match goal with
    | |- context [(Z.abs ?h mod 12)%Z] =>
        pose proof (Z.mod_pos_bound (Z.abs h) 12 ltac:(lia))
    end.
    lia. }
  apply nth_error_Some in B.
  destruct (nth_error AvatarUtils.colors _) as [c|] eqn:E;
    [|now contradiction B].
  exists c. split; [reflexivity|]. now apply nth_error_In in E.
Qed.

(** ** The assistant: retrieval, then assembly *)

Lemma assembleCompleteReport_array_of_sorted
      (now : Z) (st : option InsightAssembler.Student)
      (assessments : list DataParser.Assessment)
      (entries : list RetrievalEngine.entry) (aud : string) :
  snd (InsightAssembler.assembleCompleteReport
         now st (Js.sort RetrievalEngine.byDateDescending assessments)
         entries aud)
  = Js.sort RetrievalEngine.byDateDescending assessments.
Proof.
  destruct entries as [|e entries].
  - unfold InsightAssembler.assembleCompleteReport.
    destruct (Js.sort _ assessments); reflexivity.
  - rewrite assembleCompleteReport_array. apply sort_byDate_idempotent.
Qed.

Lemma report_unfold (table : list RetrievalEngine.entry) (now : Z)
      (s : InsightAssembler.Student)
      (a : DataParser.Assessment) (l : list DataParser.Assessment)
      (aud : string) :
  ClinicalInsightAssistant.report table now (Some s) (a :: l) aud
  = (Some (fst (InsightAssembler.assembleCompleteReport
                  now (Some s)
                  (Js.sort RetrievalEngine.byDateDescending (a :: l))
                  (fst (RetrievalEngine.retrieveAllInterpretations
                          table (a :: l) aud))
                  aud)),
     Js.sort RetrievalEngine.byDateDescending (a :: l)).
Proof.
  unfold ClinicalInsightAssistant.report.
  rewrite (surjective_pairing
             (RetrievalEngine.retrieveAllInterpretations table (a :: l) aud)).
  rewrite retrieveAllInterpretations_array.
  rewrite (surjective_pairing
             (InsightAssembler.assembleCompleteReport _ _ _ _ _)).
  now rewrite assembleCompleteReport_array_of_sorted.
Qed.

Lemma assembleCompleteReport_audience_total
      (now : Z) (st : option InsightAssembler.Student)
      (a : DataParser.Assessment) (l : list DataParser.Assessment)
      (entries : list RetrievalEngine.entry) (aud : string) :
  InsightAssembler.audience
    (fst (InsightAssembler.assembleCompleteReport now st (a :: l) entries aud))
  = aud
  /\ InsightAssembler.totalRetrieved
       (fst (InsightAssembler.assembleCompleteReport
               now st (a :: l) entries aud))
     = List.length entries.
Proof.
  unfold InsightAssembler.assembleCompleteReport.
  destruct entries as [|e entries]; [split; reflexivity|].
  destruct (Js.sort _ (a :: l)) as [|x xs] eqn:Hs.
  - now apply sort_nonempty in Hs.
  - destruct (fold_left _ _ _). split; reflexivity.
Qed.

(** X25: the report of the assistant is assembled on the array that the
    retrieval has sorted, and the second sort moves nothing: the array ends
    up sorted most recent first, the report counts exactly the retrieved
    entries, and every test insight shows the score, z-score and band of the
    most recent assessment.  Without a student or without assessments there
    is no report and the array is untouched. *)
Theorem assistant_report_of_latest :
  forall (table : list RetrievalEngine.entry) (now : Z)
         (s : InsightAssembler.Student)
         (assessments : list DataParser.Assessment) (aud : string)
         (latest : DataParser.Assessment) (rest : list DataParser.Assessment),
    Js.sort RetrievalEngine.byDateDescending assessments = latest :: rest ->
    (exists r,
        ClinicalInsightAssistant.report table now (Some s) assessments aud
        = (Some r, latest :: rest)
        /\ InsightAssembler.audience r = aud
        /\ InsightAssembler.totalRetrieved r
           = List.length
               (fst (RetrievalEngine.retrieveAllInterpretations
                       table assessments aud))
        /\ Forall (reportsScoreOf latest) (InsightAssembler.testInsights r))
    /\ ClinicalInsightAssistant.report table now None assessments aud
       = (None, assessments)
    /\ ClinicalInsightAssistant.report table now (Some s) [] aud = (None, []).
Proof.
  intros table now s assessments aud latest rest Hs.
  split; [|split; [destruct assessments|]; reflexivity].
  destruct assessments as [|a l]; [discriminate Hs|].
  rewrite report_unfold. eexists. split; [now rewrite Hs|].
  destruct (assembleCompleteReport_audience_total
              now (Some s) latest rest
              (fst (RetrievalEngine.retrieveAllInterpretations
                      table (a :: l) aud)) aud) as [A T].
  split; [exact A|]. split; [exact T|].
  apply (testInsights_show_latest now (Some s) _ _ aud latest rest).
  rewrite <- Hs. apply sort_byDate_idempotent.
Qed.

Lemma assistant_report_of_latest_witness :
  Js.sort RetrievalEngine.byDateDescending [firstVisit; smallGainVisit]
  = [smallGainVisit; firstVisit]
  /\ exists r,
      ClinicalInsightAssistant.report
        [receptive_below_avg] 0 (Some {| InsightAssembler.id := "17";
                                         InsightAssembler.name := "A.K." |})
        [firstVisit; smallGainVisit] "clinician"
      = (Some r, [smallGainVisit; firstVisit])
      /\ InsightAssembler.audience r = "clinician"
      /\ InsightAssembler.totalRetrieved r
         = List.length
             (fst (RetrievalEngine.retrieveAllInterpretations
                     [receptive_below_avg] [firstVisit; smallGainVisit]
                     "clinician"))
      /\ Forall (reportsScoreOf smallGainVisit)
                (InsightAssembler.testInsights r).
Proof.
  split; [reflexivity|].
  exact (proj1 (assistant_report_of_latest
                  [receptive_below_avg] 0
                  {| InsightAssembler.id := "17";
                     InsightAssembler.name := "A.K." |}
                  [firstVisit; smallGainVisit] "clinician"
                  smallGainVisit [firstVisit] eq_refl)).
Defined.

(** X26: whatever question is selected, the assistant shows a report when
    there is one; the test insights and comparisons it shows are among those
    of the report, and [totalRetrieved] stays what the report said.  The
    question "comparison" shows no test insight, the questions "receptive"
    and "expressive" show no comparison, and with no question selected the
    report is shown as it is. *)
Theorem displayedInsights_within_report :
  forall (r : InsightAssembler.Report) (q : option string),
    exists d,
      ClinicalInsightAssistant.displayedInsights (Some r) q = Some d
      /\ incl (InsightAssembler.testInsights d) (InsightAssembler.testInsights r)
      /\ incl (InsightAssembler.comparisons d) (InsightAssembler.comparisons r)
      /\ InsightAssembler.totalRetrieved d = InsightAssembler.totalRetrieved r
      /\ (q = Some "comparison" -> InsightAssembler.testInsights d = [])
      /\ (q = Some "receptive" \/ q = Some "expressive" ->
          InsightAssembler.comparisons d = [])
      /\ (q = None -> d = r).
Proof.
  intros r q. unfold ClinicalInsightAssistant.displayedInsights.
  destruct q as [q|].
  2:{ exists r. repeat split; try apply incl_refl; try discriminate.
      intros [H|H]; discriminate H. }
  destruct (String.eqb q "") eqn:E0.
  { apply String.eqb_eq in E0. subst q. exists r.
    repeat split; try apply incl_refl; try discriminate.
    intros [H|H]; discriminate H. }
  destruct (String.eqb q "receptive") eqn:E1.
  { eexists. split; [reflexivity|]. cbn.
    apply String.eqb_eq in E1. subst q.
    repeat split; try discriminate.
    - intros x H. now apply filter_In in H.
    - intros x []. }
  destruct (String.eqb q "expressive") eqn:E2.
  { eexists. split; [reflexivity|]. cbn.
    apply String.eqb_eq in E2. subst q.
    repeat split; try discriminate.
    - intros x H. now apply filter_In in H.
    - intros x []. }
  destruct (String.eqb q "comparison") eqn:E3.
  { eexists. split; [reflexivity|]. cbn.
    apply String.eqb_eq in E3. subst q.
    repeat split; try discriminate; try apply incl_refl.
    - intros x [].
    - intros [H|H]; discriminate H. }
  apply String.eqb_neq in E1, E2, E3.
  exists r. repeat split; try apply incl_refl; try discriminate.
  - intros [= ->]. now contradiction E3.
  - intros [[= ->]|[= ->]]; [now contradiction E1 | now contradiction E2].
Qed.

(** ** One test, assembled two ways *)

Lemma fold_groupEntry_one_test
      (latest : DataParser.Assessment) (key : string)
      (td : DataParser.TestResult) (es : list RetrievalEngine.entry) :
  Js.get key (DataParser.tests latest) = Some td ->
  Js.truthy (Js.of_option (DataParser.standardScore td)) = true ->
  Forall (fun x => RetrievalEngine.test_abbreviation x = key
                   /\ RetrievalEngine.test_type x <> "Composite Comparison")
         es ->
  forall t,
    InsightAssembler.testAbbreviation t = key ->
    fold_left (InsightAssembler.groupEntry latest) es ([t], [])
    = ([ {| InsightAssembler.test := InsightAssembler.test t;
            InsightAssembler.testAbbreviation
              := InsightAssembler.testAbbreviation t;
            InsightAssembler.score := InsightAssembler.score t;
            InsightAssembler.zScore := InsightAssembler.zScore t;
            InsightAssembler.normativeBand := InsightAssembler.normativeBand t;
            InsightAssembler.insights :=
              (InsightAssembler.insights t
                 ++ map InsightAssembler.toInsight es)%list;
            InsightAssembler.retrievedCount :=
              (InsightAssembler.retrievedCount t + List.length es)%nat |} ],
       []).
Proof.
  intros Hg Ht. induction es as [|e es IH]; intros F t Hk.
  - cbn. rewrite app_nil_r, Nat.add_0_r. now destruct t.
  - apply Forall_cons_iff in F as [[Ha Hc] F]. cbn [fold_left].
    assert (Hstep : InsightAssembler.groupEntry latest ([t], []) e
                    = ([InsightAssembler.pushInsight e t], [])).
    { unfold InsightAssembler.groupEntry.
      apply String.eqb_neq in Hc. rewrite Hc, Ha, Hg. cbv zeta. rewrite Ht.
      cbn [InsightAssembler.updateExisting].
      now rewrite Hk, String.eqb_refl. }
    rewrite Hstep, (IH F); [|exact Hk]. cbn.
    rewrite <- app_assoc, Nat.add_succ_r. reflexivity.
Qed.

(** X27: when every retrieved entry is a single-test rule for one
    abbreviation and the most recent assessment stores a score for it that
    is neither missing nor zero, the complete report has exactly one test
    insight, and it is the one that [assembleTestInsights] builds from the
    same entries, the test type of the first entry and that score. *)
Theorem complete_report_agrees_with_assembleTestInsights :
  forall (now : Z) (st : option InsightAssembler.Student)
         (assessments : list DataParser.Assessment) (aud : string)
         (latest : DataParser.Assessment) (rest : list DataParser.Assessment)
         (key : string) (td : DataParser.TestResult)
         (e : RetrievalEngine.entry) (es : list RetrievalEngine.entry),
    Js.sort RetrievalEngine.byDateDescending assessments = latest :: rest ->
    Js.get key (DataParser.tests latest) = Some td ->
    Js.truthy (Js.of_option (DataParser.standardScore td)) = true ->
    Forall (fun x => RetrievalEngine.test_abbreviation x = key
                     /\ RetrievalEngine.test_type x <> "Composite Comparison")
           (e :: es) ->
    option_map
      (fun t => [t])
      (InsightAssembler.assembleTestInsights
         (RetrievalEngine.test_type e) key
         (Js.of_option (DataParser.standardScore td)) (e :: es))
    = Some (InsightAssembler.testInsights
              (fst (InsightAssembler.assembleCompleteReport
                      now st assessments (e :: es) aud))).
Proof.
  intros now st assessments aud latest rest key td e es Hs Hg Ht F.
  unfold InsightAssembler.assembleCompleteReport.
  destruct assessments as [|a l]; [discriminate Hs|]. rewrite Hs.
  apply Forall_cons_iff in F as [[Ha Hc] F]. cbn [fold_left].
  match goal with
  | |- context [InsightAssembler.groupEntry latest ([], []) e] =>
      assert (Hstep :
               exists t, InsightAssembler.groupEntry latest ([], []) e
                         = ([t], [])
                         /\ InsightAssembler.testAbbreviation t = key
                         /\ InsightAssembler.assembleTestInsights
                              (RetrievalEngine.test_type e) key
                              (Js.of_option (DataParser.standardScore td)) [e]
                            = Some t)
  end.
  { unfold InsightAssembler.groupEntry.
    apply String.eqb_neq in Hc. rewrite Hc, Ha, Hg. cbv zeta. rewrite Ht.
    cbn [InsightAssembler.updateExisting]. eexists.
    split; [reflexivity|]. split; reflexivity. }
  destruct Hstep as (t & -> & Hk & Hone).
  rewrite (fold_groupEntry_one_test latest key td es Hg Ht F t Hk).
  cbn [fst InsightAssembler.testInsights]. cbn in Hone.
  injection Hone as <-. cbn. reflexivity.
Qed.

Lemma complete_report_agrees_with_assembleTestInsights_witness :
  option_map
    (fun t => [t])
    (InsightAssembler.assembleTestInsights
       (RetrievalEngine.test_type receptive_below_avg) "RLI"
       (Js.of_option (DataParser.standardScore
                        (resultOf 83 "Receptive Language Index")))
       [receptive_below_avg; receptive_below_avg])
  = Some (InsightAssembler.testInsights
            (fst (InsightAssembler.assembleCompleteReport
                    0 None [firstVisit; smallGainVisit]
                    [receptive_below_avg; receptive_below_avg]
                    "clinician"))).
Proof.
  apply (complete_report_agrees_with_assembleTestInsights
           0 None [firstVisit; smallGainVisit] "clinician"
           smallGainVisit [firstVisit] "RLI"
           (resultOf 83 "Receptive Language Index")
           receptive_below_avg [receptive_below_avg]).
  - reflexivity.
  - reflexivity.
  - reflexivity.
  - repeat constructor; discriminate.
Defined.

(** X28: the list of tests that [App] offers for the selected student names
    every test code that one of the student's assessments carries, each code
    once, and never the key "undefined". *)
Theorem uniqueTests_each_code_once :
  forall (assessments : list DataParser.Assessment),
    NoDup (App.uniqueTests assessments)
    /\ forall k,
        In k (App.uniqueTests assessments)
        <-> k <> "undefined"
            /\ exists a, In a assessments
                         /\ In k (Js.keys (DataParser.tests a)).
Proof.
  intros assessments. unfold App.uniqueTests. split.
  - apply NoDup_filter, setOfKeys_NoDup.
  - intros k. rewrite filter_In, setOfKeys_In, in_flat_map.
    rewrite negb_true_iff, String.eqb_neq. tauto.
Qed.
